(** * A shallow embedding of the async calculator's safe evaluator

    The development follows [src/main.py]: the Python objects the evaluator
    handles, the operators of [SafeEvaluator.ALLOWED_OPERATORS], the callables
    of [Calculator._make_names], the visitor methods of [SafeEvaluator] and
    the text pipeline of [Calculator._eval_expression].

    What CPython supplies and the repository does not own is kept apart:
    - the C math library is a parameter ([Libm]);
    - [ast.parse] is a parameter ([Parser]); a model of it on a small grammar
      ([py_parse]) is used for the concrete expression texts only. *)

From Stdlib Require Import ZArith String Ascii List Bool Floats Lia.
From stdpp Require Import base option list strings gmap.
Import ListNotations.
Set Warnings "-register-all".

(** A Python [str] is a Rocq string whose characters are read as the code
    points U+0000 to U+00FF. *)
Local Open Scope string_scope.

(** ** Python objects *)

(** The callables that [Calculator._make_names] puts in the registry. *)
Inductive callable :=
| LambdaSin       (* lambda x: math.sin(math.radians(x)) *)
| LambdaCos       (* lambda x: math.cos(math.radians(x)) *)
| LambdaTan       (* lambda x: math.tan(math.radians(x)) *)
| LambdaAsin      (* lambda x: math.degrees(math.asin(x)) *)
| LambdaAcos      (* lambda x: math.degrees(math.acos(x)) *)
| LambdaAtan      (* lambda x: math.degrees(math.atan(x)) *)
| MathSqrt        (* math.sqrt *)
| MathLog         (* math.log *)
| MathLog10       (* math.log10 *)
| BuiltinAbs      (* abs *)
| BuiltinRound    (* round *)
| MathFloor       (* math.floor *)
| MathCeil        (* math.ceil *)
| LambdaFactorial (* lambda n: math.factorial(int(n)) *)
| BuiltinSum      (* sum *)
| GetMemoryValue  (* self._get_memory_value, a bound method *).

(** The objects an evaluation can produce or find in the registry. *)
Inductive value :=
| VInt (n : Z)
| VBool (b : bool)
| VFloat (x : float)
| VComplex (re im : float)
| VList (items : list value)
| VCallable (f : callable).

(** Exceptions.  [SafeEvalError] is the repository's class and carries its
    message; the others are Python's own. *)
Inductive exn :=
| SafeEvalError (msg : string)
| SyntaxError (msg : string)
| ZeroDivisionError
| ValueError
| TypeError
| OverflowError.

Inductive result (A : Type) :=
| Ok (a : A)
| Raise (e : exn).
Arguments Ok {A} a.
Arguments Raise {A} e.

Definition result_bind {A B} (r : result A) (k : A -> result B) : result B :=
  match r with
  | Ok a => k a
  | Raise e => Raise e
  end.

Notation "'let+' x ':=' r 'in' k" := (result_bind r (fun x => k))
  (at level 10, x pattern, r at level 100, k at level 200).

(** ** The calculator object and evaluation against it *)

(** [Calculator.__init__] sets two attributes. *)
Record Calculator := {
  memory : float;
  _names : gmap string value
}.

(** A computation that may read or write the calculator and may raise. *)
Definition Eval (A : Type) : Type := Calculator -> result A * Calculator.

Definition ret {A} (a : A) : Eval A := fun self => (Ok a, self).
Definition raise {A} (e : exn) : Eval A := fun self => (Raise e, self).
Definition lift {A} (r : result A) : Eval A := fun self => (r, self).
Definition bind {A B} (m : Eval A) (k : A -> Eval B) : Eval B :=
  fun self =>
    match m self with
    | (Ok a, self') => k a self'
    | (Raise e, self') => (Raise e, self')
    end.

Notation "'let*' x ':=' m 'in' k" := (bind m (fun x => k))
  (at level 10, x pattern, m at level 100, k at level 200).

(** A list comprehension [[f(x) for x in xs]]: left to right, stopping at the
    first exception. *)
Definition comprehension {A B} (f : A -> Eval B) : list A -> Eval (list B) :=
  fix go (xs : list A) : Eval (list B) :=
    match xs with
    | [] => ret []
    | x :: xs' => let* y := f x in let* ys := go xs' in ret (y :: ys)
    end.

(** ** Numbers as CPython computes them *)

(** The C math library routines beneath [math] and the float and complex
    power operators.  Their results are the platform's and are left open;
    everything the evaluator decides around them is modelled below. *)
Class Libm := {
  c_sin : float -> float;
  c_cos : float -> float;
  c_tan : float -> float;
  c_asin : float -> float;
  c_acos : float -> float;
  c_atan : float -> float;
  c_log : float -> float;
  c_log10 : float -> float;
  c_pow : float -> float -> float;
  c_hypot : float -> float -> float;
  (* _Py_c_pow / c_powi of complexobject.c on a nonzero base and exponent *)
  c_complex_pow : float * float -> float * float -> float * float;
  (* double_round of floatobject.c; None when the rounded value overflows *)
  double_round : float -> Z -> option float
}.

Module pyfloat.
Local Open Scope Z_scope.

(** The integer [n] as a correctly rounded double; infinite when too large. *)
Definition of_Z (n : Z) : float := SF2Prim (binary_normalize prec emax n 0 false).

Definition raw (n : Z) : spec_float :=
  match n with
  | Z0 => S754_zero false
  | Zpos p => S754_finite false p 0
  | Zneg p => S754_finite true p 0
  end.

(** The correctly rounded quotient of two integers. *)
Definition of_quotient (a b : Z) : float := SF2Prim (SFdiv prec emax (raw a) (raw b)).

(** PyLong_AsDouble *)
Definition PyLong_AsDouble (n : Z) : result float :=
  let x := of_Z n in
  if is_infinity x then Raise OverflowError else Ok x.

(** PyLong_FromDouble after a C rounding function; [rnd n d] rounds the
    rational n/d (d a positive power of two) to an integer. *)
Definition to_Z (rnd : Z -> Z -> Z) (x : float) : result Z :=
  match Prim2SF x with
  | S754_nan => Raise ValueError
  | S754_infinity _ => Raise OverflowError
  | S754_zero _ => Ok 0
  | S754_finite s m e =>
      let n := cond_Zopp s (Zpos m) in
      Ok (if 0 <=? e then n * 2 ^ e else rnd n (2 ^ (- e)))
  end.

Definition rnd_floor (n d : Z) : Z := n / d.
Definition rnd_ceil (n d : Z) : Z := - ((- n) / d).
Definition rnd_trunc (n d : Z) : Z := Z.quot n d.
Definition rnd_half_even (n d : Z) : Z :=
  let q := n / d in
  let r := n mod d in
  match 2 * r ?= d with
  | Lt => q
  | Gt => q + 1
  | Eq => if Z.even q then q else q + 1
  end.

(** C [floor] on doubles. *)
Definition c_floor (x : float) : float :=
  match Prim2SF x with
  | S754_finite s m e =>
      if e <? 0 then of_Z (rnd_floor (cond_Zopp s (Zpos m)) (2 ^ (- e))) else x
  | _ => x
  end.

(** C [copysign (0.0, w)]. *)
Definition copysign_zero (w : float) : float :=
  if get_sign w then neg_zero else zero.

(** C [fmod]: exact. *)
Definition c_fmod (x y : float) : float :=
  match Prim2SF x, Prim2SF y with
  | S754_nan, _ | _, S754_nan => nan
  | S754_infinity _, _ => nan
  | _, S754_zero _ => nan
  | S754_zero _, _ => x
  | _, S754_infinity _ => x
  | S754_finite sx mx ex, S754_finite sy my ey =>
      let e := Z.min ex ey in
      let r := (Zpos mx * 2 ^ (ex - e)) mod (Zpos my * 2 ^ (ey - e)) in
      if r =? 0 then (if sx then neg_zero else zero)
      else SF2Prim (binary_normalize prec emax (cond_Zopp sx r) e false)
  end.

(** A C double used as a condition. *)
Definition truthy (x : float) : bool := negb (x =? 0)%float.

(** DOUBLE_IS_ODD_INTEGER of floatobject.c *)
Definition DOUBLE_IS_ODD_INTEGER (x : float) : bool :=
  (c_fmod (abs x) 2 =? 1)%float.

End pyfloat.

(** ** Python's arithmetic on objects *)

(** The numeric types: [bool] is a subclass of [int]. *)
Inductive number :=
| NInt (n : Z)
| NFloat (x : float)
| NComplex (z : float * float).

Definition as_number (v : value) : option number :=
  match v with
  | VInt n => Some (NInt n)
  | VBool b => Some (NInt (Z.b2z b))
  | VFloat x => Some (NFloat x)
  | VComplex re im => Some (NComplex (re, im))
  | VList _ | VCallable _ => None
  end.

Definition is_complex (n : number) : bool :=
  match n with NComplex _ => true | _ => false end.

Definition to_double (n : number) : result float :=
  match n with
  | NInt n => pyfloat.PyLong_AsDouble n
  | NFloat x => Ok x
  | NComplex _ => Raise TypeError
  end.

Definition to_complex (n : number) : result (float * float) :=
  match n with
  | NInt n => let+ x := pyfloat.PyLong_AsDouble n in Ok (x, zero)
  | NFloat x => Ok (x, zero)
  | NComplex z => Ok z
  end.

(** PyFloat_AsDouble: what [math] functions and [float()] do to an argument. *)
Definition PyFloat_AsDouble (v : value) : result float :=
  match as_number v with
  | Some n => to_double n
  | None => Raise TypeError
  end.

Definition VComplex_of (z : float * float) : value := VComplex (fst z) (snd z).

(** Binary arithmetic: both integers, else complex if either is, else float. *)
Definition binary_arith
    (on_int : Z -> Z -> result value)
    (on_float : float -> float -> result value)
    (on_complex : float * float -> float * float -> result value)
    (a b : value) : result value :=
  match as_number a, as_number b with
  | Some (NInt x), Some (NInt y) => on_int x y
  | Some x, Some y =>
      if is_complex x || is_complex y
      then let+ u := to_complex x in let+ w := to_complex y in on_complex u w
      else let+ u := to_double x in let+ w := to_double y in on_float u w
  | _, _ => Raise TypeError
  end.

Section FloatObject.
Local Open Scope float_scope.

Definition float_div (a b : float) : result value :=
  if b =? 0 then Raise ZeroDivisionError else Ok (VFloat (a / b)).

Definition float_rem (vx wx : float) : result value :=
  if wx =? 0 then Raise ZeroDivisionError
  else
    let rem := pyfloat.c_fmod vx wx in
    Ok (VFloat (if pyfloat.truthy rem
                then (if xorb (wx <? 0) (rem <? 0) then rem + wx else rem)
                else pyfloat.copysign_zero wx)).

Definition float_floor_div (vx wx : float) : result value :=
  if wx =? 0 then Raise ZeroDivisionError
  else
    let rem := pyfloat.c_fmod vx wx in
    let div := (vx - rem) / wx in
    let div := if pyfloat.truthy rem && xorb (wx <? 0) (rem <? 0) then div - 1 else div in
    Ok (VFloat (if pyfloat.truthy div
                then (let floordiv := pyfloat.c_floor div in
                      if 0.5 <? div - floordiv then floordiv + 1 else floordiv)
                else pyfloat.copysign_zero (vx / wx))).

(** _Py_c_quot; None stands for errno = EDOM. *)
Definition _Py_c_quot (a b : float * float) : option (float * float) :=
  let '(ar, ai) := a in
  let '(br, bi) := b in
  let abs_breal := if br <? 0 then - br else br in
  let abs_bimag := if bi <? 0 then - bi else bi in
  if abs_bimag <=? abs_breal then
    if abs_breal =? 0 then None
    else
      let ratio := bi / br in
      let denom := br + bi * ratio in
      Some ((ar + ai * ratio) / denom, (ai - ar * ratio) / denom)
  else if abs_breal <=? abs_bimag then
    let ratio := br / bi in
    let denom := br * ratio + bi in
    Some ((ar * ratio + ai) / denom, (ai * ratio - ar) / denom)
  else Some (nan, nan).

Definition complex_div (a b : float * float) : result value :=
  match _Py_c_quot a b with
  | Some q => Ok (VComplex_of q)
  | None => Raise ZeroDivisionError
  end.

Definition complex_add (a b : float * float) : result value :=
  Ok (VComplex (fst a + fst b) (snd a + snd b)).
Definition complex_sub (a b : float * float) : result value :=
  Ok (VComplex (fst a - fst b) (snd a - snd b)).
Definition complex_mul (a b : float * float) : result value :=
  Ok (VComplex (fst a * fst b - snd a * snd b) (fst a * snd b + snd a * fst b)).

Context {M : Libm}.

(** complex_pow of complexobject.c: a zero exponent gives 1; a zero base
    gives 0 or a division by zero; otherwise the library computes the power
    and an infinite part is a range error. *)
Definition complex_pow (a b : float * float) : result value :=
  if (fst b =? 0) && (snd b =? 0) then Ok (VComplex 1 0)
  else if (fst a =? 0) && (snd a =? 0) then
    if negb (snd b =? 0) || (fst b <? 0) then Raise ZeroDivisionError
    else Ok (VComplex 0 0)
  else
    let p := c_complex_pow a b in
    if is_infinity (fst p) || is_infinity (snd p) then Raise OverflowError
    else Ok (VComplex_of p).

(** float_pow of floatobject.c *)
Definition float_pow (iv iw : float) : result value :=
  if iw =? 0 then Ok (VFloat 1)
  else if is_nan iv then Ok (VFloat iv)
  else if is_nan iw then Ok (VFloat (if iv =? 1 then 1 else iw))
  else if is_infinity iw then
    let iv := abs iv in
    Ok (VFloat (if iv =? 1 then 1
                else if Bool.eqb (0 <? iw) (1 <? iv) then abs iw else 0))
  else if is_infinity iv then
    let iw_is_odd := pyfloat.DOUBLE_IS_ODD_INTEGER iw in
    Ok (VFloat (if 0 <? iw
                then (if iw_is_odd then iv else abs iv)
                else (if iw_is_odd then pyfloat.copysign_zero iv else 0)))
  else if iv =? 0 then
    if iw <? 0 then Raise ZeroDivisionError
    else Ok (VFloat (if pyfloat.DOUBLE_IS_ODD_INTEGER iw then iv else 0))
  else if (iv <? 0) && negb (iw =? pyfloat.c_floor iw) then
    (* Negative numbers raised to fractional powers become complex. *)
    complex_pow (iv, 0) (iw, 0)
  else
    let negate_result := (iv <? 0) && pyfloat.DOUBLE_IS_ODD_INTEGER iw in
    let iv := if iv <? 0 then - iv else iv in
    if iv =? 1 then Ok (VFloat (if negate_result then -1 else 1))
    else
      let ix := c_pow iv iw in
      if is_infinity ix then Raise OverflowError
      else Ok (VFloat (if negate_result then - ix else ix)).

End FloatObject.

Section LongObject.
Local Open Scope Z_scope.

Definition long_add (a b : Z) : result value := Ok (VInt (a + b)).
Definition long_sub (a b : Z) : result value := Ok (VInt (a - b)).
Definition long_mul (a b : Z) : result value := Ok (VInt (a * b)).

Definition long_true_divide (a b : Z) : result value :=
  if b =? 0 then Raise ZeroDivisionError
  else
    let q := pyfloat.of_quotient a b in
    if is_infinity q then Raise OverflowError else Ok (VFloat q).

Definition long_div (a b : Z) : result value :=
  if b =? 0 then Raise ZeroDivisionError else Ok (VInt (a / b)).

Definition long_mod (a b : Z) : result value :=
  if b =? 0 then Raise ZeroDivisionError else Ok (VInt (a mod b)).

(** A negative exponent makes the power a float power. *)
Definition long_pow {M : Libm} (a b : Z) : result value :=
  if b <? 0
  then let+ x := pyfloat.PyLong_AsDouble a in
       let+ y := pyfloat.PyLong_AsDouble b in
       float_pow x y
  else Ok (VInt (a ^ b)).

End LongObject.

Definition unsupported (_ _ : float * float) : result value := Raise TypeError.

(** [items * n] on a list. *)
Definition list_repeat (items : list value) (n : Z) : value :=
  VList (concat (replicate (Z.to_nat n) items)).

Definition as_index (v : value) : option Z :=
  match v with
  | VInt n => Some n
  | VBool b => Some (Z.b2z b)
  | _ => None
  end.

Definition PyNumber_Add (a b : value) : result value :=
  match a, b with
  | VList x, VList y => Ok (VList (x ++ y))
  | _, _ => binary_arith long_add (fun x y => Ok (VFloat (x + y))) complex_add a b
  end.

Definition PyNumber_Subtract (a b : value) : result value :=
  binary_arith long_sub (fun x y => Ok (VFloat (x - y))) complex_sub a b.

Definition PyNumber_Multiply (a b : value) : result value :=
  match a, b with
  | VList x, _ =>
      match as_index b with Some n => Ok (list_repeat x n) | None => Raise TypeError end
  | _, VList y =>
      match as_index a with Some n => Ok (list_repeat y n) | None => Raise TypeError end
  | _, _ => binary_arith long_mul (fun x y => Ok (VFloat (x * y))) complex_mul a b
  end.

Definition PyNumber_TrueDivide (a b : value) : result value :=
  binary_arith long_true_divide float_div complex_div a b.

Definition PyNumber_FloorDivide (a b : value) : result value :=
  binary_arith long_div float_floor_div unsupported a b.

Definition PyNumber_Remainder (a b : value) : result value :=
  binary_arith long_mod float_rem unsupported a b.

Definition PyNumber_Power {M : Libm} (a b : value) : result value :=
  binary_arith long_pow float_pow complex_pow a b.

Definition PyNumber_Negative (a : value) : result value :=
  match as_number a with
  | Some (NInt n) => Ok (VInt (- n))
  | Some (NFloat x) => Ok (VFloat (- x))
  | Some (NComplex z) => Ok (VComplex (- fst z) (- snd z))
  | None => Raise TypeError
  end.

Definition PyNumber_Positive (a : value) : result value :=
  match as_number a with
  | Some (NInt n) => Ok (VInt n)
  | Some (NFloat x) => Ok (VFloat x)
  | Some (NComplex z) => Ok (VComplex_of z)
  | None => Raise TypeError
  end.

(** The functions of Python's [operator] module, called with an argument
    list: a wrong number of arguments is a TypeError. *)
Module operator.

Definition binary (f : value -> value -> result value) (args : list value) : result value :=
  match args with
  | [a; b] => f a b
  | _ => Raise TypeError
  end.

Definition unary (f : value -> result value) (args : list value) : result value :=
  match args with
  | [a] => f a
  | _ => Raise TypeError
  end.

Definition add := binary PyNumber_Add.
Definition sub := binary PyNumber_Subtract.
Definition mul := binary PyNumber_Multiply.
Definition truediv := binary PyNumber_TrueDivide.
Definition pow {M : Libm} := binary PyNumber_Power.
Definition mod_ := binary PyNumber_Remainder.
Definition floordiv := binary PyNumber_FloorDivide.
Definition neg := unary PyNumber_Negative.
Definition pos := unary PyNumber_Positive.

End operator.

(** ** The callables of the registry *)

(** Python's [math] module, as far as the registry uses it.  Each function
    takes the argument list of the call. *)
Module math.
Local Open Scope float_scope.

Definition pi : float := 0x1.921fb54442d18p+1.  (* 3.141592653589793 *)
Definition e : float := 0x1.5bf0a8b145769p+1.   (* 2.718281828459045 *)

Definition degToRad : float := pi / 180.
Definition radToDeg : float := 180 / pi.

(** math_1 of mathmodule.c with can_overflow = 0: a NaN from a number, or an
    infinity from a finite number, is a domain error. *)
Definition math_1 (func : float -> float) (arg : value) : result value :=
  let+ x := PyFloat_AsDouble arg in
  let r := func x in
  if is_nan r && negb (is_nan x) then Raise ValueError
  else if is_infinity r && is_finite x then Raise ValueError
  else Ok (VFloat r).

Definition radians (args : list value) : result value :=
  match args with
  | [x] => let+ x := PyFloat_AsDouble x in Ok (VFloat (x * degToRad))
  | _ => Raise TypeError
  end.

Definition degrees (args : list value) : result value :=
  match args with
  | [x] => let+ x := PyFloat_AsDouble x in Ok (VFloat (x * radToDeg))
  | _ => Raise TypeError
  end.

Definition unary (func : float -> float) (args : list value) : result value :=
  match args with
  | [x] => math_1 func x
  | _ => Raise TypeError
  end.

Definition sqrt : list value -> result value := unary PrimFloat.sqrt.

(** m_log and m_log10 of mathmodule.c around the C function [log]. *)
Definition m_log (log : float -> float) (x : float) : float :=
  if is_finite x then
    if 0 <? x then log x
    else if x =? 0 then neg_infinity
    else nan
  else if is_nan x then x
  else if 0 <? x then x
  else nan.

(** _PyLong_Frexp on a positive integer. *)
Definition _PyLong_Frexp (n : Z) : float * Z :=
  let e := (Z.log2 n + 1)%Z in
  let x := SF2Prim (binary_normalize prec emax n (- e) false) in
  if x =? 1 then (0.5, (e + 1)%Z) else (x, e).

Definition loghelper (func : float -> float) (arg : value) : result value :=
  match as_index arg with
  | Some n =>
      if (n <=? 0)%Z then Raise ValueError
      else
        match pyfloat.PyLong_AsDouble n with
        | Ok x => Ok (VFloat (func x))
        | Raise _ =>
            let '(x, e) := _PyLong_Frexp n in
            Ok (VFloat (func x + func 2 * pyfloat.of_Z e))
        end
  | None => math_1 func arg
  end.

Section WithLibm.
Context {M : Libm}.

Definition sin := unary c_sin.
Definition cos := unary c_cos.
Definition tan := unary c_tan.
Definition asin := unary c_asin.
Definition acos := unary c_acos.
Definition atan := unary c_atan.

Definition log (args : list value) : result value :=
  match args with
  | [x] => loghelper (m_log c_log) x
  | [x; base] =>
      let+ num := loghelper (m_log c_log) x in
      let+ den := loghelper (m_log c_log) base in
      PyNumber_TrueDivide num den
  | _ => Raise TypeError
  end.

Definition log10 (args : list value) : result value :=
  match args with
  | [x] => loghelper (m_log c_log10) x
  | _ => Raise TypeError
  end.

End WithLibm.

Definition to_integer (rnd : Z -> Z -> Z) (args : list value) : result value :=
  match args with
  | [VFloat x] => let+ n := pyfloat.to_Z rnd x in Ok (VInt n)
  | [VInt n] => Ok (VInt n)
  | [VBool b] => Ok (VInt (Z.b2z b))
  | _ => Raise TypeError
  end.

Definition floor := to_integer pyfloat.rnd_floor.
Definition ceil := to_integer pyfloat.rnd_ceil.

Definition factorial_of (n : nat) : Z :=
  fold_left (fun acc k => (acc * Z.of_nat k)%Z) (seq 1 n) 1%Z.

Definition LONG_MAX : Z := 9223372036854775807.

Definition factorial (args : list value) : result value :=
  match args with
  | [x] =>
      match as_index x with
      | Some n =>
          if (n <? 0)%Z then Raise ValueError
          else if (LONG_MAX <? n)%Z then Raise OverflowError
          else Ok (VInt (factorial_of (Z.to_nat n)))
      | None => Raise TypeError
      end
  | _ => Raise TypeError
  end.

End math.

(** Python's builtins [int], [abs], [round] and [sum]. *)
Module builtins.

(** [int(n)]: a float is truncated toward zero. *)
Definition int (args : list value) : result value :=
  match args with
  | [VFloat x] => let+ n := pyfloat.to_Z pyfloat.rnd_trunc x in Ok (VInt n)
  | [VInt n] => Ok (VInt n)
  | [VBool b] => Ok (VInt (Z.b2z b))
  | _ => Raise TypeError
  end.

(** complex_abs of complexobject.c *)
Definition complex_abs {M : Libm} (re im : float) : result value :=
  if negb (is_finite re) || negb (is_finite im)
  then Ok (VFloat (if is_infinity re || is_infinity im then infinity else nan))
  else
    let r := c_hypot re im in
    if is_finite r then Ok (VFloat r) else Raise OverflowError.

Definition abs {M : Libm} (args : list value) : result value :=
  match args with
  | [x] =>
      match as_number x with
      | Some (NInt n) => Ok (VInt (Z.abs n))
      | Some (NFloat x) => Ok (VFloat (PrimFloat.abs x))
      | Some (NComplex z) => complex_abs (fst z) (snd z)
      | None => Raise TypeError
      end
  | _ => Raise TypeError
  end.

Definition NDIGITS_MAX : Z := 323.
Definition NDIGITS_MIN : Z := -308.

(** [round(number)] and [round(number, ndigits)] on int, bool and float;
    no other object of the evaluator has a __round__. *)
Definition round {M : Libm} (args : list value) : result value :=
  match args with
  | [VFloat x] => let+ n := pyfloat.to_Z pyfloat.rnd_half_even x in Ok (VInt n)
  | [VInt n] => Ok (VInt n)
  | [VBool b] => Ok (VInt (Z.b2z b))
  | [VFloat x; ndigits] =>
      match as_index ndigits with
      | None => Raise TypeError
      | Some ndigits =>
          if negb (is_finite x) then Ok (VFloat x)
          else if (NDIGITS_MAX <? ndigits)%Z then Ok (VFloat x)
          else if (ndigits <? NDIGITS_MIN)%Z then Ok (VFloat (0 * x))
          else
            match double_round x ndigits with
            | Some r => Ok (VFloat r)
            | None => Raise OverflowError
            end
      end
  | [x; ndigits] =>
      match as_index x, as_index ndigits with
      | Some n, Some ndigits =>
          if (0 <=? ndigits)%Z then Ok (VInt n)
          else
            let p := (10 ^ (- ndigits))%Z in
            Ok (VInt (pyfloat.rnd_half_even n p * p))
      | _, _ => Raise TypeError
      end
  | _ => Raise TypeError
  end.

(** [sum(iterable)] and [sum(iterable, start)]: start + item, left to right.
    Only a list is iterable here. *)
Definition sum_from (start : value) (items : list value) : result value :=
  fold_left (fun acc item => let+ r := acc in PyNumber_Add r item) items (Ok start).

Definition sum (args : list value) : result value :=
  match args with
  | [VList items] => sum_from (VInt 0) items
  | [VList items; start] => sum_from start items
  | _ => Raise TypeError
  end.

End builtins.

(** [Calculator._get_memory_value] *)
Definition _get_memory_value : Eval value :=
  fun self => (Ok (VFloat (memory self)), self).

(** Calling a callable of the registry with the unpacked positional
    arguments.  An argument list that fits no signature falls through to the
    TypeError Python raises. *)
Definition call {M : Libm} (func : callable) (args : list value) : Eval value :=
  match func, args with
  | LambdaSin, [x] => lift (let+ r := math.radians [x] in math.sin [r])
  | LambdaCos, [x] => lift (let+ r := math.radians [x] in math.cos [r])
  | LambdaTan, [x] => lift (let+ r := math.radians [x] in math.tan [r])
  | LambdaAsin, [x] => lift (let+ r := math.asin [x] in math.degrees [r])
  | LambdaAcos, [x] => lift (let+ r := math.acos [x] in math.degrees [r])
  | LambdaAtan, [x] => lift (let+ r := math.atan [x] in math.degrees [r])
  | MathSqrt, _ => lift (math.sqrt args)
  | MathLog, _ => lift (math.log args)
  | MathLog10, _ => lift (math.log10 args)
  | BuiltinAbs, _ => lift (builtins.abs args)
  | BuiltinRound, _ => lift (builtins.round args)
  | MathFloor, _ => lift (math.floor args)
  | MathCeil, _ => lift (math.ceil args)
  | LambdaFactorial, [n] => lift (let+ k := builtins.int [n] in math.factorial [k])
  | BuiltinSum, _ => lift (builtins.sum args)
  | GetMemoryValue, [] => _get_memory_value
  | _, _ => raise TypeError
  end.

(** The argument counts each callable accepts, read off its Python
    signature: [(lowest, highest)]. *)
Definition signature (func : callable) : nat * nat :=
  match func with
  | LambdaSin | LambdaCos | LambdaTan | LambdaAsin | LambdaAcos | LambdaAtan
  | LambdaFactorial => (1, 1)
  | MathSqrt | MathLog10 | BuiltinAbs | MathFloor | MathCeil => (1, 1)
  | MathLog | BuiltinRound | BuiltinSum => (1, 2)
  | GetMemoryValue => (0, 0)
  end.

Definition accepts (func : callable) (n : nat) : bool :=
  (fst (signature func) <=? n)%nat && (n <=? snd (signature func))%nat.

(** ** Syntax trees: Python's [ast] module *)

Module ast.

(** The operator classes that can stand in [BinOp.op] and [UnaryOp.op]. *)
Inductive op_class :=
| Add | Sub | Mult | MatMult | Div | Mod | Pow | LShift | RShift
| BitOr | BitXor | BitAnd | FloorDiv
| Invert | Not | UAdd | USub.

(** [op_type.__name__] *)
Definition op_name (op : op_class) : string :=
  match op with
  | Add => "Add" | Sub => "Sub" | Mult => "Mult" | MatMult => "MatMult"
  | Div => "Div" | Mod => "Mod" | Pow => "Pow" | LShift => "LShift"
  | RShift => "RShift" | BitOr => "BitOr" | BitXor => "BitXor"
  | BitAnd => "BitAnd" | FloorDiv => "FloorDiv" | Invert => "Invert"
  | Not => "Not" | UAdd => "UAdd" | USub => "USub"
  end.

(** The values a [Constant] node can hold. *)
Inductive constant :=
| CInt (n : Z)
| CFloat (x : float)
| CBool (b : bool)
| CComplex (re im : float)
| CStr (s : string)
| CBytes (s : string)
| CNone
| CEllipsis.

(** [type(node.value).__name__] *)
Definition type_name (c : constant) : string :=
  match c with
  | CInt _ => "int" | CFloat _ => "float" | CBool _ => "bool"
  | CComplex _ _ => "complex" | CStr _ => "str" | CBytes _ => "bytes"
  | CNone => "NoneType" | CEllipsis => "ellipsis"
  end.

(** The expression classes for which [SafeEvaluator] defines no method. *)
Inductive other_class :=
| BoolOp | NamedExpr | Lambda | IfExp | Dict | Set_ | ListComp | SetComp
| DictComp | GeneratorExp | Await | Yield | YieldFrom | Compare
| FormattedValue | JoinedStr | Attribute | Subscript | Starred | Tuple | Slice.

Definition other_name (cls : other_class) : string :=
  match cls with
  | BoolOp => "BoolOp" | NamedExpr => "NamedExpr" | Lambda => "Lambda"
  | IfExp => "IfExp" | Dict => "Dict" | Set_ => "Set" | ListComp => "ListComp"
  | SetComp => "SetComp" | DictComp => "DictComp"
  | GeneratorExp => "GeneratorExp" | Await => "Await" | Yield => "Yield"
  | YieldFrom => "YieldFrom" | Compare => "Compare"
  | FormattedValue => "FormattedValue" | JoinedStr => "JoinedStr"
  | Attribute => "Attribute" | Subscript => "Subscript" | Starred => "Starred"
  | Tuple => "Tuple" | Slice => "Slice"
  end.

(** Nodes.  [Num] is the class older Pythons used for number literals; its
    field is the number itself.  A keyword of a call is [(arg, value)]. *)
Inductive node :=
| Expression (body : node)
| BinOp (left : node) (op : op_class) (right : node)
| UnaryOp (op : op_class) (operand : node)
| Call (func : node) (args : list node) (keywords : list (option string * node))
| Num (n : value)
| Constant (value : constant)
| Name (id : string)
| List (elts : list node)
| Other (cls : other_class) (children : list node).

(** [node.__class__.__name__] *)
Definition class_name (n : node) : string :=
  match n with
  | Expression _ => "Expression"
  | BinOp _ _ _ => "BinOp"
  | UnaryOp _ _ => "UnaryOp"
  | Call _ _ _ => "Call"
  | Num _ => "Num"
  | Constant _ => "Constant"
  | Name _ => "Name"
  | List _ => "List"
  | Other cls _ => other_name cls
  end.

End ast.

(** [ast.parse(text, mode="eval")]: a tree, or an exception.  The message
    of a SyntaxError is the text [str(e)] gives. *)
Class Parser := {
  ast_parse : string -> result ast.node
}.

(** ** SafeEvaluator *)

Section SafeEvaluator.
Context {M : Libm}.

Definition ALLOWED_OPERATORS (op_type : ast.op_class)
  : option (list value -> result value) :=
  match op_type with
  | ast.Add => Some operator.add
  | ast.Sub => Some operator.sub
  | ast.Mult => Some operator.mul
  | ast.Div => Some operator.truediv
  | ast.Pow => Some operator.pow
  | ast.Mod => Some operator.mod_
  | ast.FloorDiv => Some operator.floordiv
  | ast.USub => Some operator.neg
  | ast.UAdd => Some operator.pos
  | _ => None
  end.

(** The methods, with [self._names] and [self.visit] as arguments. *)
Section Methods.
Variable names : gmap string value.
Variable visit : ast.node -> Eval value.

Definition visit_Expression (body : ast.node) : Eval value :=
  visit body.

Definition visit_BinOp (node_left : ast.node) (op : ast.op_class)
    (node_right : ast.node) : Eval value :=
  let* l := visit node_left in
  let* r := visit node_right in
  match ALLOWED_OPERATORS op with
  | Some f => lift (f [l; r])
  | None => raise (SafeEvalError ("Operator not allowed: " +:+ ast.op_name op))
  end.

Definition visit_UnaryOp (op : ast.op_class) (node_operand : ast.node)
  : Eval value :=
  let* operand := visit node_operand in
  match ALLOWED_OPERATORS op with
  | Some f => lift (f [operand])
  | None => raise (SafeEvalError ("Unary operator not allowed: " +:+ ast.op_name op))
  end.

Definition visit_Call (func : ast.node) (args : list ast.node)
    (keywords : list (option string * ast.node)) : Eval value :=
  match func with
  | ast.Name func_name =>
      match names !! func_name with
      | Some (VCallable func) =>
          let* values := comprehension visit args in
          (* no keywords supported *)
          call func values
      | _ => raise (SafeEvalError ("Function not allowed: " +:+ func_name))
      end
  | _ => raise (SafeEvalError "Only direct function calls allowed (no attributes).")
  end.

Definition visit_Num (n : value) : Eval value :=
  ret n.

Definition visit_Constant (node_value : ast.constant) : Eval value :=
  match node_value with
  | ast.CInt n => ret (VInt n)
  | ast.CBool b => ret (VBool b)
  | ast.CFloat x => ret (VFloat x)
  | _ => raise (SafeEvalError
                  ("Constants of type " +:+ ast.type_name node_value +:+ " not allowed"))
  end.

Definition visit_Name (id : string) : Eval value :=
  match names !! id with
  | Some val =>
      match val with
      | VInt _ | VBool _ | VFloat _ => ret val
      | _ => raise (SafeEvalError ("Name '" +:+ id +:+ "' is not a numeric constant"))
      end
  | None => raise (SafeEvalError ("Name not allowed: " +:+ id))
  end.

Definition visit_List (elts : list ast.node) : Eval value :=
  let* items := comprehension visit elts in
  ret (VList items).

End Methods.

(** [visit] looks the method up by the node's class name and raises when
    there is none. *)
Fixpoint visit (names : gmap string value) (node : ast.node) {struct node}
  : Eval value :=
  match node with
  | ast.Expression body => visit_Expression (visit names) body
  | ast.BinOp l op r => visit_BinOp (visit names) l op r
  | ast.UnaryOp op operand => visit_UnaryOp (visit names) op operand
  | ast.Call func args keywords => visit_Call names (visit names) func args keywords
  | ast.Num n => visit_Num n
  | ast.Constant node_value => visit_Constant node_value
  | ast.Name id => visit_Name names id
  | ast.List elts => visit_List (visit names) elts
  | ast.Other _ _ =>
      raise (SafeEvalError ("Unsupported expression: " +:+ ast.class_name node))
  end.

(** Defined by the class and called by none of its methods. *)
Definition generic_visit (node : ast.node) : Eval value :=
  raise (SafeEvalError ("Disallowed expression element: " +:+ ast.class_name node)).

End SafeEvaluator.

(** ** Calculator *)

(** The registry: constants and callables under one mapping. *)
Definition _make_names : gmap string value :=
  list_to_map [
    (* constants *)
    ("pi", VFloat math.pi);
    ("e", VFloat math.e);
    (* functions *)
    ("sin", VCallable LambdaSin);
    ("cos", VCallable LambdaCos);
    ("tan", VCallable LambdaTan);
    ("asin", VCallable LambdaAsin);
    ("acos", VCallable LambdaAcos);
    ("atan", VCallable LambdaAtan);
    ("sqrt", VCallable MathSqrt);
    ("log", VCallable MathLog);
    ("log10", VCallable MathLog10);
    ("abs", VCallable BuiltinAbs);
    ("round", VCallable BuiltinRound);
    ("floor", VCallable MathFloor);
    ("ceil", VCallable MathCeil);
    ("fact", VCallable LambdaFactorial);
    ("factorial", VCallable LambdaFactorial);
    ("sum", VCallable BuiltinSum);
    (* memory access as a name *)
    ("mem", VCallable GetMemoryValue)
  ].

(** [Calculator()] *)
Definition Calculator__init__ : Calculator :=
  {| memory := 0; _names := _make_names |}.

(** [self.memory = float(value)] *)
Definition store_memory (v : value) : Eval unit :=
  fun self =>
    match PyFloat_AsDouble v with
    | Ok x => (Ok tt, {| memory := x; _names := _names self |})
    | Raise e => (Raise e, self)
    end.

Definition recall_memory : Eval float :=
  fun self => (Ok (memory self), self).

Definition clear_memory : Eval unit :=
  fun self => (Ok tt, {| memory := 0; _names := _names self |}).

(** *** Text preprocessing *)

(** [str.isalnum] on one character, for the code points below 256. *)
Definition isalnum (c : ascii) : bool :=
  let n := nat_of_ascii c in
  (((48 <=? n) && (n <=? 57))         (* 0-9 *)
  || ((65 <=? n) && (n <=? 90))       (* A-Z *)
  || ((97 <=? n) && (n <=? 122))      (* a-z *)
  || (n =? 170) || (n =? 181) || (n =? 186)       (* feminine ordinal, micro, masculine ordinal *)
  || (n =? 178) || (n =? 179) || (n =? 185)       (* superscript two, three, one *)
  || ((188 <=? n) && (n <=? 190))                 (* the vulgar fractions *)
  || ((192 <=? n) && (n <=? 214))                 (* letters up to O with diaeresis *)
  || ((216 <=? n) && (n <=? 246))
  || ((248 <=? n) && (n <=? 255)))%nat.

(** [s.replace(old, new)] for a one-character [old]. *)
Fixpoint replace (old : ascii) (new : string) (s : string) : string :=
  match s with
  | EmptyString => EmptyString
  | String c s' =>
      if Ascii.eqb c old then new +:+ replace old new s'
      else String c (replace old new s')
  end.

(** [s.startswith(prefix, i)] *)
Definition startswith (prefix : string) (i : nat) (s : string) : bool :=
  String.eqb (substring i (String.length prefix) s) prefix.

(** [s[i].isalnum()]; both uses below have [i] in range. *)
Definition isalnum_at (s : string) (i : nat) : bool :=
  match get i s with
  | Some c => isalnum c
  | None => false
  end.

(** The [while i < L] loop of [_replace_bare_mem]; every round advances
    [i], so [L] rounds are enough. *)
Fixpoint _replace_bare_mem_loop (rounds : nat) (expr : string) (i : nat)
    (tokens : list string) : list string :=
  match rounds with
  | O => tokens
  | S rounds =>
      let L := String.length expr in
      match get i expr with
      | None => tokens                      (* i >= L *)
      | Some ch =>
          (* detect 'mem' word *)
          if startswith "mem" i expr
             && ((i + 3 =? L)%nat || negb (isalnum_at expr (i + 3)))
          then
            (* ensure previous char isn't alnum *)
            let prev_ok := (i =? 0)%nat || negb (isalnum_at expr (i - 1)) in
            if prev_ok
            then (* replace with mem() *)
              _replace_bare_mem_loop rounds expr (i + 3) (tokens ++ ["mem()"])
            else
              _replace_bare_mem_loop rounds expr (i + 1) (tokens ++ [String ch EmptyString])
          else
            _replace_bare_mem_loop rounds expr (i + 1) (tokens ++ [String ch EmptyString])
      end
  end.

Definition _replace_bare_mem (expr : string) : string :=
  String.concat "" (_replace_bare_mem_loop (String.length expr) expr 0 []).

(** *** Evaluation of a text *)

Definition _eval_expression {M : Libm} {P : Parser} (expression : string)
  : Eval value :=
  fun self =>
    (* Preprocess: caret for power *)
    let expr := replace "^" "**" expression in
    let expr := _replace_bare_mem expr in
    match ast_parse expr with
    | Raise (SyntaxError e) => (Raise (SafeEvalError ("Syntax error: " +:+ e)), self)
    | Raise e => (Raise e, self)
    | Ok node => visit (_names self) node self
    end.

(** The asynchronous wrapper: it yields to the event loop once and then
    returns what [_eval_expression] returns. *)
Definition evaluate {M : Libm} {P : Parser} (expression : string) : Eval value :=
  _eval_expression expression.

(** ** A model of [ast.parse] on a small grammar

    [py_parse] stands for [ast.parse(text, mode="eval")] on the texts of
    this grammar, with Python's precedences:
<<
    expr    := xor ('|' xor)*            xor   := and ('^' and)*
    and     := shift ('&' shift)*        shift := sum (('<<'|'>>') sum)*
    sum     := term (('+'|'-') term)*
    term    := factor (('*'|'/'|'//'|'%'|'@') factor)*
    factor  := ('+'|'-'|'~') factor | power
    power   := primary ['**' factor]
    primary := atom ('(' [arg (',' arg)* [',']] ')')*
    arg     := expr | NAME '=' expr      (no positional after a keyword)
    atom    := NUMBER | NAME | '(' expr ')' | '[' [expr (',' expr)* [',']] ']'
>>
    NUMBER is a decimal integer or float literal without underscores, NAME
    an ASCII identifier that is no keyword; blanks and tabs may separate
    tokens.  Every other text is reported as a syntax error, which CPython
    does for some of them only: nothing is stated through [py_parse] about
    texts outside the grammar. *)
Module parser_model.

Inductive punct :=
| PLUS | MINUS | STAR | SLASH | DOUBLESLASH | PERCENT | AT | DOUBLESTAR
| LEFTSHIFT | RIGHTSHIFT | AMPER | VBAR | CIRCUMFLEX | TILDE
| LPAR | RPAR | LSQB | RSQB | COMMA | EQUAL.

Inductive token :=
| NUMBER (c : ast.constant)
| NAME (id : string)
| OP (p : punct).

Definition between (lo hi : nat) (c : ascii) : bool :=
  let n := nat_of_ascii c in ((lo <=? n) && (n <=? hi))%nat.

Definition is_digit (c : ascii) : bool := between 48 57 c.
Definition is_name_start (c : ascii) : bool :=
  between 65 90 c || between 97 122 c || Ascii.eqb c "_".
Definition is_name_char (c : ascii) : bool := is_name_start c || is_digit c.
Definition is_blank (c : ascii) : bool :=
  Ascii.eqb c " " || Ascii.eqb c (ascii_of_nat 9).

(** The longest prefix of characters satisfying [p], and the rest. *)
Fixpoint span (p : ascii -> bool) (s : string) : string * string :=
  match s with
  | EmptyString => (EmptyString, EmptyString)
  | String c s' =>
      if p c then let '(a, b) := span p s' in (String c a, b)
      else (EmptyString, s)
  end.

Definition digit_value (c : ascii) : Z := Z.of_nat (nat_of_ascii c - 48).

Fixpoint decimal (acc : Z) (digits : string) : Z :=
  match digits with
  | EmptyString => acc
  | String c s' => decimal (10 * acc + digit_value c)%Z s'
  end.

(** The double nearest to [digits * 10 ^ exp10]. *)
Definition decimal_to_float (digits exp10 : Z) : float :=
  if (0 <=? exp10)%Z then pyfloat.of_Z (digits * 10 ^ exp10)
  else pyfloat.of_quotient digits (10 ^ (- exp10)).

Definition keywords : list string :=
  ["False"; "None"; "True"; "and"; "as"; "assert"; "async"; "await"; "break";
   "class"; "continue"; "def"; "del"; "elif"; "else"; "except"; "finally";
   "for"; "from"; "global"; "if"; "import"; "in"; "is"; "lambda"; "nonlocal";
   "not"; "or"; "pass"; "raise"; "return"; "try"; "while"; "with"; "yield"].

Definition starts_with_name_char (s : string) : bool :=
  match s with
  | String c _ => is_name_char c
  | EmptyString => false
  end.

(** An exponent part: [e] or [E], an optional sign, digits.  [None] when
    the text has no exponent here; [Some None] when it is malformed. *)
Definition lex_exponent (s : string) : option (option (Z * string)) :=
  match s with
  | String c r =>
      if Ascii.eqb c "e" || Ascii.eqb c "E" then
        let '(sign, r) :=
          match r with
          | String c' r' =>
              if Ascii.eqb c' "+" then (1%Z, r')
              else if Ascii.eqb c' "-" then ((-1)%Z, r')
              else (1%Z, r)
          | EmptyString => (1%Z, r)
          end in
        let '(ds, rest) := span is_digit r in
        match ds with
        | EmptyString => Some None
        | _ => Some (Some ((sign * decimal 0 ds)%Z, rest))
        end
      else None
  | EmptyString => None
  end.

Definition all_zeros (s : string) : bool :=
  match span (Ascii.eqb "0") s with
  | (_, EmptyString) => true
  | _ => false
  end.

(** A number literal at the head of [s]. *)
Definition lex_number (s : string) : option (ast.constant * string) :=
  let '(int_part, r1) := span is_digit s in
  let '(point, frac, r2) :=
    match r1 with
    | String c r =>
        if Ascii.eqb c "." then let '(f, r') := span is_digit r in (true, f, r')
        else (false, EmptyString, r1)
    | EmptyString => (false, EmptyString, r1)
    end in
  match int_part +:+ frac with
  | EmptyString => None
  | digits =>
      let mantissa := decimal 0 digits in
      let shift := Z.of_nat (String.length frac) in
      match lex_exponent r2 with
      | Some None => None
      | Some (Some (exp, r3)) =>
          if starts_with_name_char r3 then None
          else Some (ast.CFloat (decimal_to_float mantissa (exp - shift)), r3)
      | None =>
          if starts_with_name_char r2 then None
          else if point then Some (ast.CFloat (decimal_to_float mantissa (- shift)), r2)
          else if all_zeros int_part
                  || negb (String.prefix "0" int_part)
               then Some (ast.CInt mantissa, r2)
               else None
      end
  end.

Definition lex_op (s : string) : option (punct * string) :=
  match s with
  | String c r =>
      let two (d : ascii) (long short : punct) :=
        match r with
        | String c' r' => if Ascii.eqb c' d then Some (long, r') else Some (short, r)
        | EmptyString => Some (short, r)
        end in
      let only_two (d : ascii) (long : punct) :=
        match r with
        | String c' r' => if Ascii.eqb c' d then Some (long, r') else None
        | EmptyString => None
        end in
      if Ascii.eqb c "*" then two "*"%char DOUBLESTAR STAR
      else if Ascii.eqb c "/" then two "/"%char DOUBLESLASH SLASH
      else if Ascii.eqb c "<" then only_two "<"%char LEFTSHIFT
      else if Ascii.eqb c ">" then only_two ">"%char RIGHTSHIFT
      else if Ascii.eqb c "+" then Some (PLUS, r)
      else if Ascii.eqb c "-" then Some (MINUS, r)
      else if Ascii.eqb c "%" then Some (PERCENT, r)
      else if Ascii.eqb c "@" then Some (AT, r)
      else if Ascii.eqb c "&" then Some (AMPER, r)
      else if Ascii.eqb c "|" then Some (VBAR, r)
      else if Ascii.eqb c "^" then Some (CIRCUMFLEX, r)
      else if Ascii.eqb c "~" then Some (TILDE, r)
      else if Ascii.eqb c "(" then Some (LPAR, r)
      else if Ascii.eqb c ")" then Some (RPAR, r)
      else if Ascii.eqb c "[" then Some (LSQB, r)
      else if Ascii.eqb c "]" then Some (RSQB, r)
      else if Ascii.eqb c "," then Some (COMMA, r)
      else if Ascii.eqb c "=" then Some (EQUAL, r)
      else None
  | EmptyString => None
  end.

Definition starts_number (s : string) : bool :=
  match s with
  | String c r =>
      is_digit c
      || (Ascii.eqb c "." && match r with String d _ => is_digit d | _ => false end)
  | EmptyString => false
  end.

(** Every token takes at least one character: [fuel] above the length of
    the text is enough. *)
Fixpoint tokenize (fuel : nat) (s : string) : option (list token) :=
  match fuel with
  | O => None
  | S fuel =>
      match s with
      | EmptyString => Some []
      | String c rest =>
          if is_blank c then tokenize fuel rest
          else if starts_number s then
            match lex_number s with
            | Some (k, rest') => cons (NUMBER k) <$> tokenize fuel rest'
            | None => None
            end
          else if is_name_start c then
            let '(id, rest') := span is_name_char s in
            if existsb (String.eqb id) keywords then None
            else cons (NAME id) <$> tokenize fuel rest'
          else
            match lex_op s with
            | Some (p, rest') => cons (OP p) <$> tokenize fuel rest'
            | None => None
            end
      end
  end.

(** The binary operators of each precedence level, loosest first. *)
Definition binary_op (level : nat) (p : punct) : option ast.op_class :=
  match level, p with
  | 0, VBAR => Some ast.BitOr
  | 1, CIRCUMFLEX => Some ast.BitXor
  | 2, AMPER => Some ast.BitAnd
  | 3, LEFTSHIFT => Some ast.LShift
  | 3, RIGHTSHIFT => Some ast.RShift
  | 4, PLUS => Some ast.Add
  | 4, MINUS => Some ast.Sub
  | 5, STAR => Some ast.Mult
  | 5, SLASH => Some ast.Div
  | 5, DOUBLESLASH => Some ast.FloorDiv
  | 5, PERCENT => Some ast.Mod
  | 5, AT => Some ast.MatMult
  | _, _ => None
  end%nat.

Definition unary_op (p : punct) : option ast.op_class :=
  match p with
  | PLUS => Some ast.UAdd
  | MINUS => Some ast.USub
  | TILDE => Some ast.Invert
  | _ => None
  end.

Definition parsed (A : Type) : Type := option (A * list token).

(** Recursive descent; [fuel] bounds the depth of the calls. *)
Fixpoint parse_level (fuel : nat) (level : nat) (ts : list token) : parsed ast.node :=
  match fuel with
  | O => None
  | S fuel =>
      if (6 <=? level)%nat then parse_factor fuel ts
      else
        match parse_level fuel (S level) ts with
        | Some (first, rest) => parse_operands fuel level first rest
        | None => None
        end
  end
with parse_operands (fuel : nat) (level : nat) (lhs : ast.node) (ts : list token)
  : parsed ast.node :=
  match fuel with
  | O => None
  | S fuel =>
      match ts with
      | OP p :: ts' =>
          match binary_op level p with
          | Some op =>
              match parse_level fuel (S level) ts' with
              | Some (rhs, rest) => parse_operands fuel level (ast.BinOp lhs op rhs) rest
              | None => None
              end
          | None => Some (lhs, ts)
          end
      | _ => Some (lhs, ts)
      end
  end
with parse_factor (fuel : nat) (ts : list token) : parsed ast.node :=
  match fuel with
  | O => None
  | S fuel =>
      match ts with
      | OP p :: ts' =>
          match unary_op p with
          | Some op =>
              match parse_factor fuel ts' with
              | Some (operand, rest) => Some (ast.UnaryOp op operand, rest)
              | None => None
              end
          | None => parse_power fuel ts
          end
      | _ => parse_power fuel ts
      end
  end
with parse_power (fuel : nat) (ts : list token) : parsed ast.node :=
  match fuel with
  | O => None
  | S fuel =>
      match parse_atom fuel ts with
      | Some (a, rest) =>
          match parse_trailers fuel a rest with
          | Some (base, OP DOUBLESTAR :: rest') =>
              match parse_factor fuel rest' with
              | Some (exponent, rest'') => Some (ast.BinOp base ast.Pow exponent, rest'')
              | None => None
              end
          | r => r
          end
      | None => None
      end
  end
with parse_trailers (fuel : nat) (callee : ast.node) (ts : list token) : parsed ast.node :=
  match fuel with
  | O => None
  | S fuel =>
      match ts with
      | OP LPAR :: ts' =>
          match parse_args fuel [] [] ts' with
          | Some ((args, keywords), rest) =>
              parse_trailers fuel (ast.Call callee args keywords) rest
          | None => None
          end
      | _ => Some (callee, ts)
      end
  end
with parse_atom (fuel : nat) (ts : list token) : parsed ast.node :=
  match fuel with
  | O => None
  | S fuel =>
      match ts with
      | NUMBER c :: rest => Some (ast.Constant c, rest)
      | NAME id :: rest => Some (ast.Name id, rest)
      | OP LPAR :: ts' =>
          match parse_level fuel 0 ts' with
          | Some (inner, OP RPAR :: rest) => Some (inner, rest)
          | _ => None
          end
      | OP LSQB :: ts' =>
          match parse_elts fuel [] ts' with
          | Some (elts, rest) => Some (ast.List elts, rest)
          | None => None
          end
      | _ => None
      end
  end
with parse_args (fuel : nat) (args : list ast.node)
    (keywords : list (option string * ast.node)) (ts : list token)
  : parsed (list ast.node * list (option string * ast.node)) :=
  match fuel with
  | O => None
  | S fuel =>
      match ts with
      | OP RPAR :: rest => Some ((args, keywords), rest)
      | NAME id :: OP EQUAL :: ts' =>
          match parse_level fuel 0 ts' with
          | Some (v, OP COMMA :: rest) =>
              parse_args fuel args (keywords ++ [(Some id, v)])%list rest
          | Some (v, OP RPAR :: rest) => Some ((args, (keywords ++ [(Some id, v)])%list), rest)
          | _ => None
          end
      | _ =>
          match keywords with
          | _ :: _ => None
          | [] =>
              match parse_level fuel 0 ts with
              | Some (v, OP COMMA :: rest) => parse_args fuel (args ++ [v])%list keywords rest
              | Some (v, OP RPAR :: rest) => Some (((args ++ [v])%list, keywords), rest)
              | _ => None
              end
          end
      end
  end
with parse_elts (fuel : nat) (elts : list ast.node) (ts : list token)
  : parsed (list ast.node) :=
  match fuel with
  | O => None
  | S fuel =>
      match ts with
      | OP RSQB :: rest => Some (elts, rest)
      | _ =>
          match parse_level fuel 0 ts with
          | Some (v, OP COMMA :: rest) => parse_elts fuel (elts ++ [v])%list rest
          | Some (v, OP RSQB :: rest) => Some ((elts ++ [v])%list, rest)
          | _ => None
          end
      end
  end.

(** The text has no leading blank, its tokens form one expression, and
    nothing follows it. *)
Definition py_parse (text : string) : result ast.node :=
  let invalid := Raise (SyntaxError "invalid syntax") in
  match text with
  | String c _ => if is_blank c then invalid else
      match tokenize (S (String.length text)) text with
      | Some ts =>
          match parse_level (16 * S (length ts)) 0 ts with
          | Some (body, []) => Ok (ast.Expression body)
          | _ => invalid
          end
      | None => invalid
      end
  | EmptyString => invalid
  end.

End parser_model.

Definition py_parser : Parser := {| ast_parse := parser_model.py_parse |}.

(** ** The reference evaluator of the specification

    A second evaluator, written from the specification's words and sharing
    nothing with the code's operators: a tree of number literals, binary and
    unary operators; "evaluate l then r; apply the operator's function".
    Integers are exact, the other numbers are doubles, and an integer that
    meets a double becomes the nearest double.  Where real-valued arithmetic
    on these numbers does not say what the number is, the reference gives no
    answer: a power or a floor division of doubles, a power of an integer
    with a negative exponent or one whose size is a matter of memory (a base
    beyond 64 bits, an exponent beyond 4096), a number beyond the doubles. *)
Module Reference.

Inductive binary := Add | Sub | Mul | Div | Pow | Mod | FloorDiv.
Inductive unary := Neg | Pos.

Inductive literal :=
| Int (n : Z)
| Float (x : float).

Inductive expr :=
| NumberLiteral (value : literal)
| BinaryOp (op : binary) (l r : expr)
| UnaryOp (op : unary) (x : expr).

(** A number, or the typed error of a zero divisor. *)
Inductive answer :=
| Number (value : literal)
| DivisionByZero.

(** The double nearest to an integer, when there is one. *)
Definition nearest_double (n : Z) : option float :=
  let x := SF2Prim (binary_normalize prec emax n 0 false) in
  if is_infinity x then None else Some x.

Definition as_double (v : literal) : option float :=
  match v with
  | Int n => nearest_double n
  | Float x => Some x
  end.

(** An integer as a floating-point number that is not rounded yet. *)
Definition unrounded (n : Z) : spec_float :=
  match n with
  | Z0 => S754_zero false
  | Zpos p => S754_finite false p 0
  | Zneg p => S754_finite true p 0
  end.

(** The double nearest to the quotient of two integers, when there is
    one. *)
Definition nearest_quotient (a b : Z) : option float :=
  let q := SF2Prim (SFdiv prec emax (unrounded a) (unrounded b)) in
  if is_infinity q then None else Some q.

(** The powers the reference computes. *)
Definition moderate_power (a b : Z) : bool :=
  ((0 <=? b) && (b <=? 4096) && (Z.abs a <=? 2 ^ 64))%Z.

(** Exact arithmetic on integers; the floor quotient is rounded down and
    the remainder has the sign of the divisor. *)
Definition on_integers (op : binary) (a b : Z) : option answer :=
  match op with
  | Add => Some (Number (Int (a + b)))
  | Sub => Some (Number (Int (a - b)))
  | Mul => Some (Number (Int (a * b)))
  | FloorDiv => Some (if (b =? 0)%Z then DivisionByZero else Number (Int (a / b)))
  | Mod => Some (if (b =? 0)%Z then DivisionByZero else Number (Int (a mod b)))
  | Pow => if moderate_power a b then Some (Number (Int (a ^ b))) else None
  | Div =>
      if (b =? 0)%Z then Some DivisionByZero
      else
        match nearest_quotient a b with
        | Some q => Some (Number (Float q))
        | None => None
        end
  end.

(** The arithmetic of doubles. *)
Definition on_doubles (op : binary) (x y : float) : option answer :=
  match op with
  | Add => Some (Number (Float (x + y)))
  | Sub => Some (Number (Float (x - y)))
  | Mul => Some (Number (Float (x * y)))
  | Div => Some (if (y =? 0)%float then DivisionByZero else Number (Float (x / y)))
  | FloorDiv | Mod => if (y =? 0)%float then Some DivisionByZero else None
  | Pow => None
  end.

Definition apply_binary (op : binary) (a b : literal) : option answer :=
  match a, b with
  | Int m, Int n => on_integers op m n
  | _, _ =>
      match as_double a, as_double b with
      | Some x, Some y => on_doubles op x y
      | _, _ => None
      end
  end.

Definition apply_unary (op : unary) (a : literal) : literal :=
  match op, a with
  | Pos, _ => a
  | Neg, Int n => Int (- n)
  | Neg, Float x => Float (- x)
  end.

(** Evaluate [l] then [r]; an error of [l] is the answer. *)
Fixpoint evaluate (e : expr) : option answer :=
  match e with
  | NumberLiteral v => Some (Number v)
  | BinaryOp op l r =>
      match evaluate l with
      | Some (Number a) =>
          match evaluate r with
          | Some (Number b) => apply_binary op a b
          | other => other
          end
      | other => other
      end
  | UnaryOp op x =>
      match evaluate x with
      | Some (Number a) => Some (Number (apply_unary op a))
      | other => other
      end
  end.

(** How deep the operators of an expression are nested. *)
Fixpoint depth (e : expr) : nat :=
  match e with
  | NumberLiteral _ => 0
  | BinaryOp _ l r => S (Nat.max (depth l) (depth r))
  | UnaryOp _ x => S (depth x)
  end.

(** The number as Python's object. *)
Definition value_of (v : literal) : value :=
  match v with
  | Int n => VInt n
  | Float x => VFloat x
  end.

(** The answer as the code gives it: Python's number, or Python's
    exception for a zero divisor. *)
Definition as_result (r : answer) : result value :=
  match r with
  | Number (Int n) => Ok (VInt n)
  | Number (Float x) => Ok (VFloat x)
  | DivisionByZero => Raise ZeroDivisionError
  end.

(** The syntax tree Python builds for such an expression. *)
Definition binary_class (op : binary) : ast.op_class :=
  match op with
  | Add => ast.Add | Sub => ast.Sub | Mul => ast.Mult | Div => ast.Div
  | Pow => ast.Pow | Mod => ast.Mod | FloorDiv => ast.FloorDiv
  end.

Definition unary_class (op : unary) : ast.op_class :=
  match op with
  | Neg => ast.USub
  | Pos => ast.UAdd
  end.

Fixpoint to_ast (e : expr) : ast.node :=
  match e with
  | NumberLiteral (Int n) => ast.Constant (ast.CInt n)
  | NumberLiteral (Float x) => ast.Constant (ast.CFloat x)
  | BinaryOp op l r => ast.BinOp (to_ast l) (binary_class op) (to_ast r)
  | UnaryOp op x => ast.UnaryOp (unary_class op) (to_ast x)
  end.

(** *** The grammar

    The grammar of section 4.2 of the specification for the expressions
    without calls, names and lists, with the one change the code forces: a
    sign applies to a factor, so to a power as a whole (Python's rule),
    where the specification gives it to the primary after it.
<<
    expr     := term (('+' | '-') term)*
    term     := factor (('*' | '/' | '%' | '//') factor)*
    factor   := ('+' | '-') factor | power
    power    := primary ['**' factor]     // right-associative
    primary  := NUMBER | '(' expr ')'
>>
    The tokens are those of [parser_model.tokenize]. *)
Definition additive (p : parser_model.punct) : option binary :=
  match p with
  | parser_model.PLUS => Some Add
  | parser_model.MINUS => Some Sub
  | _ => None
  end.

Definition multiplicative (p : parser_model.punct) : option binary :=
  match p with
  | parser_model.STAR => Some Mul
  | parser_model.SLASH => Some Div
  | parser_model.PERCENT => Some Mod
  | parser_model.DOUBLESLASH => Some FloorDiv
  | _ => None
  end.

Definition sign (p : parser_model.punct) : option unary :=
  match p with
  | parser_model.PLUS => Some Pos
  | parser_model.MINUS => Some Neg
  | _ => None
  end.

Definition number_token (c : ast.constant) : option literal :=
  match c with
  | ast.CInt n => Some (Int n)
  | ast.CFloat x => Some (Float x)
  | _ => None
  end.

Definition parsed : Type := option (expr * list parser_model.token).

(** Recursive descent, one function for each rule and one for each
    repetition; [fuel] bounds the depth of the calls. *)
Fixpoint parse_expr (fuel : nat) (ts : list parser_model.token) : parsed :=
  match fuel with
  | O => None
  | S fuel =>
      match parse_term fuel ts with
      | Some (first, rest) => parse_terms fuel first rest
      | None => None
      end
  end
with parse_terms (fuel : nat) (lhs : expr) (ts : list parser_model.token) : parsed :=
  match fuel with
  | O => None
  | S fuel =>
      match ts with
      | parser_model.OP p :: ts' =>
          match additive p with
          | Some op =>
              match parse_term fuel ts' with
              | Some (rhs, rest) => parse_terms fuel (BinaryOp op lhs rhs) rest
              | None => None
              end
          | None => Some (lhs, ts)
          end
      | _ => Some (lhs, ts)
      end
  end
with parse_term (fuel : nat) (ts : list parser_model.token) : parsed :=
  match fuel with
  | O => None
  | S fuel =>
      match parse_factor fuel ts with
      | Some (first, rest) => parse_factors fuel first rest
      | None => None
      end
  end
with parse_factors (fuel : nat) (lhs : expr) (ts : list parser_model.token) : parsed :=
  match fuel with
  | O => None
  | S fuel =>
      match ts with
      | parser_model.OP p :: ts' =>
          match multiplicative p with
          | Some op =>
              match parse_factor fuel ts' with
              | Some (rhs, rest) => parse_factors fuel (BinaryOp op lhs rhs) rest
              | None => None
              end
          | None => Some (lhs, ts)
          end
      | _ => Some (lhs, ts)
      end
  end
with parse_factor (fuel : nat) (ts : list parser_model.token) : parsed :=
  match fuel with
  | O => None
  | S fuel =>
      match ts with
      | parser_model.OP p :: ts' =>
          match sign p with
          | Some op =>
              match parse_factor fuel ts' with
              | Some (x, rest) => Some (UnaryOp op x, rest)
              | None => None
              end
          | None => parse_power fuel ts
          end
      | _ => parse_power fuel ts
      end
  end
with parse_power (fuel : nat) (ts : list parser_model.token) : parsed :=
  match fuel with
  | O => None
  | S fuel =>
      match parse_primary fuel ts with
      | Some (base, parser_model.OP parser_model.DOUBLESTAR :: rest) =>
          match parse_factor fuel rest with
          | Some (exponent, rest') => Some (BinaryOp Pow base exponent, rest')
          | None => None
          end
      | r => r
      end
  end
with parse_primary (fuel : nat) (ts : list parser_model.token) : parsed :=
  match fuel with
  | O => None
  | S fuel =>
      match ts with
      | parser_model.NUMBER c :: rest =>
          match number_token c with
          | Some v => Some (NumberLiteral v, rest)
          | None => None
          end
      | parser_model.OP parser_model.LPAR :: ts' =>
          match parse_expr fuel ts' with
          | Some (inner, parser_model.OP parser_model.RPAR :: rest) => Some (inner, rest)
          | _ => None
          end
      | _ => None
      end
  end.

(** The expression a text is: its tokens are one expression of the grammar.
    Python takes no blank before an expression, and neither does the
    reference. *)
Definition parse (text : string) : option expr :=
  match text with
  | String c _ =>
      if parser_model.is_blank c then None
      else
        match parser_model.tokenize (S (String.length text)) text with
        | Some ts =>
            match parse_expr (6 * S (length ts)) ts with
            | Some (e, []) => Some e
            | _ => None
            end
        | None => None
        end
  | EmptyString => None
  end.

(** The reference evaluator on a text: the caret is the power, the text
    is an expression of the grammar, and the expression is evaluated. *)
Definition evaluate_text (text : string) : option answer :=
  match parse (replace "^" "**" text) with
  | Some e => evaluate e
  | None => None
  end.

(** *** The grammar as the specification has it

    Modelled from the spec: the rules of section 4.2 where they differ from
    the grammar above,
<<
    factor   := unary ('**' unary)*      // right-associative
    unary    := ('+' | '-')? primary
>>
    so that a sign binds more tightly than the power. *)
Fixpoint spec_expr (fuel : nat) (ts : list parser_model.token) : parsed :=
  match fuel with
  | O => None
  | S fuel =>
      match spec_term fuel ts with
      | Some (first, rest) => spec_terms fuel first rest
      | None => None
      end
  end
with spec_terms (fuel : nat) (lhs : expr) (ts : list parser_model.token) : parsed :=
  match fuel with
  | O => None
  | S fuel =>
      match ts with
      | parser_model.OP p :: ts' =>
          match additive p with
          | Some op =>
              match spec_term fuel ts' with
              | Some (rhs, rest) => spec_terms fuel (BinaryOp op lhs rhs) rest
              | None => None
              end
          | None => Some (lhs, ts)
          end
      | _ => Some (lhs, ts)
      end
  end
with spec_term (fuel : nat) (ts : list parser_model.token) : parsed :=
  match fuel with
  | O => None
  | S fuel =>
      match spec_factor fuel ts with
      | Some (first, rest) => spec_factors fuel first rest
      | None => None
      end
  end
with spec_factors (fuel : nat) (lhs : expr) (ts : list parser_model.token) : parsed :=
  match fuel with
  | O => None
  | S fuel =>
      match ts with
      | parser_model.OP p :: ts' =>
          match multiplicative p with
          | Some op =>
              match spec_factor fuel ts' with
              | Some (rhs, rest) => spec_factors fuel (BinaryOp op lhs rhs) rest
              | None => None
              end
          | None => Some (lhs, ts)
          end
      | _ => Some (lhs, ts)
      end
  end
with spec_factor (fuel : nat) (ts : list parser_model.token) : parsed :=
  match fuel with
  | O => None
  | S fuel =>
      match spec_unary fuel ts with
      | Some (base, parser_model.OP parser_model.DOUBLESTAR :: rest) =>
          match spec_factor fuel rest with
          | Some (exponent, rest') => Some (BinaryOp Pow base exponent, rest')
          | None => None
          end
      | r => r
      end
  end
with spec_unary (fuel : nat) (ts : list parser_model.token) : parsed :=
  match fuel with
  | O => None
  | S fuel =>
      match ts with
      | parser_model.OP p :: ts' =>
          match sign p with
          | Some op =>
              match spec_primary fuel ts' with
              | Some (x, rest) => Some (UnaryOp op x, rest)
              | None => None
              end
          | None => spec_primary fuel ts
          end
      | _ => spec_primary fuel ts
      end
  end
with spec_primary (fuel : nat) (ts : list parser_model.token) : parsed :=
  match fuel with
  | O => None
  | S fuel =>
      match ts with
      | parser_model.NUMBER c :: rest =>
          match number_token c with
          | Some v => Some (NumberLiteral v, rest)
          | None => None
          end
      | parser_model.OP parser_model.LPAR :: ts' =>
          match spec_expr fuel ts' with
          | Some (inner, parser_model.OP parser_model.RPAR :: rest) => Some (inner, rest)
          | _ => None
          end
      | _ => None
      end
  end.

Definition spec_parse (text : string) : option expr :=
  match parser_model.tokenize (S (String.length text)) text with
  | Some ts =>
      match spec_expr (16 * S (length ts)) ts with
      | Some (e, []) => Some e
      | _ => None
      end
  | None => None
  end.

(** The reference evaluator of the specification on a text: the caret is
    the power, the text is an expression of the specification's grammar,
    and the expression is evaluated. *)
Definition spec_evaluate_text (text : string) : option answer :=
  match spec_parse (replace "^" "**" text) with
  | Some e => evaluate e
  | None => None
  end.

(** The tokens after which Python's parser goes on where the grammar
    stops: a parenthesis opens a call, and the operators of the loosest
    levels and the matrix product take a further operand. *)
Definition quiet (ts : list parser_model.token) : bool :=
  match ts with
  | parser_model.OP p :: _ =>
      match p with
      | parser_model.LPAR | parser_model.AT | parser_model.VBAR
      | parser_model.CIRCUMFLEX | parser_model.AMPER
      | parser_model.LEFTSHIFT | parser_model.RIGHTSHIFT => false
      | _ => true
      end
  | _ => true
  end.

End Reference.

(** What Python's parser does with [fuel] enough where the grammar, with
    fuel [f], reads an expression and stops before [rest]. *)
Definition simulated (f : nat) : Prop :=
  (forall ts e rest F,
     Reference.parse_primary f ts = Some (e, rest) ->
     Reference.quiet rest = true -> (2 * f + 3 <= F)%nat ->
     parser_model.parse_atom F ts = Some (Reference.to_ast e, rest))
  /\ (forall ts e rest F,
        Reference.parse_power f ts = Some (e, rest) ->
        Reference.quiet rest = true -> (2 * f + 2 <= F)%nat ->
        parser_model.parse_power F ts = Some (Reference.to_ast e, rest))
  /\ (forall ts e rest F,
        Reference.parse_factor f ts = Some (e, rest) ->
        Reference.quiet rest = true -> (2 * f + 1 <= F)%nat ->
        parser_model.parse_factor F ts = Some (Reference.to_ast e, rest))
  /\ (forall lhs ts e rest F,
        Reference.parse_factors f lhs ts = Some (e, rest) ->
        Reference.quiet rest = true -> (2 * f + 1 <= F)%nat ->
        parser_model.parse_operands F 5 (Reference.to_ast lhs) ts
        = Some (Reference.to_ast e, rest))
  /\ (forall ts e rest F,
        Reference.parse_term f ts = Some (e, rest) ->
        Reference.quiet rest = true -> (2 * f + 1 <= F)%nat ->
        parser_model.parse_level F 5 ts = Some (Reference.to_ast e, rest))
  /\ (forall lhs ts e rest F,
        Reference.parse_terms f lhs ts = Some (e, rest) ->
        Reference.quiet rest = true -> (2 * f <= F)%nat ->
        parser_model.parse_operands F 4 (Reference.to_ast lhs) ts
        = Some (Reference.to_ast e, rest))
  /\ (forall ts e rest F,
        Reference.parse_expr f ts = Some (e, rest) ->
        Reference.quiet rest = true -> (2 * f <= F)%nat ->
        parser_model.parse_level F 4 ts = Some (Reference.to_ast e, rest)).

(** Modelled from the spec: the table of section 4.4, which declares an
    arity for every registered function; the source has no such table. *)
Definition declared_arity (name : string) : option (nat * nat) :=
  if existsb (String.eqb name)
       ["sin"; "cos"; "tan"; "asin"; "acos"; "atan"; "sqrt"; "log"; "log10";
        "abs"; "round"; "floor"; "ceil"; "fact"; "factorial"; "sum"]
  then Some (1, 1)%nat
  else if String.eqb name "mem" then Some (0, 0)%nat
  else None.

(** ** Predicates used by the statements *)

(** [callable(func)] and [isinstance(val, (int, float))]. *)
Definition is_callable (v : value) : bool :=
  match v with VCallable _ => true | _ => false end.

Definition is_int_or_float (v : value) : bool :=
  match v with VInt _ | VBool _ | VFloat _ => true | _ => false end.

(** A real zero: [0], [False], [0.0] or [-0.0]. *)
Definition is_zero_number (v : value) : bool :=
  match v with
  | VInt n => (n =? 0)%Z
  | VBool b => negb b
  | VFloat x => (x =? 0)%float
  | _ => false
  end.

(** [c in s] *)
Fixpoint occurs (c : ascii) (s : string) : bool :=
  match s with
  | EmptyString => false
  | String c' s' => Ascii.eqb c' c || occurs c s'
  end.

(** The texts of plain arithmetic: digits, the point and the exponent
    letter, the operators with the caret, parentheses and blanks. *)
Definition arithmetic_char (c : ascii) : bool :=
  parser_model.is_digit c
  || existsb (Ascii.eqb c)
       (list_ascii_of_string ".eE+-*/%^() " ++ [ascii_of_nat 9])%list.

Fixpoint arithmetic_text (s : string) : bool :=
  match s with
  | EmptyString => true
  | String c s' => arithmetic_char c && arithmetic_text s'
  end.

(** The left operands for which a zero right operand is reached by the
    division: an int, bool or float; when the right operand is a float, an
    int must first convert to a float. *)
Definition real_dividend (l r : value) : bool :=
  match l, r with
  | (VInt _ | VBool _ | VFloat _), (VInt _ | VBool _) => true
  | VFloat _, VFloat _ => true
  | (VInt _ | VBool _), VFloat _ =>
      match PyFloat_AsDouble l with Ok _ => true | Raise _ => false end
  | _, _ => false
  end.

(** The three operator classes that divide. *)
Definition divides (op : ast.op_class) : bool :=
  match op with
  | ast.Div | ast.FloorDiv | ast.Mod => true
  | _ => false
  end.

(** What Python raises for [l / r], [l // r] and [l % r] when [r] is a real
    zero: an int, bool or float is divided by it, unless an int has first to
    become a float and is too large for one; a complex number is divided by
    it, but has no floor division and no modulus; a list has none of the
    three. *)
Definition raised_on_zero_divisor (op : ast.op_class) (l r : value) : exn :=
  match l with
  | VInt _ | VBool _ | VFloat _ =>
      if real_dividend l r then ZeroDivisionError else OverflowError
  | VComplex _ _ =>
      match op with
      | ast.Div => ZeroDivisionError
      | _ => TypeError
      end
  | VList _ | VCallable _ => TypeError
  end.

(** The node kinds outside the evaluator's allow-list: every class without
    a visitor method, an operator node whose operator is not in
    [ALLOWED_OPERATORS], a call whose function is not a plain name, a
    constant that is no number. *)
Definition outside_allow_list {M : Libm} (node : ast.node) : bool :=
  match node with
  | ast.Other _ _ => true
  | ast.BinOp _ op _ | ast.UnaryOp op _ =>
      match ALLOWED_OPERATORS op with Some _ => false | None => true end
  | ast.Call func _ _ =>
      match func with ast.Name _ => false | _ => true end
  | ast.Constant c =>
      match c with
      | ast.CInt _ | ast.CFloat _ | ast.CBool _ => false
      | _ => true
      end
  | ast.Expression _ | ast.Num _ | ast.Name _ | ast.List _ => false
  end.

(** The sub-nodes a visitor method evaluates before it looks at the
    operator. *)
Definition operands (node : ast.node) : list ast.node :=
  match node with
  | ast.BinOp l _ r => [l; r]
  | ast.UnaryOp _ x => [x]
  | _ => []
  end.

(** Induction on nodes, with the hypothesis for every argument of a call
    and every element of a list. *)
Section node_induction.
Variable P : ast.node -> Prop.
Hypothesis HExpression : forall body, P body -> P (ast.Expression body).
Hypothesis HBinOp : forall l op r, P l -> P r -> P (ast.BinOp l op r).
Hypothesis HUnaryOp : forall op x, P x -> P (ast.UnaryOp op x).
Hypothesis HCall : forall func args keywords,
  P func -> Forall P args -> P (ast.Call func args keywords).
Hypothesis HNum : forall n, P (ast.Num n).
Hypothesis HConstant : forall c, P (ast.Constant c).
Hypothesis HName : forall id, P (ast.Name id).
Hypothesis HList : forall elts, Forall P elts -> P (ast.List elts).
Hypothesis HOther : forall cls children, P (ast.Other cls children).

Fixpoint node_ind_nested (n : ast.node) : P n :=
  let all :=
    fix all (ns : list ast.node) : Forall P ns :=
      match ns with
      | [] => Stdlib.Lists.List.Forall_nil P
      | x :: ns' =>
          @Stdlib.Lists.List.Forall_cons _ P x ns' (node_ind_nested x) (all ns')
      end in
  match n with
  | ast.Expression body => HExpression body (node_ind_nested body)
  | ast.BinOp l op r => HBinOp l op r (node_ind_nested l) (node_ind_nested r)
  | ast.UnaryOp op x => HUnaryOp op x (node_ind_nested x)
  | ast.Call func args keywords =>
      HCall func args keywords (node_ind_nested func) (all args)
  | ast.Num n => HNum n
  | ast.Constant c => HConstant c
  | ast.Name id => HName id
  | ast.List elts => HList elts (all elts)
  | ast.Other cls children => HOther cls children
  end.

End node_induction.

(** ** The batch loop and the memory entry of the menu

    [prompt_loop] is the terminal dialogue.  Two of its parts work on the
    calculator alone and are modelled: the loop of the batch mode over the
    expressions entered, and the menu entry that stores the last result.
    Prompting and printing are left out. *)

(** A row of the batch table, [(expr, res, None)] or [(expr, None, str(e))];
    the exception stands for the text the table shows of it. *)
Definition row : Type := string * option value * option exn.

(** [for expr in expressions: try: ... except Exception as e: ...]: the rows
    appended to [results], and [last_result]. *)
Fixpoint batch_loop {M : Libm} {P : Parser} (expressions : list string)
    (results : list row) (last_result : option value)
  : Calculator -> (list row * option value) * Calculator :=
  fun calc =>
    match expressions with
    | [] => ((results, last_result), calc)
    | expr :: rest =>
        match evaluate expr calc with
        | (Ok res, calc') =>
            batch_loop rest (results ++ [(expr, Some res, None)])%list (Some res) calc'
        | (Raise e, calc') =>
            batch_loop rest (results ++ [(expr, None, Some e)])%list last_result calc'
        end
    end.

(** Menu entry 4: nothing to store before a first result, else
    [calc.store_memory(last_result)], whose exception nothing catches. *)
Definition menu_store (last_result : option value) : Eval unit :=
  match last_result with
  | None => ret tt
  | Some v => store_memory v
  end.

(** ** Further predicates used by the statements *)

(** What the scanning loop of [_replace_bare_mem] computes, read from left
    to right over the text; [prev_alnum] tells whether the character before
    is alphanumeric. *)
Definition next_ok (after : string) : bool :=
  match after with
  | EmptyString => true
  | String d _ => negb (isalnum d)
  end.

Fixpoint scan (prev_alnum : bool) (s : string) : string :=
  match s with
  | EmptyString => EmptyString
  | String c rest =>
      match rest with
      | String c2 (String c3 after) =>
          if Ascii.eqb c "m" && Ascii.eqb c2 "e" && Ascii.eqb c3 "m"
             && next_ok after && negb prev_alnum
          then "mem()" +:+ scan true after
          else String c (scan (isalnum c) rest)
      | _ => String c (scan (isalnum c) rest)
      end
  end.

(** Whether the last character of a text is alphanumeric. *)
Fixpoint last_alnum (s : string) : bool :=
  match s with
  | EmptyString => false
  | String c EmptyString => isalnum c
  | String _ s' => last_alnum s'
  end.

(** The node calls, somewhere among the nodes the visitor evaluates, a name
    that the registry binds to [_get_memory_value]. *)
Fixpoint reads_memory (names : gmap string value) (node : ast.node) : bool :=
  match node with
  | ast.Expression body => reads_memory names body
  | ast.BinOp l _ r => reads_memory names l || reads_memory names r
  | ast.UnaryOp _ x => reads_memory names x
  | ast.Call func args _ =>
      match func with
      | ast.Name id =>
          match names !! id with
          | Some (VCallable GetMemoryValue) => true
          | _ => false
          end
      | _ => false
      end
      || existsb (reads_memory names) args
  | ast.List elts => existsb (reads_memory names) elts
  | ast.Num _ | ast.Constant _ | ast.Name _ | ast.Other _ _ => false
  end.

(** The legacy [Num] nodes of the tree hold numbers, as Python's do. *)
Fixpoint nums_hold_numbers (node : ast.node) : bool :=
  match node with
  | ast.Expression body => nums_hold_numbers body
  | ast.BinOp l _ r => nums_hold_numbers l && nums_hold_numbers r
  | ast.UnaryOp _ x => nums_hold_numbers x
  | ast.Call func args _ => forallb nums_hold_numbers args
  | ast.List elts => forallb nums_hold_numbers elts
  | ast.Num n => match as_number n with Some _ => true | None => false end
  | ast.Constant _ | ast.Name _ | ast.Other _ _ => true
  end.

(** The exceptions Python's own operators and functions raise. *)
Definition is_python_exception (e : exn) : bool :=
  match e with
  | SafeEvalError _ | SyntaxError _ => false
  | _ => true
  end.

(** A place where a text can be cut in two: anywhere but between two
    alphanumeric characters. *)
Definition word_boundary (a b : string) : Prop :=
  next_ok b = true \/ last_alnum a = false.

(** The value holds a function of the registry, at any depth of lists. *)
Fixpoint holds_callable (v : value) : bool :=
  match v with
  | VList items => existsb holds_callable items
  | VCallable _ => true
  | _ => false
  end.

Definition all_plain (vs : list value) : Prop :=
  existsb holds_callable vs = false.

Definition is_syntax_error (e : exn) : bool :=
  match e with
  | SyntaxError _ => true
  | _ => false
  end.

(** What an operator or a function of the registry hands back: one of
    Python's own exceptions, or a value that holds no function provided [P],
    which is about the arguments. *)
Definition clean_if (P : Prop) (r : result value) : Prop :=
  match r with
  | Ok v => P -> holds_callable v = false
  | Raise e => is_python_exception e = true
  end.

Definition clean : result value -> Prop := clean_if True.

(** The exception carries a message of [generic_visit]. *)
Definition raised_by_generic_visit (e : exn) : bool :=
  match e with
  | SafeEvalError msg => String.prefix "Disallowed expression element: " msg
  | _ => false
  end.

(** What the visitor hands back for a node. *)
Definition outcome {M : Libm} (names : gmap string value) (node : ast.node)
    (self : Calculator) : Prop :=
  match fst (visit names node self) with
  | Ok v => nums_hold_numbers node = true -> holds_callable v = false
  | Raise e => is_syntax_error e = false /\ raised_by_generic_visit e = false
  end.

(** [reached names self child parent]: visiting [parent] visits [child], and
    what the visitor does before that raises nothing.  The operands of an
    operator node are visited before the operator is looked up, the
    arguments of a call after the function name is. *)
Inductive reached {M : Libm} (names : gmap string value) (self : Calculator)
  : ast.node -> ast.node -> Prop :=
| reached_body (body : ast.node) :
    reached names self body (ast.Expression body)
| reached_left (l : ast.node) (op : ast.op_class) (r : ast.node) :
    reached names self l (ast.BinOp l op r)
| reached_right (l : ast.node) (op : ast.op_class) (r : ast.node) (a : value) :
    fst (visit names l self) = Ok a ->
    reached names self r (ast.BinOp l op r)
| reached_operand (op : ast.op_class) (x : ast.node) :
    reached names self x (ast.UnaryOp op x)
| reached_arg (id : string) (f : callable) (before : list ast.node)
    (arg : ast.node) (after : list ast.node)
    (keywords : list (option string * ast.node)) (vs : list value) :
    names !! id = Some (VCallable f) ->
    fst (comprehension (visit names) before self) = Ok vs ->
    reached names self arg
      (ast.Call (ast.Name id) (before ++ arg :: after) keywords)
| reached_elt (before : list ast.node) (elt : ast.node)
    (after : list ast.node) (vs : list value) :
    fst (comprehension (visit names) before self) = Ok vs ->
    reached names self elt (ast.List (before ++ elt :: after)).

(** [reached], any number of times. *)
Definition reached_within {M : Libm} (names : gmap string value)
    (self : Calculator) : ast.node -> ast.node -> Prop :=
  Relation_Operators.clos_refl_trans ast.node (reached names self).

(** The row of the batch table for one expression, evaluated in [calc]. *)
Definition row_of {M : Libm} {P : Parser} (calc : Calculator) (expr : string)
  : row :=
  match fst (evaluate expr calc) with
  | Ok res => (expr, Some res, None)
  | Raise e => (expr, None, Some e)
  end.

(** * Properties *)

(** ** Evaluation never writes the calculator *)

Section Frame.
Context {M : Libm}.

Lemma call_frame (func : callable) (args : list value) (self : Calculator) :
  snd (call func args self) = self.
Proof.
  destruct func; destruct args as [|a [|b [|c rest]]]; reflexivity.
Qed.

Lemma comprehension_frame {A B} (f : A -> Eval B) (xs : list A) :
  Forall (fun x => forall self, snd (f x self) = self) xs ->
  forall self, snd (comprehension f xs self) = self.
Proof.
  induction 1 as [|x xs Hx _ IH]; intros self; simpl.
  - reflexivity.
  - unfold bind. specialize (Hx self).
    destruct (f x self) as [[y|e] s1]; simpl in *; subst s1; [|reflexivity].
    specialize (IH self).
    destruct (comprehension f xs self) as [[ys|e] s2]; simpl in *; subst s2;
      reflexivity.
Qed.

Lemma visit_frame (names : gmap string value) (node : ast.node) :
  forall self, snd (visit names node self) = self.
Proof.
  induction node as
    [body IH | l op r IHl IHr | op x IH | func args keywords _ IHargs
    | n | c | id | elts IH | cls children] using node_ind_nested;
    intros self; simpl.
  - apply IH.
  - unfold visit_BinOp, bind. specialize (IHl self).
    destruct (visit names l self) as [[a|e] s1]; simpl in *; subst s1; [|reflexivity].
    specialize (IHr self).
    destruct (visit names r self) as [[b|e] s2]; simpl in *; subst s2; [|reflexivity].
    destruct (ALLOWED_OPERATORS op); reflexivity.
  - unfold visit_UnaryOp, bind. specialize (IH self).
    destruct (visit names x self) as [[a|e] s1]; simpl in *; subst s1; [|reflexivity].
    destruct (ALLOWED_OPERATORS op); reflexivity.
  - unfold visit_Call.
    destruct func; try reflexivity.
    destruct (names !! id) as [[| | | | |f]|]; try reflexivity.
    unfold bind.
    pose proof (comprehension_frame (visit names) args IHargs self) as Hc.
    destruct (comprehension (visit names) args self) as [[vs|e] s1];
      simpl in *; subst s1; [|reflexivity].
    apply call_frame.
  - reflexivity.
  - destruct c; reflexivity.
  - unfold visit_Name. destruct (names !! id) as [[| | | | |]|]; reflexivity.
  - unfold visit_List, bind.
    pose proof (comprehension_frame (visit names) elts IH self) as Hc.
    destruct (comprehension (visit names) elts self) as [[vs|e] s1];
      simpl in *; subst s1; reflexivity.
  - reflexivity.
Qed.

Lemma visit_pair (names : gmap string value) (node : ast.node) (self : Calculator) :
  visit names node self = (fst (visit names node self), self).
Proof.
  rewrite <- (visit_frame names node self) at 3.
  apply surjective_pairing.
Qed.

Lemma eval_expression_frame {P : Parser} (expression : string) (self : Calculator) :
  snd (_eval_expression expression self) = self.
Proof.
  unfold _eval_expression.
  destruct (ast_parse _) as [node|[]]; try reflexivity.
  apply visit_frame.
Qed.

End Frame.

(** C9: whatever the parser, the math library, the text and the state of
    the calculator, [_eval_expression] hands the calculator back as it got
    it (the memory cell in particular), and evaluating the same text a second
    time, against the calculator the first evaluation left, gives the same
    result. *)
Theorem evaluation_leaves_memory_unchanged :
  forall (M : Libm) (P : Parser) (expression : string) (self : Calculator),
    let (r1, self1) := _eval_expression expression self in
    let (r2, self2) := _eval_expression expression self1 in
    self1 = self /\ memory self1 = memory self /\ self2 = self /\ r2 = r1.
Proof.
  intros M P expression self.
  pose proof (eval_expression_frame expression self) as H1.
  destruct (_eval_expression expression self) as [r1 self1] eqn:E1.
  simpl in H1. subst self1. rewrite E1.
  repeat split.
Qed.

(** C10: the keywords of a call node take no part in its evaluation: the
    node evaluates as the same call without keywords (so they are neither
    evaluated nor rejected), and [round(2.5, ndigits=1)] is [round(2.5)],
    which is 2. *)
Theorem keywords_are_discarded :
  forall (M : Libm) (names : gmap string value) (func : ast.node)
         (args : list ast.node) (keywords : list (option string * ast.node))
         (self : Calculator),
    visit names (ast.Call func args keywords) self
      = visit names (ast.Call func args []) self
    /\ ast_parse (Parser := py_parser) "round(2.5, ndigits=1)"
         = Ok (ast.Expression
                 (ast.Call (ast.Name "round") [ast.Constant (ast.CFloat 2.5)]
                    [(Some "ndigits", ast.Constant (ast.CInt 1))]))
    /\ _eval_expression (P := py_parser) "round(2.5, ndigits=1)"
         {| memory := memory self; _names := _make_names |}
       = (Ok (VInt 2), {| memory := memory self; _names := _make_names |}).
Proof.
  intros M names func args keywords self.
  split; [reflexivity|].
  split; [vm_compute; reflexivity|].
  rewrite (surjective_pairing (_eval_expression _ _)).
  rewrite eval_expression_frame.
  apply f_equal2; [vm_compute; reflexivity | reflexivity].
Qed.

(** ** Lists at the top level *)

Lemma comprehension_Ok {M : Libm} (names : gmap string value)
    (elts : list ast.node) (self self' : Calculator) (items : list value) :
  comprehension (visit names) elts self = (Ok items, self') ->
  self' = self /\ length items = length elts.
Proof.
  revert items self'.
  induction elts as [|x elts IH]; intros items self' H; simpl in H.
  - inversion H. split; reflexivity.
  - unfold bind in H. rewrite (visit_pair names x self) in H.
    destruct (fst (visit names x self)) as [y|e]; [|discriminate].
    destruct (comprehension (visit names) elts self) as [[ys|e] s2] eqn:E;
      [|discriminate].
    destruct (IH ys s2 eq_refl) as [-> Hlen].
    inversion H. subst. split; [reflexivity | simpl; congruence].
Qed.

(** C8, as the code has it: a list literal at the top level is no error.
    When its elements evaluate to [items], the evaluation returns the list
    [items] and leaves the calculator as it was. *)
Theorem top_level_list_is_returned :
  forall (M : Libm) (names : gmap string value) (elts : list ast.node)
         (items : list value) (self self' : Calculator),
    comprehension (visit names) elts self = (Ok items, self') ->
    visit names (ast.Expression (ast.List elts)) self = (Ok (VList items), self).
Proof.
  intros M names elts items self self' H.
  destruct (comprehension_Ok names elts self self' items H) as [-> _].
  simpl. unfold visit_Expression. simpl. unfold visit_List, bind.
  rewrite H. reflexivity.
Qed.

(** ** Names and calls *)

(** C7, as the code has it: a name that is absent from the registry raises
    "Name not allowed" as a bare name and "Function not allowed" as a call; an
    entry that is not callable raises that same "Function not allowed" when
    called; an entry that is no int or float raises "is not a numeric
    constant" as a bare name.  None of them evaluates to a value. *)
Theorem name_resolution_errors :
  forall (M : Libm) (names : gmap string value) (id : string)
         (args : list ast.node) (keywords : list (option string * ast.node))
         (self : Calculator),
    (names !! id = None ->
       visit names (ast.Name id) self
         = (Raise (SafeEvalError ("Name not allowed: " +:+ id)), self)
       /\ visit names (ast.Call (ast.Name id) args keywords) self
         = (Raise (SafeEvalError ("Function not allowed: " +:+ id)), self))
    /\ (forall v, names !! id = Some v -> is_callable v = false ->
       visit names (ast.Call (ast.Name id) args keywords) self
         = (Raise (SafeEvalError ("Function not allowed: " +:+ id)), self))
    /\ (forall v, names !! id = Some v -> is_int_or_float v = false ->
       visit names (ast.Name id) self
         = (Raise (SafeEvalError ("Name '" +:+ id +:+ "' is not a numeric constant")),
            self)).
Proof.
  intros M names id args keywords self.
  split; [|split].
  - intros Habsent. simpl. unfold visit_Name, visit_Call.
    rewrite Habsent. split; reflexivity.
  - intros v Hv Hnot. simpl. unfold visit_Call. rewrite Hv.
    destruct v; try reflexivity. discriminate.
  - intros v Hv Hnot. simpl. unfold visit_Name. rewrite Hv.
    destruct v; try reflexivity; discriminate.
Qed.

(** ** Argument counts *)

Lemma call_rejects_count {M : Libm} (func : callable) (args : list value)
    (self : Calculator) :
  accepts func (length args) = false ->
  call func args self = (Raise TypeError, self).
Proof.
  intros H.
  destruct func; destruct args as [|a [|b [|c rest]]];
    try discriminate H; try reflexivity; destruct a; reflexivity.
Qed.

Lemma math_1_of_nan (func : float -> float) :
  math.math_1 func (VFloat nan) = Ok (VFloat (func nan)).
Proof.
  unfold math.math_1, PyFloat_AsDouble. simpl.
  change (is_nan nan) with true. change (is_finite nan) with false.
  rewrite !andb_false_r. reflexivity.
Qed.

(** Every count within the signature is taken: there are arguments of that
    count on which the callable returns. *)
Lemma call_takes_count {M : Libm} (func : callable) (n : nat) :
  accepts func n = true ->
  exists args : list value,
    length args = n /\ forall self, exists v, fst (call func args self) = Ok v.
Proof.
  intros H.
  destruct func; destruct n as [|[|[|n]]]; try discriminate H.
  (* the six lambdas over [math] *)
  1-3: exists [VFloat nan]; split; [reflexivity|]; intros self; eexists;
    cbn [call lift fst]; unfold math.radians, PyFloat_AsDouble; simpl;
    apply math_1_of_nan.
  1-3: exists [VFloat nan]; split; [reflexivity|]; intros self; eexists;
    cbn [call lift fst]; unfold math.asin, math.acos, math.atan, math.unary;
    rewrite math_1_of_nan; reflexivity.
  (* sqrt *)
  - exists [VFloat nan]. split; [reflexivity|]. intros self. eexists.
    cbn [call lift fst]. unfold math.sqrt, math.unary.
    apply math_1_of_nan.
  (* log *)
  - exists [VFloat nan]. split; [reflexivity|]. intros self. eexists.
    cbn [call lift fst]. unfold math.log, math.loghelper. simpl.
    apply math_1_of_nan.
  - exists [VFloat nan; VFloat nan]. split; [reflexivity|]. intros self. eexists.
    cbn [call lift fst]. unfold math.log, math.loghelper. simpl.
    change (math.m_log c_log nan) with nan. reflexivity.
  (* log10 *)
  - exists [VFloat nan]. split; [reflexivity|]. intros self. eexists.
    cbn [call lift fst]. unfold math.log10, math.loghelper. simpl.
    apply math_1_of_nan.
  (* abs, round, floor, ceil, fact, sum, mem *)
  - exists [VInt 1]. split; [reflexivity|]. intros self. eexists. reflexivity.
  - exists [VInt 1]. split; [reflexivity|]. intros self. eexists. reflexivity.
  - exists [VInt 1; VInt 0]. split; [reflexivity|]. intros self. eexists. reflexivity.
  - exists [VInt 1]. split; [reflexivity|]. intros self. eexists. reflexivity.
  - exists [VInt 1]. split; [reflexivity|]. intros self. eexists. reflexivity.
  - exists [VInt 3]. split; [reflexivity|]. intros self. eexists. reflexivity.
  - exists [VList []]. split; [reflexivity|]. intros self. eexists. reflexivity.
  - exists [VList []; VInt 0]. split; [reflexivity|]. intros self. eexists. reflexivity.
  - exists []. split; [reflexivity|]. intros self. eexists. reflexivity.
Qed.

(** C5, as the code has it: the source declares no arity, and the counts a
    function takes are those of the Python callable ([signature]: one
    argument, but one or two for [log], [round] and [sum], none for [mem]).
    A call of a registered function whose arguments evaluate and whose count
    is not one of these raises TypeError, so no argument is dropped to make
    the call fit; for each of these counts there are arguments on which the
    callable returns, so none of them is refused; and the second argument of
    [sum], [round] and [log] is used. *)
Theorem arity_violation_raises_TypeError :
  forall (M : Libm),
    (forall (names : gmap string value) (id : string) (func : callable)
            (args : list ast.node) (keywords : list (option string * ast.node))
            (values : list value) (self self' : Calculator),
       names !! id = Some (VCallable func) ->
       comprehension (visit names) args self = (Ok values, self') ->
       accepts func (length args) = false ->
       visit names (ast.Call (ast.Name id) args keywords) self = (Raise TypeError, self))
    /\ (forall (func : callable) (n : nat),
          accepts func n = true <->
          exists args : list value,
            length args = n
            /\ forall self, exists v, fst (call func args self) = Ok v)
    /\ (forall self : Calculator,
          fst (call BuiltinSum [VList [VInt 1; VInt 2]] self) = Ok (VInt 3)
          /\ fst (call BuiltinSum [VList [VInt 1; VInt 2]; VInt 10] self) = Ok (VInt 13)
          /\ fst (call BuiltinRound [VInt 15] self) = Ok (VInt 15)
          /\ fst (call BuiltinRound [VInt 15; VInt (-1)] self) = Ok (VInt 20)
          /\ fst (call MathLog [VInt 8] self) = Ok (VFloat (c_log 8))
          /\ fst (call MathLog [VInt 8; VInt 0] self) = Raise ValueError).
Proof.
  intros M. split; [|split].
  - intros names id func args keywords values self self' Hid Hargs Hcount.
    destruct (comprehension_Ok names args self self' values Hargs) as [-> Hlen].
    simpl. unfold visit_Call. rewrite Hid. unfold bind. rewrite Hargs.
    apply call_rejects_count. rewrite Hlen. exact Hcount.
  - intros func n. split; [apply call_takes_count|].
    intros (args & Hlen & Hcall).
    destruct (accepts func n) eqn:E; [reflexivity|].
    destruct (Hcall Calculator__init__) as [v Hv].
    rewrite <- Hlen in E.
    rewrite (call_rejects_count func args Calculator__init__ E) in Hv.
    discriminate Hv.
  - intros self.
    do 4 (split; [reflexivity|]).
    split; vm_compute; reflexivity.
Qed.

(** ** Nodes outside the allow-list *)

(** C1, as the code has it: a node outside the allow-list never evaluates
    to a value.  A node of a class without a visitor method, a call of
    something other than a plain name and a constant that is no number raise
    SafeEvalError at once.  An operator node whose operator is not allowed
    has its operands evaluated first: when they evaluate, it raises
    SafeEvalError; when one raises, that exception is the node's. *)
Theorem node_outside_allow_list_raises :
  forall (M : Libm) (names : gmap string value) (node : ast.node)
         (self : Calculator),
    outside_allow_list node = true ->
    match comprehension (visit names) (operands node) self with
    | (Ok _, _) =>
        exists msg, visit names node self = (Raise (SafeEvalError msg), self)
    | (Raise e, _) => visit names node self = (Raise e, self)
    end.
Proof.
  intros M names node self H.
  destruct node as
    [body | l op r | op x | func args keywords | n | c | id | elts | cls children];
    simpl in H; try discriminate H.
  - simpl. unfold visit_BinOp, bind, ret.
    rewrite (visit_pair names l self).
    destruct (fst (visit names l self)) as [a|e]; [|reflexivity].
    rewrite (visit_pair names r self).
    destruct (fst (visit names r self)) as [b|e]; [|reflexivity].
    destruct (ALLOWED_OPERATORS op); [discriminate H|].
    eexists. reflexivity.
  - simpl. unfold visit_UnaryOp, bind, ret.
    rewrite (visit_pair names x self).
    destruct (fst (visit names x self)) as [a|e]; [|reflexivity].
    destruct (ALLOWED_OPERATORS op); [discriminate H|].
    eexists. reflexivity.
  - simpl. unfold visit_Call.
    destruct func; try discriminate H; eexists; reflexivity.
  - simpl. destruct c; try discriminate H; eexists; reflexivity.
  - simpl. eexists. reflexivity.
Qed.

(** ** The text scanner *)

Lemma append_cons (c : ascii) (a b : string) :
  String c a +:+ b = String c (a +:+ b).
Proof. reflexivity. Qed.

Lemma append_empty_r (s : string) : s +:+ "" = s.
Proof.
  induction s as [|c s IH]; [reflexivity | rewrite append_cons, IH; reflexivity].
Qed.

Lemma append_assoc (a b c : string) : (a +:+ b) +:+ c = a +:+ (b +:+ c).
Proof.
  induction a as [|x a IH]; [reflexivity | rewrite !append_cons, IH; reflexivity].
Qed.

Lemma concat_empty_cons (x : string) (xs : list string) :
  String.concat "" (x :: xs) = x +:+ String.concat "" xs.
Proof.
  destruct xs as [|y ys]; simpl; [symmetry; apply append_empty_r | reflexivity].
Qed.

Lemma concat_empty_app (xs ys : list string) :
  String.concat "" (xs ++ ys)%list = String.concat "" xs +:+ String.concat "" ys.
Proof.
  induction xs as [|x xs IH].
  - reflexivity.
  - change ((x :: xs) ++ ys)%list with (x :: (xs ++ ys))%list.
    rewrite !concat_empty_cons, IH, append_assoc. reflexivity.
Qed.

Lemma substring_zero_length (i : nat) (s : string) : substring i 0 s = "".
Proof.
  revert i. induction s as [|c s IH]; intros [|i]; simpl; auto.
Qed.

Lemma substring_whole (s : string) : substring 0 (String.length s) s = s.
Proof. induction s as [|c s IH]; simpl; [reflexivity | now rewrite IH]. Qed.

Lemma get_None_length (s : string) (i : nat) :
  get i s = None -> (String.length s <= i)%nat.
Proof.
  revert i. induction s as [|c s IH]; intros i H; simpl in *; [lia|].
  destruct i; [discriminate|]. apply IH in H. lia.
Qed.

Lemma substring_get (s : string) (i : nat) (c : ascii) :
  get i s = Some c ->
  substring i (String.length s - i) s
  = String c (substring (S i) (String.length s - S i) s).
Proof.
  revert i. induction s as [|a s IH]; intros i H; simpl in H; [discriminate|].
  destruct i as [|i].
  - inversion H; subst. simpl. rewrite Nat.sub_0_r. reflexivity.
  - simpl. apply IH, H.
Qed.

Lemma substring_head_get (s : string) (i n : nat) (c : ascii) (r : string) :
  substring i (S n) s = String c r -> get i s = Some c.
Proof.
  revert i. induction s as [|a s IH]; intros i H.
  - destruct i; discriminate.
  - destruct i as [|i]; simpl in *; [inversion H; reflexivity | apply IH, H].
Qed.

Lemma occurs_get (c : ascii) (s : string) (i : nat) :
  occurs c s = false -> get i s <> Some c.
Proof.
  revert i. induction s as [|a s IH]; intros i H; simpl in *; [discriminate|].
  apply orb_false_iff in H. destruct H as [Ha Hs].
  destruct i as [|i]; [|apply IH, Hs].
  intros E. inversion E; subst. rewrite Ascii.eqb_refl in Ha. discriminate.
Qed.

Lemma startswith_mem_needs_m (s : string) (i : nat) :
  occurs "m" s = false -> startswith "mem" i s = false.
Proof.
  intros H. unfold startswith.
  destruct (String.eqb _ _) eqn:E; [|reflexivity].
  apply String.eqb_eq in E. simpl in E.
  apply substring_head_get in E. exfalso. exact (occurs_get _ _ _ H E).
Qed.

Lemma loop_without_mem (expr : string) :
  occurs "m" expr = false ->
  forall rounds i tokens,
    (String.length expr <= i + rounds)%nat ->
    String.concat "" (_replace_bare_mem_loop rounds expr i tokens)
    = String.concat "" tokens +:+ substring i (String.length expr - i) expr.
Proof.
  intros Hm.
  induction rounds as [|rounds IH]; intros i tokens Hlen; simpl.
  - replace (String.length expr - i)%nat with 0%nat by lia.
    rewrite substring_zero_length, append_empty_r. reflexivity.
  - destruct (get i expr) as [ch|] eqn:G.
    + rewrite (startswith_mem_needs_m expr i Hm). simpl.
      rewrite IH by lia.
      rewrite concat_empty_app, append_assoc. simpl.
      rewrite (substring_get expr i ch G).
      replace (i + 1)%nat with (S i) by lia. reflexivity.
    + apply get_None_length in G.
      replace (String.length expr - i)%nat with 0%nat by lia.
      rewrite substring_zero_length, append_empty_r. reflexivity.
Qed.

Lemma replace_bare_mem_without_m (expr : string) :
  occurs "m" expr = false -> _replace_bare_mem expr = expr.
Proof.
  intros Hm. unfold _replace_bare_mem.
  rewrite (loop_without_mem expr Hm) by lia.
  simpl. rewrite Nat.sub_0_r. apply substring_whole.
Qed.

Lemma arithmetic_char_not_m (c : ascii) :
  arithmetic_char c = true -> Ascii.eqb c "m" = false.
Proof.
  destruct c as [[] [] [] [] [] [] [] []]; vm_compute; congruence.
Qed.

Lemma occurs_append (c : ascii) (a b : string) :
  occurs c (a +:+ b) = occurs c a || occurs c b.
Proof.
  induction a as [|x a IH]; [reflexivity|].
  rewrite append_cons. simpl. rewrite IH, orb_assoc. reflexivity.
Qed.

Lemma arithmetic_text_without_m (text : string) :
  arithmetic_text text = true -> occurs "m" (replace "^" "**" text) = false.
Proof.
  induction text as [|c text IH]; simpl; intros H; [reflexivity|].
  apply andb_true_iff in H. destruct H as [Hc Ht].
  destruct (Ascii.eqb c "^").
  - rewrite occurs_append, (IH Ht). reflexivity.
  - simpl. rewrite (arithmetic_char_not_m c Hc), (IH Ht). reflexivity.
Qed.

(** The scanner has rounds enough: more rounds change nothing. *)
Lemma get_beyond_length (s : string) (i : nat) :
  (String.length s <= i)%nat -> get i s = None.
Proof.
  revert i. induction s as [|c s IH]; intros i H; simpl in *; [reflexivity|].
  destruct i; [lia | apply IH; lia].
Qed.

Lemma replace_bare_mem_loop_rounds (expr : string) (extra rounds i : nat)
    (tokens : list string) :
  (String.length expr <= i + rounds)%nat ->
  _replace_bare_mem_loop (rounds + extra) expr i tokens
  = _replace_bare_mem_loop rounds expr i tokens.
Proof.
  revert i tokens.
  induction rounds as [|rounds IH]; intros i tokens H.
  - destruct extra; simpl; [reflexivity|].
    rewrite get_beyond_length by lia. reflexivity.
  - simpl. destruct (get i expr); [|reflexivity].
    destruct (_ && _); [destruct (_ || _)|]; apply IH; lia.
Qed.

(** ** Agreement with the reference evaluator *)

Lemma as_double_to_double (v : Reference.literal) (x : float) :
  Reference.as_double v = Some x ->
  to_double match v with
            | Reference.Int n => NInt n
            | Reference.Float y => NFloat y
            end
  = Ok x.
Proof.
  destruct v as [n|y]; simpl.
  - unfold Reference.nearest_double, pyfloat.PyLong_AsDouble, pyfloat.of_Z.
    destruct (is_infinity _); congruence.
  - congruence.
Qed.

Lemma on_integers_agree {M : Libm} (op : Reference.binary) (a b : Z)
    (r : Reference.answer) :
  Reference.on_integers op a b = Some r ->
  match ALLOWED_OPERATORS (Reference.binary_class op) with
  | Some f => f [VInt a; VInt b]
  | None => Raise TypeError
  end = Reference.as_result r.
Proof.
  destruct op; simpl; intros H.
  - inversion H. reflexivity.
  - inversion H. reflexivity.
  - inversion H. reflexivity.
  - unfold operator.truediv, operator.binary, PyNumber_TrueDivide, binary_arith,
      long_true_divide. simpl.
    destruct (b =? 0)%Z; [inversion H; reflexivity|].
    unfold Reference.nearest_quotient in H.
    change (SF2Prim (SFdiv prec emax (Reference.unrounded a) (Reference.unrounded b)))
      with (pyfloat.of_quotient a b) in H.
    destruct (is_infinity (pyfloat.of_quotient a b)); inversion H. reflexivity.
  - unfold operator.pow, operator.binary, PyNumber_Power, binary_arith, long_pow. simpl.
    unfold Reference.moderate_power in H.
    destruct (0 <=? b)%Z eqn:Hb; [|discriminate H].
    assert ((b <? 0)%Z = false) as -> by lia.
    simpl in H.
    destruct ((b <=? 4096)%Z && (Z.abs a <=? 2 ^ 64)%Z); [|discriminate H].
    inversion H. reflexivity.
  - unfold operator.mod_, operator.binary, PyNumber_Remainder, binary_arith, long_mod.
    simpl. inversion H. destruct (b =? 0)%Z; reflexivity.
  - unfold operator.floordiv, operator.binary, PyNumber_FloorDivide, binary_arith,
      long_div.
    simpl. inversion H. destruct (b =? 0)%Z; reflexivity.
Qed.

Lemma on_doubles_agree {M : Libm} (op : Reference.binary) (x y : float)
    (r : Reference.answer) :
  Reference.on_doubles op x y = Some r ->
  match op with
  | Reference.Add => Ok (VFloat (x + y))
  | Reference.Sub => Ok (VFloat (x - y))
  | Reference.Mul => Ok (VFloat (x * y))
  | Reference.Div => float_div x y
  | Reference.Pow => float_pow x y
  | Reference.Mod => float_rem x y
  | Reference.FloorDiv => float_floor_div x y
  end = Reference.as_result r.
Proof.
  destruct op; simpl; intros H; try (inversion H; reflexivity).
  - unfold float_div. inversion H. destruct (y =? 0)%float; reflexivity.
  - unfold float_rem. destruct (y =? 0)%float; inversion H. reflexivity.
  - unfold float_floor_div. destruct (y =? 0)%float; inversion H. reflexivity.
Qed.

Lemma apply_binary_agree {M : Libm} (op : Reference.binary)
    (a b : Reference.literal) (r : Reference.answer) :
  Reference.apply_binary op a b = Some r ->
  match ALLOWED_OPERATORS (Reference.binary_class op) with
  | Some f => f [Reference.value_of a; Reference.value_of b]
  | None => Raise TypeError
  end = Reference.as_result r.
Proof.
  intros H.
  destruct a as [m|x], b as [n|y]; simpl in H.
  - apply on_integers_agree, H.
  - destruct (Reference.nearest_double m) as [u|] eqn:Hu; [|discriminate H].
    pose proof (as_double_to_double (Reference.Int m) u Hu) as Hm. simpl in Hm.
    rewrite <- (on_doubles_agree op u y r H).
    destruct op; simpl;
      unfold operator.add, operator.sub, operator.mul, operator.truediv, operator.pow,
        operator.mod_, operator.floordiv, operator.binary, PyNumber_Add,
        PyNumber_Subtract, PyNumber_Multiply, PyNumber_TrueDivide, PyNumber_Power,
        PyNumber_Remainder, PyNumber_FloorDivide, binary_arith; simpl;
      rewrite Hm; reflexivity.
  - destruct (Reference.nearest_double n) as [u|] eqn:Hu; [|discriminate H].
    pose proof (as_double_to_double (Reference.Int n) u Hu) as Hn. simpl in Hn.
    rewrite <- (on_doubles_agree op x u r H).
    destruct op; simpl;
      unfold operator.add, operator.sub, operator.mul, operator.truediv, operator.pow,
        operator.mod_, operator.floordiv, operator.binary, PyNumber_Add,
        PyNumber_Subtract, PyNumber_Multiply, PyNumber_TrueDivide, PyNumber_Power,
        PyNumber_Remainder, PyNumber_FloorDivide, binary_arith; simpl;
      rewrite Hn; reflexivity.
  - rewrite <- (on_doubles_agree op x y r H).
    destruct op; reflexivity.
Qed.

Lemma apply_unary_agree {M : Libm} (op : Reference.unary) (a : Reference.literal) :
  match ALLOWED_OPERATORS (Reference.unary_class op) with
  | Some f => f [Reference.value_of a]
  | None => Raise TypeError
  end = Ok (Reference.value_of (Reference.apply_unary op a)).
Proof. destruct op, a; reflexivity. Qed.

Lemma as_result_number (a : Reference.literal) :
  Reference.as_result (Reference.Number a) = Ok (Reference.value_of a).
Proof. destruct a; reflexivity. Qed.

Lemma visit_to_ast {M : Libm} (names : gmap string value) (a : Reference.expr)
    (self : Calculator) :
  forall r : Reference.answer,
    Reference.evaluate a = Some r ->
    visit names (Reference.to_ast a) self = (Reference.as_result r, self).
Proof.
  induction a as [v | op l IHl r IHr | op x IH]; simpl; intros res Hres.
  - inversion Hres. destruct v; reflexivity.
  - unfold visit_BinOp, bind.
    destruct (Reference.evaluate l) as [[u|]|]; [| |discriminate Hres].
    + rewrite (IHl _ eq_refl), as_result_number.
      destruct (Reference.evaluate r) as [[w|]|]; [| |discriminate Hres].
      * rewrite (IHr _ eq_refl), as_result_number.
        pose proof (apply_binary_agree op u w res Hres) as H.
        destruct op; simpl in H |- *; unfold lift; rewrite H; reflexivity.
      * rewrite (IHr _ eq_refl). inversion Hres. reflexivity.
    + rewrite (IHl _ eq_refl). inversion Hres. reflexivity.
  - unfold visit_UnaryOp, bind.
    destruct (Reference.evaluate x) as [[u|]|]; [| |discriminate Hres].
    + rewrite (IH _ eq_refl), as_result_number. inversion Hres.
      pose proof (apply_unary_agree op u) as H.
      destruct op; simpl in H |- *; unfold lift; rewrite H; destruct u; reflexivity.
    + rewrite (IH _ eq_refl). inversion Hres. reflexivity.
Qed.

(** ** Python's parser on the expressions of the grammar *)

Lemma py_parse_level_S (F level : nat) (ts : list parser_model.token) :
  parser_model.parse_level (S F) level ts
  = if (6 <=? level)%nat then parser_model.parse_factor F ts
    else match parser_model.parse_level F (S level) ts with
         | Some (first, rest) => parser_model.parse_operands F level first rest
         | None => None
         end.
Proof. reflexivity. Qed.

Lemma py_parse_operands_S (F level : nat) (lhs : ast.node) (ts : list parser_model.token) :
  parser_model.parse_operands (S F) level lhs ts
  = match ts with
    | parser_model.OP p :: ts' =>
        match parser_model.binary_op level p with
        | Some op =>
            match parser_model.parse_level F (S level) ts' with
            | Some (rhs, rest) => parser_model.parse_operands F level (ast.BinOp lhs op rhs) rest
            | None => None
            end
        | None => Some (lhs, ts)
        end
    | _ => Some (lhs, ts)
    end.
Proof. reflexivity. Qed.

Lemma py_parse_factor_S (F : nat) (ts : list parser_model.token) :
  parser_model.parse_factor (S F) ts
  = match ts with
    | parser_model.OP p :: ts' =>
        match parser_model.unary_op p with
        | Some op =>
            match parser_model.parse_factor F ts' with
            | Some (operand, rest) => Some (ast.UnaryOp op operand, rest)
            | None => None
            end
        | None => parser_model.parse_power F ts
        end
    | _ => parser_model.parse_power F ts
    end.
Proof. reflexivity. Qed.

Lemma py_parse_power_S (F : nat) (ts : list parser_model.token) :
  parser_model.parse_power (S F) ts
  = match parser_model.parse_atom F ts with
    | Some (a, rest) =>
        match parser_model.parse_trailers F a rest with
        | Some (base, parser_model.OP parser_model.DOUBLESTAR :: rest') =>
            match parser_model.parse_factor F rest' with
            | Some (exponent, rest'') => Some (ast.BinOp base ast.Pow exponent, rest'')
            | None => None
            end
        | r => r
        end
    | None => None
    end.
Proof. reflexivity. Qed.

Lemma py_parse_trailers_quiet (F : nat) (callee : ast.node) (ts : list parser_model.token) :
  Reference.quiet ts = true ->
  parser_model.parse_trailers (S F) callee ts = Some (callee, ts).
Proof.
  intros H. destruct ts as [|[c|id|p] ts']; try reflexivity.
  destruct p; try reflexivity; discriminate H.
Qed.

Lemma py_parse_operands_quiet (F level : nat) (lhs : ast.node) (ts : list parser_model.token) :
  Reference.quiet ts = true ->
  (level <? 4)%nat = true ->
  parser_model.parse_operands (S F) level lhs ts = Some (lhs, ts).
Proof.
  intros H Hlevel. rewrite py_parse_operands_S.
  destruct ts as [|[c|id|p] ts']; try reflexivity.
  destruct level as [|[|[|[|level]]]]; [| | | |discriminate Hlevel];
    destruct p; try reflexivity; discriminate H.
Qed.

Lemma additive_binary_op (p : parser_model.punct) :
  parser_model.binary_op 4 p = option_map Reference.binary_class (Reference.additive p).
Proof. destruct p; reflexivity. Qed.

Lemma multiplicative_binary_op (p : parser_model.punct) (ts : list parser_model.token) :
  Reference.quiet (parser_model.OP p :: ts) = true \/ Reference.multiplicative p <> None ->
  parser_model.binary_op 5 p = option_map Reference.binary_class (Reference.multiplicative p).
Proof.
  intros [H|H]; destruct p; try reflexivity; try discriminate H.
  exfalso. apply H. reflexivity.
Qed.

Lemma sign_unary_op (p : parser_model.punct) :
  p <> parser_model.TILDE ->
  parser_model.unary_op p = option_map Reference.unary_class (Reference.sign p).
Proof. intros H. destruct p; try reflexivity. contradiction. Qed.

Lemma number_token_constant (c : ast.constant) (v : Reference.literal) :
  Reference.number_token c = Some v ->
  ast.Constant c = Reference.to_ast (Reference.NumberLiteral v).
Proof. destruct c; simpl; intros H; inversion H; reflexivity. Qed.

(** Where the loops of the grammar stop, Python's stop too. *)
Lemma parse_terms_quiet (f : nat) (lhs e : Reference.expr) (ts rest : list parser_model.token) :
  Reference.parse_terms f lhs ts = Some (e, rest) ->
  Reference.quiet rest = true -> Reference.quiet ts = true.
Proof.
  destruct f as [|f]; [discriminate|]. simpl.
  destruct ts as [|[c|id|p] ts']; try (intros H; inversion H; subst; auto; fail).
  destruct p; simpl; try (intros H; inversion H; subst; auto; fail); reflexivity.
Qed.

Lemma parse_factors_quiet (f : nat) (lhs e : Reference.expr) (ts rest : list parser_model.token) :
  Reference.parse_factors f lhs ts = Some (e, rest) ->
  Reference.quiet rest = true -> Reference.quiet ts = true.
Proof.
  destruct f as [|f]; [discriminate|]. simpl.
  destruct ts as [|[c|id|p] ts']; try (intros H; inversion H; subst; auto; fail).
  destruct p; simpl; try (intros H; inversion H; subst; auto; fail); reflexivity.
Qed.

Lemma parse_power_quiet (f : nat) (ts : list parser_model.token) :
  Reference.parse_power f (parser_model.OP parser_model.TILDE :: ts) = None.
Proof.
  destruct f as [|[|f]]; reflexivity.
Qed.

Lemma py_parse_level_0 (f F : nat) (ts : list parser_model.token) (e : Reference.expr)
    (rest : list parser_model.token) :
  simulated f ->
  Reference.parse_expr f ts = Some (e, rest) ->
  Reference.quiet rest = true -> (2 * f + 4 <= F)%nat ->
  parser_model.parse_level F 0 ts = Some (Reference.to_ast e, rest).
Proof.
  intros (_ & _ & _ & _ & _ & _ & Hexpr) He Hq HF.
  destruct f as [|f]; [discriminate He|].
  destruct F as [|[|[|[|F]]]]; try lia.
  rewrite 4 py_parse_level_S. cbn [Nat.leb].
  rewrite (Hexpr ts e rest F He Hq) by lia.
  destruct F as [|F]; [lia|].
  rewrite !py_parse_operands_quiet by (assumption || reflexivity).
  reflexivity.
Qed.

Lemma simulation (f : nat) : simulated f.
Proof.
  induction f as [|f IH].
  { repeat split; intros; discriminate. }
  pose proof IH as (Hprimary & Hpower & Hfactor & Hfactors & Hterm & Hterms & Hexpr).
  unfold simulated. repeat match goal with |- _ /\ _ => split end.
  - (* primary *)
    intros ts e rest F H Hq HF. destruct F as [|F]; [lia|].
    simpl in H.
    destruct ts as [|[c|id|p] ts']; try discriminate H.
    + destruct (Reference.number_token c) as [v|] eqn:Hc; [|discriminate H].
      inversion H; subst. simpl. f_equal. f_equal.
      apply number_token_constant, Hc.
    + destruct p; try discriminate H.
      destruct (Reference.parse_expr f ts') as [[inner rest']|] eqn:Hinner;
        [|discriminate H].
      destruct rest' as [|[c|id|p] rest'']; try discriminate H.
      destruct p; try discriminate H. inversion H; subst.
      change (parser_model.parse_atom (S F) (parser_model.OP parser_model.LPAR :: ts'))
        with (match parser_model.parse_level F 0 ts' with
              | Some (inner, parser_model.OP parser_model.RPAR :: rest) => Some (inner, rest)
              | _ => None
              end).
      rewrite (py_parse_level_0 f F ts' e (parser_model.OP parser_model.RPAR :: rest) IH Hinner eq_refl)
        by lia.
      reflexivity.
  - (* power *)
    intros ts e rest F H Hq HF. destruct F as [|F]; [lia|].
    simpl in H. rewrite py_parse_power_S.
    destruct (Reference.parse_primary f ts) as [[base rest1]|] eqn:Hbase;
      [|discriminate H].
    destruct F as [|F']; [lia|].
    assert (Hstop : Reference.quiet rest1 = true ->
                    parser_model.parse_atom (S F') ts = Some (Reference.to_ast base, rest1)
                    /\ parser_model.parse_trailers (S F') (Reference.to_ast base) rest1
                       = Some (Reference.to_ast base, rest1)).
    { intros Hq1. split; [apply (Hprimary ts base rest1); [assumption..|lia]|].
      apply py_parse_trailers_quiet, Hq1. }
    destruct rest1 as [|[c|id|p] rest1'].
    + inversion H; subst. destruct (Hstop eq_refl) as [-> ->]. reflexivity.
    + inversion H; subst. destruct (Hstop eq_refl) as [-> ->]. reflexivity.
    + inversion H; subst. destruct (Hstop eq_refl) as [-> ->]. reflexivity.
    + destruct p;
        try (inversion H; subst; destruct (Hstop Hq) as [-> ->]; reflexivity).
      destruct (Hstop eq_refl) as [-> ->].
      destruct (Reference.parse_factor f rest1') as [[exponent rest2]|] eqn:Hexp;
        [|discriminate H].
      inversion H; subst.
      rewrite (Hfactor rest1' exponent rest (S F') Hexp Hq) by lia. reflexivity.
  - (* factor *)
    intros ts e rest F H Hq HF. destruct F as [|F]; [lia|].
    simpl in H. rewrite py_parse_factor_S.
    destruct ts as [|[c|id|p] ts'];
      try (apply (Hpower _ e rest F H Hq); lia).
    destruct (Reference.sign p) as [op|] eqn:Hsign.
    + rewrite sign_unary_op by (intros ->; discriminate Hsign).
      rewrite Hsign. simpl.
      destruct (Reference.parse_factor f ts') as [[x rest1]|] eqn:Hx; [|discriminate H].
      inversion H; subst.
      rewrite (Hfactor ts' x rest F Hx Hq) by lia. reflexivity.
    + destruct p; try discriminate Hsign;
        try (apply (Hpower _ e rest F H Hq); lia).
      rewrite parse_power_quiet in H. discriminate H.
  - (* factors *)
    intros lhs ts e rest F H Hq HF. destruct F as [|F]; [lia|].
    simpl in H. rewrite py_parse_operands_S.
    destruct ts as [|[c|id|p] ts']; try (inversion H; subst; reflexivity).
    destruct (Reference.multiplicative p) as [op|] eqn:Hop.
    + rewrite (multiplicative_binary_op p ts') by (right; congruence).
      rewrite Hop. simpl.
      destruct (Reference.parse_factor f ts') as [[rhs rest1]|] eqn:Hrhs;
        [|discriminate H].
      destruct F as [|F']; [lia|].
      rewrite py_parse_level_S. cbn [Nat.leb].
      rewrite (Hfactor ts' rhs rest1 F' Hrhs (parse_factors_quiet _ _ _ _ _ H Hq)) by lia.
      apply (Hfactors (Reference.BinaryOp op lhs rhs) rest1 e rest (S F') H Hq). lia.
    + inversion H; subst.
      rewrite (multiplicative_binary_op p ts') by (left; exact Hq).
      rewrite Hop. reflexivity.
  - (* term *)
    intros ts e rest F H Hq HF. destruct F as [|[|F]]; try lia.
    simpl in H. rewrite 2 py_parse_level_S. cbn [Nat.leb].
    destruct (Reference.parse_factor f ts) as [[first rest1]|] eqn:Hfirst;
      [|discriminate H].
    rewrite (Hfactor ts first rest1 F Hfirst (parse_factors_quiet _ _ _ _ _ H Hq)) by lia.
    apply (Hfactors first rest1 e rest (S F) H Hq). lia.
  - (* terms *)
    intros lhs ts e rest F H Hq HF. destruct F as [|F]; [lia|].
    simpl in H. rewrite py_parse_operands_S.
    destruct ts as [|[c|id|p] ts']; try (inversion H; subst; reflexivity).
    rewrite additive_binary_op.
    destruct (Reference.additive p) as [op|] eqn:Hop; simpl.
    + destruct (Reference.parse_term f ts') as [[rhs rest1]|] eqn:Hrhs;
        [|discriminate H].
      rewrite (Hterm ts' rhs rest1 F Hrhs (parse_terms_quiet _ _ _ _ _ H Hq)) by lia.
      apply (Hterms (Reference.BinaryOp op lhs rhs) rest1 e rest F H Hq). lia.
    + inversion H; subst. reflexivity.
  - (* expr *)
    intros ts e rest F H Hq HF. destruct F as [|F]; [lia|].
    simpl in H. rewrite py_parse_level_S. cbn [Nat.leb].
    destruct (Reference.parse_term f ts) as [[first rest1]|] eqn:Hfirst;
      [|discriminate H].
    rewrite (Hterm ts first rest1 F Hfirst (parse_terms_quiet _ _ _ _ _ H Hq)) by lia.
    apply (Hterms first rest1 e rest F H Hq). lia.
Qed.

(** Python's parser returns the tree of every text the grammar reads. *)
Lemma py_parse_of_reference (text : string) (e : Reference.expr) :
  Reference.parse text = Some e ->
  parser_model.py_parse text = Ok (ast.Expression (Reference.to_ast e)).
Proof.
  unfold Reference.parse, parser_model.py_parse.
  destruct text as [|c text']; [discriminate|].
  destruct (parser_model.is_blank c); [discriminate|].
  destruct (parser_model.tokenize _ _) as [ts|]; [|discriminate].
  destruct (Reference.parse_expr (6 * S (length ts)) ts) as [[e' rest]|] eqn:He;
    [|discriminate].
  destruct rest; [|discriminate]. intros H. inversion H; subst.
  rewrite (py_parse_level_0 (6 * S (length ts)) (16 * S (length ts)) ts e []
             (simulation _) He eq_refl) by lia.
  reflexivity.
Qed.


(** ** Facts about doubles *)

Section FloatFacts.
Local Open Scope float_scope.

Lemma is_nan_spec (x : float) :
  is_nan x = match Prim2SF x with S754_nan => true | _ => false end.
Proof.
  unfold is_nan. rewrite FloatAxioms.eqb_spec. unfold SFeqb.
  destruct (Prim2SF x) as [s|s| |s m e]; simpl; try reflexivity.
  - destruct s; reflexivity.
  - destruct s; rewrite Z.compare_refl, Pos.compare_cont_refl; reflexivity.
Qed.

Lemma is_infinity_spec (x : float) :
  is_infinity x = match Prim2SF x with S754_infinity _ => true | _ => false end.
Proof.
  unfold is_infinity. rewrite FloatAxioms.eqb_spec, FloatAxioms.abs_spec.
  change (Prim2SF infinity) with (S754_infinity false).
  destruct (Prim2SF x) as [s|s| |s m e]; reflexivity.
Qed.

Lemma negative_cases (x : float) :
  (x <? 0) = true ->
  Prim2SF x = S754_infinity true \/ exists m e, Prim2SF x = S754_finite true m e.
Proof.
  rewrite FloatAxioms.ltb_spec. change (Prim2SF 0) with (S754_zero false).
  unfold SFltb.
  destruct (Prim2SF x) as [s|s| |s m e]; simpl; try discriminate.
  - destruct s; [left; reflexivity | discriminate].
  - destruct s; [right; eauto | discriminate].
Qed.

Lemma negative_not_zero (x : float) : (x <? 0) = true -> (x =? 0) = false.
Proof.
  rewrite FloatAxioms.ltb_spec, FloatAxioms.eqb_spec. unfold SFltb, SFeqb.
  destruct (SFcompare (Prim2SF x) (Prim2SF 0)) as [[]|]; congruence.
Qed.

Lemma zero_cases (y : float) :
  (y =? 0) = true -> exists s, Prim2SF y = S754_zero s.
Proof.
  rewrite FloatAxioms.eqb_spec. change (Prim2SF 0) with (S754_zero false). unfold SFeqb.
  destruct (Prim2SF y) as [s|s| |s m e]; simpl; try discriminate.
  - eauto.
  - destruct s; discriminate.
  - destruct s; discriminate.
Qed.

Lemma not_integral_not_zero (y : float) :
  (y =? pyfloat.c_floor y) = false -> (y =? 0) = false.
Proof.
  intros H. destruct (y =? 0) eqn:E; [|reflexivity].
  destruct (zero_cases y E) as [s Hs].
  unfold pyfloat.c_floor in H. rewrite Hs in H.
  rewrite FloatAxioms.eqb_spec, Hs in H. discriminate H.
Qed.

Lemma sqrt_negative_is_nan (x : float) :
  (x <? 0) = true -> is_nan (sqrt x) = true /\ is_nan x = false.
Proof.
  intros H. rewrite !is_nan_spec, FloatAxioms.sqrt_spec.
  destruct (negative_cases x H) as [-> | (m & e & ->)]; split; reflexivity.
Qed.

End FloatFacts.

(** ** Division by zero *)

Lemma PyLong_AsDouble_zero : pyfloat.PyLong_AsDouble 0 = Ok 0%float.
Proof. vm_compute. reflexivity. Qed.

Lemma PyLong_AsDouble_raises (n : Z) (e : exn) :
  pyfloat.PyLong_AsDouble n = Raise e -> e = OverflowError.
Proof.
  unfold pyfloat.PyLong_AsDouble. destruct (is_infinity _); congruence.
Qed.

Lemma binary_arith_zero
    (on_int : Z -> Z -> result value)
    (on_float : float -> float -> result value)
    (on_complex : float * float -> float * float -> result value)
    (on_complex_zero : exn) (l r : value) :
  (forall a, on_int a 0%Z = Raise ZeroDivisionError) ->
  (forall a b, (b =? 0)%float = true -> on_float a b = Raise ZeroDivisionError) ->
  (forall u y, (y =? 0)%float = true ->
               on_complex u (y, 0%float) = Raise on_complex_zero) ->
  is_zero_number r = true ->
  binary_arith on_int on_float on_complex l r
  = Raise match l with
          | VInt _ | VBool _ | VFloat _ =>
              if real_dividend l r then ZeroDivisionError else OverflowError
          | VComplex _ _ => on_complex_zero
          | VList _ | VCallable _ => TypeError
          end.
Proof.
  intros Hint Hfloat Hcomplex Hzero.
  assert (Hfz : forall x, (let+ w := pyfloat.PyLong_AsDouble 0 in on_float x w)
                          = Raise ZeroDivisionError).
  { intros x. rewrite PyLong_AsDouble_zero. simpl. apply Hfloat. reflexivity. }
  assert (Hcz : forall u, (let+ w := (let+ x := pyfloat.PyLong_AsDouble 0 in
                                      Ok (x, 0%float)) in on_complex u w)
                          = Raise on_complex_zero).
  { intros u. rewrite PyLong_AsDouble_zero. simpl. apply Hcomplex. reflexivity. }
  assert (Hconv : forall n y,
            (y =? 0)%float = true ->
            (let+ u := pyfloat.PyLong_AsDouble n in
             let+ w := Ok y in on_float u w)
            = Raise (if match pyfloat.PyLong_AsDouble n with
                        | Ok _ => true
                        | Raise _ => false
                        end
                     then ZeroDivisionError else OverflowError)).
  { intros n y Hy. destruct (pyfloat.PyLong_AsDouble n) as [u|e] eqn:E; simpl.
    - apply Hfloat, Hy.
    - rewrite (PyLong_AsDouble_raises n e E). reflexivity. }
  unfold binary_arith.
  destruct l as [a|a|x|re im|items|f];
    destruct r as [b|b|y| | |]; try discriminate Hzero;
    simpl in Hzero; simpl; try reflexivity.
  - apply Z.eqb_eq in Hzero. subst b. apply Hint.
  - destruct b; [discriminate Hzero|]. apply Hint.
  - unfold real_dividend, PyFloat_AsDouble. simpl. apply Hconv, Hzero.
  - apply Z.eqb_eq in Hzero. subst b. apply Hint.
  - destruct b; [discriminate Hzero|]. apply Hint.
  - unfold real_dividend, PyFloat_AsDouble. simpl. apply Hconv, Hzero.
  - apply Z.eqb_eq in Hzero. subst b. apply Hfz.
  - destruct b; [discriminate Hzero|]. apply Hfz.
  - apply Hfloat, Hzero.
  - apply Z.eqb_eq in Hzero. subst b. apply Hcz.
  - destruct b; [discriminate Hzero|]. apply Hcz.
  - apply Hcomplex, Hzero.
Qed.

Lemma complex_div_zero (u : float * float) (y : float) :
  (y =? 0)%float = true -> complex_div u (y, 0%float) = Raise ZeroDivisionError.
Proof.
  intros Hy. destruct (zero_cases y Hy) as [s Hs].
  unfold complex_div, _Py_c_quot. destruct u as [ar ai].
  assert ((y <? 0)%float = false) as ->
    by (rewrite FloatAxioms.ltb_spec, Hs; destruct s; reflexivity).
  change ((0 <? 0)%float) with false. cbv iota.
  assert ((0 <=? y)%float = true) as ->
    by (rewrite FloatAxioms.leb_spec, Hs; destruct s; reflexivity).
  rewrite Hy. reflexivity.
Qed.

Lemma division_by_zero_on_values {M : Libm} (op : ast.op_class)
    (f : list value -> result value) (l r : value) :
  divides op = true ->
  ALLOWED_OPERATORS op = Some f ->
  is_zero_number r = true ->
  f [l; r] = Raise (raised_on_zero_divisor op l r).
Proof.
  intros Hop Hf Hzero.
  destruct op; try discriminate Hop; inversion Hf; subst f; clear Hf;
    unfold raised_on_zero_divisor;
    apply binary_arith_zero; try assumption; try reflexivity.
  all: try (intros a b Hb;
            unfold float_div, float_floor_div, float_rem; rewrite Hb; reflexivity).
  apply complex_div_zero.
Qed.

(** C3, as the code has it: when the right operand of a division, a floor
    division or a modulus evaluates to a real zero (0, False, 0.0 or -0.0),
    the operation returns nothing and raises what Python raises, whatever the
    left operand evaluates to, and the calculator is left alone.  That is
    ZeroDivisionError for an int, bool or float (an int that converts to a
    float when the zero is a float) and for a complex number under [/];
    OverflowError for an int too large for a float over a float zero;
    TypeError for a complex number under [//] and [%] and for a list. *)
Theorem division_by_zero_raises :
  forall (M : Libm) (names : gmap string value) (l r : ast.node)
         (op : ast.op_class) (vl vr : value) (self : Calculator),
    divides op = true ->
    fst (visit names l self) = Ok vl ->
    fst (visit names r self) = Ok vr ->
    is_zero_number vr = true ->
    visit names (ast.BinOp l op r) self
      = (Raise (raised_on_zero_divisor op vl vr), self)
    /\ (real_dividend vl vr = true ->
        visit names (ast.BinOp l op r) self = (Raise ZeroDivisionError, self)).
Proof.
  intros M names l r op vl vr self Hop Hl Hr Hzero.
  assert (visit names (ast.BinOp l op r) self
          = (Raise (raised_on_zero_divisor op vl vr), self)) as Hvisit.
  { simpl. unfold visit_BinOp, bind.
    rewrite (visit_pair names l self), Hl.
    rewrite (visit_pair names r self), Hr.
    destruct (ALLOWED_OPERATORS op) as [f|] eqn:Hf.
    - unfold lift. f_equal.
      apply (division_by_zero_on_values op f vl vr Hop Hf Hzero).
    - destruct op; discriminate. }
  split; [exact Hvisit|].
  intros Hreal. rewrite Hvisit. unfold raised_on_zero_divisor.
  destruct vl; try discriminate Hreal; rewrite Hreal; reflexivity.
Qed.

(** ** Domain errors *)

Lemma sqrt_of_negative {M : Libm} (v : value) (x : float) (self : Calculator) :
  PyFloat_AsDouble v = Ok x ->
  (x <? 0)%float = true ->
  call MathSqrt [v] self = (Raise ValueError, self).
Proof.
  intros Hv Hneg.
  destruct (sqrt_negative_is_nan x Hneg) as [Hr Hx].
  unfold call, lift, math.sqrt, math.unary, math.math_1.
  rewrite Hv. simpl. rewrite Hr, Hx. reflexivity.
Qed.

Lemma power_of_negative {M : Libm} (a : value) (x y : float) :
  PyFloat_AsDouble a = Ok x ->
  (x <? 0)%float = true ->
  is_finite x = true ->
  is_finite y = true ->
  (y =? pyfloat.c_floor y)%float = false ->
  PyNumber_Power a (VFloat y) = complex_pow (x, 0%float) (y, 0%float)
  /\ ((exists re im, PyNumber_Power a (VFloat y) = Ok (VComplex re im))
      \/ PyNumber_Power a (VFloat y) = Raise OverflowError).
Proof.
  intros Ha Hneg Hfx Hfy Hfrac.
  pose proof (negative_not_zero x Hneg) as Hx0.
  pose proof (not_integral_not_zero y Hfrac) as Hy0.
  unfold is_finite in Hfx, Hfy.
  apply negb_true_iff, orb_false_iff in Hfx. destruct Hfx as [Hxnan Hxinf].
  apply negb_true_iff, orb_false_iff in Hfy. destruct Hfy as [Hynan Hyinf].
  assert (Hfp : float_pow x y = complex_pow (x, 0%float) (y, 0%float)).
  { unfold float_pow.
    rewrite Hy0, Hxnan, Hynan, Hyinf, Hxinf, Hx0, Hneg, Hfrac. reflexivity. }
  assert (Hpow : PyNumber_Power a (VFloat y) = complex_pow (x, 0%float) (y, 0%float)).
  { rewrite <- Hfp. unfold PyNumber_Power, binary_arith.
    unfold PyFloat_AsDouble in Ha.
    destruct a as [n|b|u|re im| |]; simpl in Ha |- *; try discriminate Ha.
    - rewrite Ha. reflexivity.
    - rewrite Ha. reflexivity.
    - inversion Ha. reflexivity. }
  split; [exact Hpow|].
  rewrite Hpow. unfold complex_pow. simpl. rewrite Hy0, Hx0. simpl.
  destruct (is_infinity _ || is_infinity _).
  - right. reflexivity.
  - left. eexists _, _. reflexivity.
Qed.

Lemma sqrt_of_unconvertible {M : Libm} (v : value) (e : exn) (self : Calculator) :
  PyFloat_AsDouble v = Raise e ->
  call MathSqrt [v] self = (Raise e, self).
Proof.
  intros Hv. unfold call, lift, math.sqrt, math.unary, math.math_1.
  rewrite Hv. reflexivity.
Qed.

(** C4, as the code has it.  [sqrt(arg)] first makes a float of what [arg]
    evaluates to: when that float is negative, minus infinity included, it
    raises ValueError; when there is no such float, it raises the exception
    of the conversion (OverflowError for an int too large for a float).
    When [arg] evaluates to a finite negative number and [exponent] to a
    finite float that is no integer, the power raises no domain error: it is
    the complex power, which returns a complex number, or raises
    OverflowError when a part of it is infinite. *)
Theorem undefined_results :
  forall (M : Libm) (names : gmap string value) (arg exponent : ast.node)
         (a : value) (self : Calculator),
    names !! "sqrt" = Some (VCallable MathSqrt) ->
    fst (visit names arg self) = Ok a ->
    (forall x : float,
       PyFloat_AsDouble a = Ok x ->
       (x <? 0)%float = true ->
       visit names (ast.Call (ast.Name "sqrt") [arg] []) self
       = (Raise ValueError, self))
    /\ (forall e : exn,
          PyFloat_AsDouble a = Raise e ->
          visit names (ast.Call (ast.Name "sqrt") [arg] []) self = (Raise e, self))
    /\ (forall x y : float,
          PyFloat_AsDouble a = Ok x ->
          (x <? 0)%float = true ->
          is_finite x = true ->
          fst (visit names exponent self) = Ok (VFloat y) ->
          is_finite y = true ->
          (y =? pyfloat.c_floor y)%float = false ->
          visit names (ast.BinOp arg ast.Pow exponent) self
            = (complex_pow (x, 0%float) (y, 0%float), self)
          /\ ((exists re im,
                 visit names (ast.BinOp arg ast.Pow exponent) self
                   = (Ok (VComplex re im), self))
              \/ visit names (ast.BinOp arg ast.Pow exponent) self
                   = (Raise OverflowError, self))).
Proof.
  intros M names arg exponent a self Hsqrt Harg.
  assert (Hcall : visit names (ast.Call (ast.Name "sqrt") [arg] []) self
                  = call MathSqrt [a] self).
  { simpl. unfold visit_Call. rewrite Hsqrt. simpl. unfold bind, ret.
    rewrite (visit_pair names arg self), Harg. reflexivity. }
  split; [|split].
  - intros x Ha Hneg. rewrite Hcall. apply (sqrt_of_negative a x self Ha Hneg).
  - intros e Ha. rewrite Hcall. apply (sqrt_of_unconvertible a e self Ha).
  - intros x y Ha Hneg Hfx Hexp Hfy Hfrac.
    destruct (power_of_negative a x y Ha Hneg Hfx Hfy Hfrac) as [Hpow Hkind].
    assert (Hvisit : visit names (ast.BinOp arg ast.Pow exponent) self
                     = (PyNumber_Power a (VFloat y), self)).
    { simpl. unfold visit_BinOp, bind.
      rewrite (visit_pair names arg self), Harg.
      rewrite (visit_pair names exponent self), Hexp. reflexivity. }
    split.
    + rewrite Hvisit, Hpow. reflexivity.
    + rewrite Hvisit.
      destruct Hkind as [(re & im & ->) | ->]; [left; eauto | right; reflexivity].
Qed.

(** ** Concrete inputs *)

(** There is a math library to speak of: statements about every [Libm] are
    not vacuous.  This one answers NaN everywhere and stands for no
    platform. *)
Lemma Libm_inhabited : inhabited Libm.
Proof.
  constructor.
  exact {| c_sin := fun _ => nan; c_cos := fun _ => nan; c_tan := fun _ => nan;
           c_asin := fun _ => nan; c_acos := fun _ => nan; c_atan := fun _ => nan;
           c_log := fun _ => nan; c_log10 := fun _ => nan;
           c_pow := fun _ _ => nan; c_hypot := fun _ _ => nan;
           c_complex_pow := fun _ _ => (nan, nan);
           double_round := fun _ _ => None |}.
Qed.

(** C1 at [1 | 2]: both operands evaluate, the operator is refused. *)
Lemma node_outside_allow_list_raises_witness :
  (forall M : Libm,
     outside_allow_list
       (ast.BinOp (ast.Constant (ast.CInt 1)) ast.BitOr (ast.Constant (ast.CInt 2)))
     = true)
  /\ (forall M : Libm,
        exists msg,
          visit _make_names
            (ast.BinOp (ast.Constant (ast.CInt 1)) ast.BitOr (ast.Constant (ast.CInt 2)))
            Calculator__init__
          = (Raise (SafeEvalError msg), Calculator__init__)).
Proof.
  split; intros M.
  - reflexivity.
  - exact (node_outside_allow_list_raises M _make_names
             (ast.BinOp (ast.Constant (ast.CInt 1)) ast.BitOr
                (ast.Constant (ast.CInt 2)))
             Calculator__init__ eq_refl).
Defined.

(** C1 as stated fails at [(1/0) | 2]: the node is outside the allow-list
    (BitOr is no allowed operator), and with no math library does it raise
    SafeEvalError: the division of its left operand raises first. *)
Lemma disallowed_operator_counterexample :
  ~ exists M : Libm,
      outside_allow_list
        (ast.BinOp
           (ast.BinOp (ast.Constant (ast.CInt 1)) ast.Div (ast.Constant (ast.CInt 0)))
           ast.BitOr (ast.Constant (ast.CInt 2))) = true ->
      exists msg self',
        visit _make_names
          (ast.BinOp
             (ast.BinOp (ast.Constant (ast.CInt 1)) ast.Div (ast.Constant (ast.CInt 0)))
             ast.BitOr (ast.Constant (ast.CInt 2)))
          Calculator__init__
        = (Raise (SafeEvalError msg), self').
Proof.
  intros [M H].
  destruct (H eq_refl) as (msg & self' & E).
  vm_compute in E. discriminate E.
Qed.



(** C3 at [1 / 0], and at a complex number over zero. *)
Lemma division_by_zero_raises_witness :
  divides ast.Div = true
  /\ divides ast.FloorDiv = true
  /\ is_zero_number (VInt 0) = true
  /\ real_dividend (VInt 1) (VInt 0) = true
  /\ (forall M : Libm,
        fst (visit _make_names (ast.Constant (ast.CInt 1)) Calculator__init__) = Ok (VInt 1)
        /\ fst (visit _make_names (ast.Constant (ast.CInt 0)) Calculator__init__) = Ok (VInt 0)
        /\ fst (visit _make_names (ast.Num (VComplex 1 1)) Calculator__init__)
           = Ok (VComplex 1 1)
        /\ visit _make_names
             (ast.BinOp (ast.Constant (ast.CInt 1)) ast.Div (ast.Constant (ast.CInt 0)))
             Calculator__init__
           = (Raise ZeroDivisionError, Calculator__init__)
        /\ visit _make_names
             (ast.BinOp (ast.Num (VComplex 1 1)) ast.Div (ast.Constant (ast.CInt 0)))
             Calculator__init__
           = (Raise ZeroDivisionError, Calculator__init__)
        /\ visit _make_names
             (ast.BinOp (ast.Num (VComplex 1 1)) ast.FloorDiv (ast.Constant (ast.CInt 0)))
             Calculator__init__
           = (Raise TypeError, Calculator__init__)
        /\ fst (_eval_expression (P := py_parser) "1/0" Calculator__init__)
           = Raise ZeroDivisionError
        /\ fst (_eval_expression (P := py_parser) "7 // 0.0" Calculator__init__)
           = Raise ZeroDivisionError
        /\ fst (_eval_expression (P := py_parser) "7.5 % 0" Calculator__init__)
           = Raise ZeroDivisionError
        /\ fst (_eval_expression (P := py_parser) "[1] / 0" Calculator__init__)
           = Raise TypeError).
Proof.
  do 4 (split; [reflexivity|]).
  intros M. do 3 (split; [reflexivity|]).
  split; [|split; [|split]].
  - exact (proj2 (division_by_zero_raises M _make_names
                    (ast.Constant (ast.CInt 1)) (ast.Constant (ast.CInt 0)) ast.Div
                    (VInt 1) (VInt 0) Calculator__init__
                    eq_refl eq_refl eq_refl eq_refl) eq_refl).
  - exact (proj1 (division_by_zero_raises M _make_names
                    (ast.Num (VComplex 1 1)) (ast.Constant (ast.CInt 0)) ast.Div
                    (VComplex 1 1) (VInt 0) Calculator__init__
                    eq_refl eq_refl eq_refl eq_refl)).
  - exact (proj1 (division_by_zero_raises M _make_names
                    (ast.Num (VComplex 1 1)) (ast.Constant (ast.CInt 0)) ast.FloorDiv
                    (VComplex 1 1) (VInt 0) Calculator__init__
                    eq_refl eq_refl eq_refl eq_refl)).
  - repeat split; vm_compute; reflexivity.
Defined.

(** C3 as stated fails at "10**400 / 0.0": the right operand is zero, and
    with no math library is the outcome ZeroDivisionError: the left operand
    is first converted to a float, which raises OverflowError. *)
Lemma division_by_zero_counterexample :
  is_zero_number (VFloat 0) = true
  /\ (~ exists (M : Libm) (self' : Calculator),
          _eval_expression (P := py_parser) "10**400 / 0.0" Calculator__init__
          = (Raise ZeroDivisionError, self'))
  /\ (forall M : Libm,
        fst (_eval_expression (P := py_parser) "10**400 / 0.0" Calculator__init__)
        = Raise OverflowError).
Proof.
  split; [reflexivity|]. split.
  - intros (M & self' & E). vm_compute in E. discriminate E.
  - intros M. vm_compute. reflexivity.
Qed.

(** C4 at [sqrt(-8)], [sqrt(-10**400)] and [(-8) ** 0.5]. *)
Lemma undefined_results_witness :
  _make_names !! "sqrt" = Some (VCallable MathSqrt)
  /\ PyFloat_AsDouble (VInt (-8)) = Ok (-8)%float
  /\ ((-8) <? 0)%float = true
  /\ PyFloat_AsDouble (VInt (- 10 ^ 400)) = Raise OverflowError
  /\ is_finite (-8)%float = true
  /\ is_finite 0.5%float = true
  /\ (0.5 =? pyfloat.c_floor 0.5)%float = false
  /\ (forall M : Libm,
        fst (visit _make_names (ast.UnaryOp ast.USub (ast.Constant (ast.CInt 8)))
               Calculator__init__)
        = Ok (VInt (-8))
        /\ fst (visit _make_names
                  (ast.UnaryOp ast.USub
                     (ast.BinOp (ast.Constant (ast.CInt 10)) ast.Pow
                        (ast.Constant (ast.CInt 400))))
                  Calculator__init__)
           = Ok (VInt (- 10 ^ 400))
        /\ visit _make_names
             (ast.Call (ast.Name "sqrt")
                [ast.UnaryOp ast.USub (ast.Constant (ast.CInt 8))] [])
             Calculator__init__
           = (Raise ValueError, Calculator__init__)
        /\ visit _make_names
             (ast.Call (ast.Name "sqrt")
                [ast.UnaryOp ast.USub
                   (ast.BinOp (ast.Constant (ast.CInt 10)) ast.Pow
                      (ast.Constant (ast.CInt 400)))] [])
             Calculator__init__
           = (Raise OverflowError, Calculator__init__)
        /\ visit _make_names
             (ast.BinOp (ast.UnaryOp ast.USub (ast.Constant (ast.CInt 8))) ast.Pow
                (ast.Constant (ast.CFloat 0.5)))
             Calculator__init__
           = (complex_pow ((-8)%float, 0%float) (0.5%float, 0%float),
              Calculator__init__)
        /\ fst (_eval_expression (P := py_parser) "sqrt(-1)" Calculator__init__)
           = Raise ValueError
        /\ fst (_eval_expression (P := py_parser) "sqrt(-1e400)" Calculator__init__)
           = Raise ValueError
        /\ fst (_eval_expression (P := py_parser) "sqrt(-10**400)" Calculator__init__)
           = Raise OverflowError).
Proof.
  do 7 (split; [vm_compute; reflexivity|]).
  intros M.
  assert (fst (visit _make_names (ast.UnaryOp ast.USub (ast.Constant (ast.CInt 8)))
                 Calculator__init__)
          = Ok (VInt (-8))) as Harg by reflexivity.
  assert (fst (visit _make_names
                 (ast.UnaryOp ast.USub
                    (ast.BinOp (ast.Constant (ast.CInt 10)) ast.Pow
                       (ast.Constant (ast.CInt 400))))
                 Calculator__init__)
          = Ok (VInt (- 10 ^ 400))) as Hbig by (vm_compute; reflexivity).
  pose proof (undefined_results M _make_names
                (ast.UnaryOp ast.USub (ast.Constant (ast.CInt 8)))
                (ast.Constant (ast.CFloat 0.5))
                (VInt (-8)) Calculator__init__
                ltac:(vm_compute; reflexivity) Harg) as (Hsqrt & _ & Hpow).
  pose proof (undefined_results M _make_names
                (ast.UnaryOp ast.USub
                   (ast.BinOp (ast.Constant (ast.CInt 10)) ast.Pow
                      (ast.Constant (ast.CInt 400))))
                (ast.Constant (ast.CFloat 0.5))
                (VInt (- 10 ^ 400)) Calculator__init__
                ltac:(vm_compute; reflexivity) Hbig) as (_ & Hover & _).
  split; [exact Harg|]. split; [exact Hbig|].
  split; [apply (Hsqrt (-8)%float); vm_compute; reflexivity|].
  split; [apply (Hover OverflowError); vm_compute; reflexivity|].
  split.
  - apply (Hpow (-8)%float 0.5%float); vm_compute; reflexivity.
  - repeat split; vm_compute; reflexivity.
Defined.

(** C4 as stated fails at "(-8) ** 0.5": with no math library does the
    power of a negative base to a fractional exponent raise ValueError, which
    "sqrt(-1)" does raise. *)
Lemma negative_power_counterexample :
  (~ exists (M : Libm) (self' : Calculator),
       _eval_expression (P := py_parser) "(-8) ** 0.5" Calculator__init__
       = (Raise ValueError, self'))
  /\ (forall M : Libm,
        fst (_eval_expression (P := py_parser) "sqrt(-1)" Calculator__init__)
        = Raise ValueError).
Proof.
  split.
  - intros (M & self' & E).
    vm_compute in E.
    destruct (PrimFloat.eqb _ _); [discriminate E|].
    destruct (PrimFloat.eqb _ _); discriminate E.
  - intros M. vm_compute. reflexivity.
Qed.

(** C5 at [sin(1, 2)], with the counts [log] takes. *)
Lemma arity_violation_raises_TypeError_witness :
  _make_names !! "sin" = Some (VCallable LambdaSin)
  /\ accepts LambdaSin 2 = false
  /\ accepts MathLog 2 = true
  /\ (forall M : Libm,
        comprehension (visit _make_names)
          [ast.Constant (ast.CInt 1); ast.Constant (ast.CInt 2)] Calculator__init__
        = (Ok [VInt 1; VInt 2], Calculator__init__)
        /\ visit _make_names
             (ast.Call (ast.Name "sin")
                [ast.Constant (ast.CInt 1); ast.Constant (ast.CInt 2)] [])
             Calculator__init__
           = (Raise TypeError, Calculator__init__)
        /\ (exists args : list value,
              length args = 2%nat
              /\ forall self, exists v, fst (call MathLog args self) = Ok v)
        /\ fst (_eval_expression (P := py_parser) "round(15, -1)" Calculator__init__)
           = Ok (VInt 20)
        /\ fst (_eval_expression (P := py_parser) "log(8, 0)" Calculator__init__)
           = Raise ValueError).
Proof.
  split; [vm_compute; reflexivity|]. split; [reflexivity|]. split; [reflexivity|].
  intros M. split; [reflexivity|].
  split; [|split; [|split; vm_compute; reflexivity]].
  - apply (proj1 (arity_violation_raises_TypeError M) _make_names "sin" LambdaSin
             [ast.Constant (ast.CInt 1); ast.Constant (ast.CInt 2)] []
             [VInt 1; VInt 2] Calculator__init__ Calculator__init__).
    + vm_compute. reflexivity.
    + reflexivity.
    + reflexivity.
  - apply (proj1 (proj1 (proj2 (arity_violation_raises_TypeError M)) MathLog 2%nat)).
    reflexivity.
Defined.

(** C5 as stated fails at "sum([1,2], 10)": the specification declares one
    argument for [sum], the call has two, and with no math library does it
    raise anything: it returns 13. *)
Lemma declared_arity_counterexample :
  declared_arity "sum" = Some (1, 1)%nat
  /\ (~ exists (M : Libm) (e : exn) (self' : Calculator),
          _eval_expression (P := py_parser) "sum([1,2], 10)" Calculator__init__
          = (Raise e, self'))
  /\ (forall M : Libm,
        fst (_eval_expression (P := py_parser) "sum([1,2], 10)" Calculator__init__)
        = Ok (VInt 13)).
Proof.
  split; [reflexivity|]. split.
  - intros (M & e & self' & E). vm_compute in E. discriminate E.
  - intros M. vm_compute. reflexivity.
Qed.

(** C7 at [foo], [foo(1)], [pi(1)] and [sin]. *)
Lemma name_resolution_errors_witness :
  _make_names !! "foo" = None
  /\ _make_names !! "pi" = Some (VFloat math.pi)
  /\ _make_names !! "sin" = Some (VCallable LambdaSin)
  /\ (forall M : Libm,
        visit _make_names (ast.Name "foo") Calculator__init__
          = (Raise (SafeEvalError "Name not allowed: foo"), Calculator__init__)
        /\ visit _make_names
             (ast.Call (ast.Name "foo") [ast.Constant (ast.CInt 1)] [])
             Calculator__init__
           = (Raise (SafeEvalError "Function not allowed: foo"), Calculator__init__)
        /\ visit _make_names
             (ast.Call (ast.Name "pi") [ast.Constant (ast.CInt 1)] [])
             Calculator__init__
           = (Raise (SafeEvalError "Function not allowed: pi"), Calculator__init__)
        /\ visit _make_names (ast.Name "sin") Calculator__init__
           = (Raise (SafeEvalError "Name 'sin' is not a numeric constant"),
              Calculator__init__)).
Proof.
  do 3 (split; [vm_compute; reflexivity|]).
  intros M.
  split; [|split; [|split]].
  - apply (proj1 (proj1 (name_resolution_errors M _make_names "foo" [] []
                           Calculator__init__) ltac:(vm_compute; reflexivity))).
  - apply (proj2 (proj1 (name_resolution_errors M _make_names "foo"
                           [ast.Constant (ast.CInt 1)] [] Calculator__init__)
                    ltac:(vm_compute; reflexivity))).
  - apply (proj1 (proj2 (name_resolution_errors M _make_names "pi"
                           [ast.Constant (ast.CInt 1)] [] Calculator__init__))
             (VFloat math.pi)); [vm_compute; reflexivity | reflexivity].
  - apply (proj2 (proj2 (name_resolution_errors M _make_names "sin" [] []
                           Calculator__init__))
             (VCallable LambdaSin)); [vm_compute; reflexivity | reflexivity].
Defined.

(** C7 as stated fails at [pi(1)]: calling the constant [pi] raises
    "Function not allowed", as calling the unknown [foo] does, and with no
    math library is it distinct from what calling the same name raises once
    it is absent from the registry. *)
Lemma not_callable_counterexample :
  (~ exists M : Libm,
       visit _make_names
         (ast.Call (ast.Name "pi") [ast.Constant (ast.CInt 1)] []) Calculator__init__
       <> visit (delete "pi" _make_names)
            (ast.Call (ast.Name "pi") [ast.Constant (ast.CInt 1)] []) Calculator__init__)
  /\ (forall M : Libm,
        fst (_eval_expression (P := py_parser) "pi(1)" Calculator__init__)
          = Raise (SafeEvalError "Function not allowed: pi")
        /\ fst (_eval_expression (P := py_parser) "foo(1)" Calculator__init__)
          = Raise (SafeEvalError "Function not allowed: foo")).
Proof.
  split.
  - intros [M H]. apply H. vm_compute. reflexivity.
  - intros M. split; vm_compute; reflexivity.
Qed.

(** C8 at the tree of "[1,2,3]". *)
Lemma top_level_list_is_returned_witness :
  (forall M : Libm,
     comprehension (visit _make_names)
       [ast.Constant (ast.CInt 1); ast.Constant (ast.CInt 2); ast.Constant (ast.CInt 3)]
       Calculator__init__
     = (Ok [VInt 1; VInt 2; VInt 3], Calculator__init__))
  /\ (forall M : Libm,
        visit _make_names
          (ast.Expression
             (ast.List [ast.Constant (ast.CInt 1); ast.Constant (ast.CInt 2);
                        ast.Constant (ast.CInt 3)]))
          Calculator__init__
        = (Ok (VList [VInt 1; VInt 2; VInt 3]), Calculator__init__)).
Proof.
  split; intros M.
  - reflexivity.
  - exact (top_level_list_is_returned M _make_names
             [ast.Constant (ast.CInt 1); ast.Constant (ast.CInt 2);
              ast.Constant (ast.CInt 3)]
             [VInt 1; VInt 2; VInt 3] Calculator__init__ Calculator__init__
             eq_refl).
Defined.

(** C8 as stated fails at "[1,2,3]": with no math library does the
    evaluation raise TypeError, or anything else: it returns the list. *)
Lemma top_level_list_counterexample :
  (~ exists (M : Libm) (e : exn) (self' : Calculator),
       _eval_expression (P := py_parser) "[1,2,3]" Calculator__init__
       = (Raise e, self'))
  /\ (forall M : Libm,
        fst (_eval_expression (P := py_parser) "[1,2,3]" Calculator__init__)
        = Ok (VList [VInt 1; VInt 2; VInt 3])).
Proof.
  split.
  - intros (M & e & self' & E). vm_compute in E. discriminate E.
  - intros M. vm_compute. reflexivity.
Qed.

(** C6 on the code: the scanner does not look for an opening parenthesis
    after [mem], so "mem()" becomes "mem()()".  With 7.5 stored, evaluating
    "mem()" raises SafeEvalError where 7.5 is promised, while "mem + 1" is
    8.5. *)
Theorem mem_call_is_rewritten_again :
  forall (M : Libm),
    _replace_bare_mem "mem()" = "mem()()"
    /\ _replace_bare_mem "mem + 1" = "mem() + 1"
    /\ (let self := snd (store_memory (VFloat 7.5) Calculator__init__) in
        memory self = 7.5%float
        /\ _eval_expression (P := py_parser) "mem()" self
           = (Raise (SafeEvalError
                       "Only direct function calls allowed (no attributes)."),
              self)
        /\ _eval_expression (P := py_parser) "mem + 1" self
           = (Ok (VFloat 8.5), self)).
Proof.
  intros M.
  split; [vm_compute; reflexivity|].
  split; [vm_compute; reflexivity|].
  cbv zeta.
  split; [reflexivity|].
  split; vm_compute; reflexivity.
Qed.

(** * Further properties of the code *)

(** ** The text before it is parsed *)

Lemma replace_append (old : ascii) (new a b : string) :
  replace old new (a +:+ b) = replace old new a +:+ replace old new b.
Proof.
  induction a as [|c a IH]; [reflexivity|].
  rewrite append_cons. simpl. rewrite IH.
  destruct (Ascii.eqb c old); [rewrite append_assoc|]; reflexivity.
Qed.

Lemma replace_removes (old : ascii) (new s : string) :
  occurs old new = false -> occurs old (replace old new s) = false.
Proof.
  intros Hnew. induction s as [|c s IH]; [reflexivity|].
  simpl. destruct (Ascii.eqb c old) eqn:E.
  - rewrite occurs_append, Hnew, IH. reflexivity.
  - simpl. rewrite E, IH. reflexivity.
Qed.

(** X1: the first line of [_eval_expression]: no caret is left in the text that
    goes on to the parser, so the parser never sees Python's xor; and a
    caret anywhere in a text stands for the power operator, whatever the text
    around it, the parser and the calculator are. *)
Theorem caret_is_power :
  forall (M : Libm) (P : Parser) (expression a b : string) (self : Calculator),
    occurs "^" (replace "^" "**" expression) = false
    /\ _eval_expression (a +:+ "^" +:+ b) self
       = _eval_expression (a +:+ "**" +:+ b) self.
Proof.
  intros M P expression a b self. split.
  - apply replace_removes. reflexivity.
  - assert (replace "^" "**" (a +:+ "^" +:+ b)
            = replace "^" "**" (a +:+ "**" +:+ b)) as E.
    { rewrite !replace_append. reflexivity. }
    unfold _eval_expression. rewrite E. reflexivity.
Qed.

(** X2: the scanner of [_replace_bare_mem] hands on a text without the letter m
    as it is: the texts of plain arithmetic reach the parser with nothing but
    their carets rewritten. *)
Theorem scanner_leaves_text_without_m :
  forall expr : string,
    occurs "m" expr = false -> _replace_bare_mem expr = expr.
Proof.
  intros expr H. apply replace_bare_mem_without_m. exact H.
Qed.

Lemma scanner_leaves_text_without_m_witness :
  occurs "m" "3 * (4 + 5)" = false
  /\ _replace_bare_mem "3 * (4 + 5)" = "3 * (4 + 5)".
Proof.
  split; [reflexivity|].
  apply (scanner_leaves_text_without_m "3 * (4 + 5)"). reflexivity.
Defined.

Lemma length_append (a b : string) :
  String.length (a +:+ b) = (String.length a + String.length b)%nat.
Proof.
  induction a as [|c a IH]; [reflexivity | rewrite append_cons; simpl; now rewrite IH].
Qed.

Lemma get_append_right (a b : string) (k : nat) :
  get (String.length a + k) (a +:+ b) = get k b.
Proof. induction a as [|c a IH]; [reflexivity | exact IH]. Qed.

Lemma substring_append_right (a b : string) (n : nat) :
  substring (String.length a) n (a +:+ b) = substring 0 n b.
Proof. induction a as [|c a IH]; [reflexivity | exact IH]. Qed.

Lemma last_alnum_snoc (a : string) (c : ascii) :
  last_alnum (a +:+ String c "") = isalnum c.
Proof.
  induction a as [|x a IH]; [reflexivity|].
  rewrite append_cons. simpl. rewrite IH.
  destruct (a +:+ String c "") eqn:E; [|reflexivity].
  destruct a; discriminate E.
Qed.

Lemma last_alnum_append (a b : string) :
  b <> "" -> last_alnum (a +:+ b) = last_alnum b.
Proof.
  intros Hb. induction a as [|x a IH]; [reflexivity|].
  rewrite append_cons. simpl. rewrite IH.
  destruct (a +:+ b) eqn:E; [|reflexivity].
  destruct a; [simpl in E; contradiction | discriminate E].
Qed.

(** [prev_ok] of the loop, at the end of what has been read. *)
Lemma prev_ok_last_alnum (a b : string) :
  ((String.length a =? 0)%nat
   || negb (isalnum_at (a +:+ b) (String.length a - 1)))
  = negb (last_alnum a).
Proof.
  induction a as [|c a IH]; [reflexivity|].
  destruct a as [|d a]; [reflexivity|].
  change (last_alnum (String c (String d a))) with (last_alnum (String d a)).
  rewrite <- IH. simpl. rewrite Nat.sub_0_r. reflexivity.
Qed.

(** The loop's test for the word, on what is left to read. *)
Lemma word_test (a : string) (c : ascii) (rest : string) :
  startswith "mem" (String.length a) (a +:+ String c rest)
  && ((String.length a + 3 =? String.length (a +:+ String c rest))%nat
      || negb (isalnum_at (a +:+ String c rest) (String.length a + 3)))
  = match rest with
    | String c2 (String c3 after) =>
        Ascii.eqb c "m" && Ascii.eqb c2 "e" && Ascii.eqb c3 "m" && next_ok after
    | _ => false
    end.
Proof.
  unfold startswith, isalnum_at.
  rewrite substring_append_right, get_append_right, length_append.
  destruct rest as [|c2 [|c3 after]]; simpl.
  - destruct (Ascii.eqb c "m"); reflexivity.
  - destruct (Ascii.eqb c "m"), (Ascii.eqb c2 "e"); reflexivity.
  - replace (String.length a + 3 =? String.length a + S (S (S (String.length after))))%nat
      with (String.length after =? 0)%nat
      by (destruct (Nat.eqb_spec (String.length after) 0);
          symmetry; [apply Nat.eqb_eq | apply Nat.eqb_neq]; lia).
    destruct (Ascii.eqb c "m"), (Ascii.eqb c2 "e"), (Ascii.eqb c3 "m");
      try reflexivity.
    destruct after as [|d after]; reflexivity.
Qed.

(** The loop with its index and its list of tokens computes [scan]: with
    [a] read and [b] left, it appends the scan of [b]. *)
Lemma loop_is_scan (rounds : nat) :
  forall (a b : string) (tokens : list string),
    (String.length b <= rounds)%nat ->
    String.concat "" (_replace_bare_mem_loop rounds (a +:+ b) (String.length a) tokens)
    = String.concat "" tokens +:+ scan (last_alnum a) b.
Proof.
  induction rounds as [|rounds IH]; intros a b tokens Hrounds.
  - destruct b; [|simpl in Hrounds; lia]. simpl. symmetry. apply append_empty_r.
  - destruct b as [|c rest].
    + simpl. rewrite get_beyond_length;
        [symmetry; apply append_empty_r | rewrite append_empty_r; lia].
    + cbn [_replace_bare_mem_loop].
      rewrite <- (Nat.add_0_r (String.length a)) at 1.
      rewrite get_append_right. cbn [get].
      rewrite word_test, prev_ok_last_alnum.
      assert (forall tokens',
                String.concat ""
                  (_replace_bare_mem_loop rounds (a +:+ String c rest)
                     (String.length a + 1) tokens')
                = String.concat "" tokens' +:+ scan (isalnum c) rest) as Hnext.
      { intros tokens'.
        replace (a +:+ String c rest) with ((a +:+ String c "") +:+ rest)
          by (rewrite append_assoc; reflexivity).
        replace (String.length a + 1)%nat with (String.length (a +:+ String c ""))
          by (rewrite length_append; reflexivity).
        rewrite IH by (simpl in Hrounds; lia).
        rewrite last_alnum_snoc. reflexivity. }
      destruct rest as [|c2 [|c3 after]].
      * rewrite Hnext, concat_empty_app, append_assoc. reflexivity.
      * rewrite Hnext, concat_empty_app, append_assoc. reflexivity.
      * cbn [scan].
        destruct (Ascii.eqb c "m" && Ascii.eqb c2 "e" && Ascii.eqb c3 "m"
                  && next_ok after) eqn:Hword;
          [|rewrite Hnext, concat_empty_app, append_assoc; reflexivity].
        destruct (last_alnum a); cbn [negb andb];
          [rewrite Hnext, concat_empty_app, append_assoc; reflexivity|].
        apply andb_prop in Hword as [Hword _].
        apply andb_prop in Hword as [Hword H3].
        apply andb_prop in Hword as [H1 H2].
        apply Ascii.eqb_eq in H1, H2, H3. subst c c2 c3.
        change (String "m" (String "e" (String "m" after))) with ("mem" +:+ after).
        rewrite <- (append_assoc a "mem" after).
        replace (String.length a + 3)%nat with (String.length (a +:+ "mem"))
          by (rewrite length_append; reflexivity).
        rewrite IH by (simpl in Hrounds; lia).
        rewrite last_alnum_append by discriminate.
        rewrite concat_empty_app, append_assoc. reflexivity.
Qed.

Lemma replace_bare_mem_is_scan (expr : string) :
  _replace_bare_mem expr = scan false expr.
Proof.
  unfold _replace_bare_mem.
  exact (loop_is_scan (String.length expr) "" expr [] (le_n _)).
Qed.

Lemma scan_cons_other (p : bool) (c : ascii) (rest : string) :
  Ascii.eqb c "m" = false ->
  scan p (String c rest) = String c (scan (isalnum c) rest).
Proof.
  intros Hc. cbn [scan]. rewrite Hc. destruct rest as [|c2 [|c3 after]]; reflexivity.
Qed.

Lemma scan_after_alnum (c : ascii) (rest : string) :
  scan true (String c rest) = String c (scan (isalnum c) rest).
Proof.
  cbn [scan]. destruct rest as [|c2 [|c3 after]]; try reflexivity.
  rewrite andb_false_r. reflexivity.
Qed.

Lemma scan_without_m (p : bool) (s : string) :
  occurs "m" s = false -> scan p s = s.
Proof.
  revert p. induction s as [|c s IH]; intros p H; [reflexivity|].
  simpl in H. apply orb_false_elim in H as [Hc Hs].
  rewrite (scan_cons_other p c s Hc), (IH _ Hs). reflexivity.
Qed.

Lemma scan_append_without_m (a : string) :
  forall (p : bool) (s : string),
    occurs "m" a = false ->
    scan p (a +:+ s)
    = a +:+ scan (match a with "" => p | _ => last_alnum a end) s.
Proof.
  induction a as [|c a IH]; intros p s H; [reflexivity|].
  simpl in H. apply orb_false_elim in H as [Hc Ha].
  rewrite !append_cons, (scan_cons_other p c _ Hc), (IH _ _ Ha).
  destruct a; reflexivity.
Qed.

Lemma not_alnum_not_letter (c : ascii) :
  isalnum c = false -> Ascii.eqb c "m" = false /\ Ascii.eqb c "e" = false.
Proof.
  intros H. split.
  - destruct (Ascii.eqb_spec c "m") as [->|]; [discriminate H | reflexivity].
  - destruct (Ascii.eqb_spec c "e") as [->|]; [discriminate H | reflexivity].
Qed.

Lemma scan_append (n : nat) :
  forall (a : string) (p : bool) (b : string),
    (String.length a <= n)%nat ->
    word_boundary a b ->
    scan p (a +:+ b)
    = scan p a +:+ scan (match a with "" => p | _ => last_alnum a end) b.
Proof.
  induction n as [|n IH]; intros a p b Hn Hcut.
  - destruct a; [reflexivity | simpl in Hn; lia].
  - destruct a as [|c rest]; [reflexivity|].
    assert (String c (scan (isalnum c) (rest +:+ b))
            = String c (scan (isalnum c) rest)
              +:+ scan (last_alnum (String c rest)) b) as Hstep.
    { rewrite append_cons. f_equal.
      destruct rest as [|c2 rest]; [reflexivity|].
      rewrite (IH (String c2 rest) (isalnum c) b);
        [reflexivity | simpl in *; lia | exact Hcut]. }
    destruct (Ascii.eqb c "m") eqn:Hc.
    2:{ rewrite append_cons, !(scan_cons_other p c _ Hc). exact Hstep. }
    apply Ascii.eqb_eq in Hc. subst c.
    destruct rest as [|c2 [|c3 after]].
    + (* the text read ends with this m *)
      destruct Hcut as [Hb|Ha]; [|discriminate Ha].
      destruct b as [|d b]; [reflexivity|].
      simpl in Hb. apply negb_true_iff, not_alnum_not_letter in Hb as [_ Hd].
      change (scan p ("m" +:+ String d b)) with
        (match b with
         | String c3 after =>
             if Ascii.eqb "m" "m" && Ascii.eqb d "e" && Ascii.eqb c3 "m"
                && next_ok after && negb p
             then "mem()" +:+ scan true after
             else String "m" (scan (isalnum "m") (String d b))
         | _ => String "m" (scan (isalnum "m") (String d b))
         end).
      rewrite Hd. destruct b; reflexivity.
    + (* one character after it *)
      change (scan p (String "m" (String c2 "") +:+ b)) with
        (match b with
         | String c3 after =>
             if Ascii.eqb "m" "m" && Ascii.eqb c2 "e" && Ascii.eqb c3 "m"
                && next_ok after && negb p
             then "mem()" +:+ scan true after
             else String "m" (scan (isalnum "m") (String c2 "" +:+ b))
         | _ => String "m" (scan (isalnum "m") (String c2 "" +:+ b))
         end).
      change (scan p (String "m" (String c2 "")))
        with (String "m" (scan (isalnum "m") (String c2 ""))).
      destruct b as [|d b]; [exact Hstep|].
      assert (Ascii.eqb c2 "e" && Ascii.eqb d "m" = false) as Hno.
      { destruct Hcut as [Hb|Ha].
        - simpl in Hb. apply negb_true_iff, not_alnum_not_letter in Hb as [Hd _].
          rewrite Hd. apply andb_false_r.
        - simpl in Ha. apply not_alnum_not_letter in Ha as [_ He].
          rewrite He. reflexivity. }
      rewrite Ascii.eqb_refl. cbn [andb].
      rewrite Hno. cbn [andb]. exact Hstep.
    + (* two or more *)
      rewrite !append_cons. cbn [scan].
      assert (Ascii.eqb c3 "m" && next_ok (after +:+ b)
              = Ascii.eqb c3 "m" && next_ok after) as Hnext.
      { destruct after as [|d after]; [|reflexivity].
        destruct Hcut as [Hb|Ha].
        - change ("" +:+ b) with b. rewrite Hb. reflexivity.
        - simpl in Ha. apply not_alnum_not_letter in Ha as [Hm _].
          rewrite Hm. reflexivity. }
      rewrite <- !andb_assoc, (andb_assoc (Ascii.eqb c3 "m") (next_ok (after +:+ b))),
        Hnext, <- !andb_assoc.
      destruct (Ascii.eqb "m" "m" && (Ascii.eqb c2 "e" && (Ascii.eqb c3 "m"
                && (next_ok after && negb p)))) eqn:Hword.
      * assert (c3 = "m"%char) as ->.
        { apply andb_prop in Hword as [_ Hword].
          apply andb_prop in Hword as [_ Hword].
          apply andb_prop in Hword as [Hword _].
          apply Ascii.eqb_eq, Hword. }
        rewrite (IH after true b).
        -- rewrite <- append_assoc.
           destruct after; reflexivity.
        -- simpl in Hn. lia.
        -- destruct Hcut as [Hb|Ha]; [left; exact Hb|].
           destruct after as [|d after]; [|right; exact Ha].
           discriminate Ha.
      * exact Hstep.
Qed.

Lemma scan_at_boundary (a b : string) (p : bool) :
  word_boundary a b ->
  scan (match a with "" => p | _ => last_alnum a end) b
  = scan (match a with "" => p | _ => false end) b.
Proof.
  intros [Hb|Ha].
  - destruct a as [|c a]; [reflexivity|].
    destruct b as [|d b]; [reflexivity|].
    simpl in Hb. apply negb_true_iff, not_alnum_not_letter in Hb as [Hd _].
    rewrite !(scan_cons_other _ d b Hd). reflexivity.
  - rewrite Ha. reflexivity.
Qed.

(** X3: the rewrite of the word is local: a text can be cut anywhere but between
    two alphanumeric characters, and the two parts rewritten apart.  A
    parenthesis after [mem] is such a place, which is how "mem()" gets a second
    pair of parentheses. *)
Theorem bare_mem_rewrite_is_local :
  forall (a b : string),
    word_boundary a b ->
    _replace_bare_mem (a +:+ b) = _replace_bare_mem a +:+ _replace_bare_mem b.
Proof.
  intros a b Hcut.
  rewrite !replace_bare_mem_is_scan.
  rewrite (scan_append (String.length a) a false b (le_n _) Hcut).
  rewrite (scan_at_boundary a b false Hcut).
  destruct a; reflexivity.
Qed.

(** Cutting "2*mem" from "+memory" and rewriting both. *)
Lemma bare_mem_rewrite_is_local_witness :
  word_boundary "2*mem" "+memory"
  /\ _replace_bare_mem ("2*mem" +:+ "+memory")
     = _replace_bare_mem "2*mem" +:+ _replace_bare_mem "+memory".
Proof.
  split.
  - left. reflexivity.
  - apply (bare_mem_rewrite_is_local "2*mem" "+memory"). left. reflexivity.
Defined.

(** X4: the word between two texts without the letter m: it is given its
    parentheses when the character before it and the character after it are
    not alphanumeric, and the text is handed on as it is otherwise, so a
    name that only holds the word is not touched. *)
Theorem mem_word_is_rewritten_alone :
  forall (before after : string),
    occurs "m" before = false ->
    occurs "m" after = false ->
    _replace_bare_mem (before +:+ "mem" +:+ after)
    = before
      +:+ (if negb (last_alnum before) && next_ok after then "mem()" else "mem")
      +:+ after.
Proof.
  intros before after Hbefore Hafter.
  rewrite replace_bare_mem_is_scan, (scan_append_without_m before false _ Hbefore).
  f_equal.
  replace (match before with "" => false | _ => last_alnum before end)
    with (last_alnum before) by (destruct before; reflexivity).
  assert (scan true ("em" +:+ after) = "em" +:+ after) as Hrest.
  { change ("em" +:+ after) with (String "e" (String "m" after)).
    rewrite scan_after_alnum. f_equal.
    change (isalnum "e") with true.
    rewrite scan_after_alnum. f_equal.
    apply scan_without_m, Hafter. }
  assert (scan (last_alnum before) ("mem" +:+ after)
          = if next_ok after && negb (last_alnum before)
            then "mem()" +:+ scan true after
            else String "m" (scan true ("em" +:+ after))) as -> by reflexivity.
  rewrite andb_comm.
  destruct (negb (last_alnum before) && next_ok after).
  - rewrite (scan_without_m true after Hafter). reflexivity.
  - rewrite Hrest. reflexivity.
Qed.

(** In "2*mem+1" the word is rewritten, in "remember" it is not. *)
Lemma mem_word_is_rewritten_alone_witness :
  (occurs "m" "2*" = false /\ occurs "m" "+1" = false
   /\ _replace_bare_mem "2*mem+1" = "2*mem()+1")
  /\ (occurs "m" "re" = false /\ occurs "m" "ber" = false
      /\ _replace_bare_mem "remember" = "remember").
Proof.
  split; (split; [reflexivity|]; split; [reflexivity|]).
  - exact (mem_word_is_rewritten_alone "2*" "+1" eq_refl eq_refl).
  - exact (mem_word_is_rewritten_alone "re" "ber" eq_refl eq_refl).
Defined.

(** ** The memory *)

(** X5: what the fourth entry of the menu stores is what "mem" evaluates to
    afterwards and what the fifth entry recalls: the float of the value; and
    after the sixth entry "mem" is 0.0.  The parser has to read "mem()", the
    text the scanner makes of "mem", as the call of that name. *)
Theorem stored_value_is_read_back :
  forall (M : Libm) (P : Parser) (self : Calculator) (v : value) (x : float),
    ast_parse "mem()" = Ok (ast.Expression (ast.Call (ast.Name "mem") [] [])) ->
    _names self !! "mem" = Some (VCallable GetMemoryValue) ->
    PyFloat_AsDouble v = Ok x ->
    let stored := snd (menu_store (Some v) self) in
    fst (_eval_expression "mem" stored) = Ok (VFloat x)
    /\ fst (recall_memory stored) = Ok x
    /\ fst (_eval_expression "mem" (snd (clear_memory stored))) = Ok (VFloat 0%float).
Proof.
  intros M P self v x Hparse Hmem Hx stored.
  assert (forall calc : Calculator,
            _names calc = _names self ->
            fst (_eval_expression "mem" calc) = Ok (VFloat (memory calc))) as Hread.
  { intros calc Hnames. unfold _eval_expression.
    replace (_replace_bare_mem (replace "^" "**" "mem")) with "mem()" by reflexivity.
    rewrite Hparse.
    change (fst (visit_Call (_names calc) (visit (_names calc))
                   (ast.Name "mem") [] [] calc)
            = Ok (VFloat (memory calc))).
    unfold visit_Call. rewrite Hnames, Hmem. reflexivity. }
  assert (stored = {| memory := x; _names := _names self |}) as ->.
  { unfold stored, menu_store, store_memory. rewrite Hx. reflexivity. }
  split; [|split].
  - apply (Hread {| memory := x; _names := _names self |}). reflexivity.
  - reflexivity.
  - apply (Hread {| memory := 0%float; _names := _names self |}). reflexivity.
Qed.

(** Storing the integer 3 in a new calculator. *)
Lemma stored_value_is_read_back_witness :
  ast_parse (Parser := py_parser) "mem()"
    = Ok (ast.Expression (ast.Call (ast.Name "mem") [] []))
  /\ _names Calculator__init__ !! "mem" = Some (VCallable GetMemoryValue)
  /\ PyFloat_AsDouble (VInt 3) = Ok 3%float
  /\ (forall M : Libm,
        fst (_eval_expression (P := py_parser) "mem"
               (snd (menu_store (Some (VInt 3)) Calculator__init__)))
          = Ok (VFloat 3%float)
        /\ fst (recall_memory (snd (menu_store (Some (VInt 3)) Calculator__init__)))
           = Ok 3%float
        /\ fst (_eval_expression (P := py_parser) "mem"
                  (snd (clear_memory
                          (snd (menu_store (Some (VInt 3)) Calculator__init__)))))
           = Ok (VFloat 0%float)).
Proof.
  assert (ast_parse (Parser := py_parser) "mem()"
          = Ok (ast.Expression (ast.Call (ast.Name "mem") [] []))) as Hparse
    by (vm_compute; reflexivity).
  assert (_names Calculator__init__ !! "mem" = Some (VCallable GetMemoryValue))
    as Hmem by (vm_compute; reflexivity).
  assert (PyFloat_AsDouble (VInt 3) = Ok 3%float) as Hx by (vm_compute; reflexivity).
  split; [exact Hparse|]. split; [exact Hmem|]. split; [exact Hx|].
  intros M.
  exact (stored_value_is_read_back M py_parser Calculator__init__ (VInt 3) 3%float
           Hparse Hmem Hx).
Defined.

Section Independence.
Context {M : Libm}.

Lemma comprehension_pair (names : gmap string value) (nodes : list ast.node)
    (self : Calculator) :
  comprehension (visit names) nodes self
  = (fst (comprehension (visit names) nodes self), self).
Proof.
  rewrite <- (comprehension_frame (visit names) nodes) with (self := self) at 3.
  - apply surjective_pairing.
  - apply Forall_forall. intros node _. apply visit_frame.
Qed.

Lemma call_reads_memory_only (func : callable) (args : list value)
    (self1 self2 : Calculator) :
  func <> GetMemoryValue ->
  fst (call func args self1) = fst (call func args self2).
Proof.
  intros Hf. destruct func; try congruence;
    destruct args as [|a [|b [|c rest]]]; reflexivity.
Qed.

Lemma comprehension_independent (names : gmap string value)
    (nodes : list ast.node) (self1 self2 : Calculator) :
  Forall (fun node => reads_memory names node = false ->
                      fst (visit names node self1) = fst (visit names node self2))
    nodes ->
  existsb (reads_memory names) nodes = false ->
  fst (comprehension (visit names) nodes self1)
  = fst (comprehension (visit names) nodes self2).
Proof.
  induction 1 as [|node nodes Hnode _ IH]; intros Hreads; simpl; [reflexivity|].
  simpl in Hreads. apply orb_false_elim in Hreads as [Hn Hns].
  unfold bind.
  rewrite (visit_pair names node self1), (visit_pair names node self2), (Hnode Hn).
  destruct (fst (visit names node self2)) as [v|e]; [|reflexivity].
  rewrite (comprehension_pair names nodes self1),
    (comprehension_pair names nodes self2), (IH Hns).
  destruct (fst (comprehension (visit names) nodes self2)); reflexivity.
Qed.

Lemma visit_independent (names : gmap string value) (node : ast.node)
    (self1 self2 : Calculator) :
  reads_memory names node = false ->
  fst (visit names node self1) = fst (visit names node self2).
Proof.
  induction node as
    [body IH | l op r IHl IHr | op x IH | func args keywords _ IHargs
    | n | c | id | elts IH | cls children] using node_ind_nested;
    simpl; intros Hreads.
  - apply IH, Hreads.
  - apply orb_false_elim in Hreads as [Hl Hr].
    unfold visit_BinOp, bind.
    rewrite (visit_pair names l self1), (visit_pair names l self2), (IHl Hl).
    destruct (fst (visit names l self2)) as [a|e]; [|reflexivity].
    rewrite (visit_pair names r self1), (visit_pair names r self2), (IHr Hr).
    destruct (fst (visit names r self2)) as [b|e]; [|reflexivity].
    destruct (ALLOWED_OPERATORS op); reflexivity.
  - unfold visit_UnaryOp, bind.
    rewrite (visit_pair names x self1), (visit_pair names x self2), (IH Hreads).
    destruct (fst (visit names x self2)) as [a|e]; [|reflexivity].
    destruct (ALLOWED_OPERATORS op); reflexivity.
  - apply orb_false_elim in Hreads as [Hfunc Hargs].
    unfold visit_Call.
    destruct func; try reflexivity.
    destruct (names !! id) as [[| | | | |f]|]; try reflexivity.
    unfold bind.
    rewrite (comprehension_pair names args self1),
      (comprehension_pair names args self2),
      (comprehension_independent names args self1 self2 IHargs Hargs).
    destruct (fst (comprehension (visit names) args self2)) as [vs|e];
      [|reflexivity].
    apply call_reads_memory_only. intros E. subst f. discriminate Hfunc.
  - reflexivity.
  - destruct c; reflexivity.
  - unfold visit_Name. destruct (names !! id) as [[| | | | |]|]; reflexivity.
  - unfold visit_List, bind.
    rewrite (comprehension_pair names elts self1),
      (comprehension_pair names elts self2),
      (comprehension_independent names elts self1 self2 IH Hreads).
    destruct (fst (comprehension (visit names) elts self2)); reflexivity.
  - reflexivity.
Qed.

End Independence.

(** X6: the memory is read by the call of its name and by nothing else: a text
    whose tree calls no name bound to [_get_memory_value] has the same result,
    or the same exception, in two calculators with the same registry,
    whatever their memories hold. *)
Theorem memory_is_read_by_mem_only :
  forall (M : Libm) (P : Parser) (expression : string) (node : ast.node)
         (self1 self2 : Calculator),
    ast_parse (_replace_bare_mem (replace "^" "**" expression)) = Ok node ->
    _names self1 = _names self2 ->
    reads_memory (_names self1) node = false ->
    fst (_eval_expression expression self1) = fst (_eval_expression expression self2).
Proof.
  intros M P expression node self1 self2 Hparse Hnames Hreads.
  unfold _eval_expression. rewrite Hparse, <- Hnames.
  apply visit_independent, Hreads.
Qed.

(** "sqrt(16) + 1" before and after 5 is stored. *)
Lemma memory_is_read_by_mem_only_witness :
  ast_parse (Parser := py_parser)
    (_replace_bare_mem (replace "^" "**" "sqrt(16) + 1"))
    = Ok (ast.Expression
            (ast.BinOp
               (ast.Call (ast.Name "sqrt") [ast.Constant (ast.CInt 16)] [])
               ast.Add (ast.Constant (ast.CInt 1))))
  /\ _names Calculator__init__
     = _names (snd (store_memory (VInt 5) Calculator__init__))
  /\ reads_memory (_names Calculator__init__)
       (ast.Expression
          (ast.BinOp
             (ast.Call (ast.Name "sqrt") [ast.Constant (ast.CInt 16)] [])
             ast.Add (ast.Constant (ast.CInt 1))))
     = false
  /\ (forall M : Libm,
        fst (_eval_expression (P := py_parser) "sqrt(16) + 1" Calculator__init__)
        = fst (_eval_expression (P := py_parser) "sqrt(16) + 1"
                 (snd (store_memory (VInt 5) Calculator__init__)))).
Proof.
  assert (ast_parse (Parser := py_parser)
            (_replace_bare_mem (replace "^" "**" "sqrt(16) + 1"))
          = Ok (ast.Expression
                  (ast.BinOp
                     (ast.Call (ast.Name "sqrt") [ast.Constant (ast.CInt 16)] [])
                     ast.Add (ast.Constant (ast.CInt 1))))) as Hparse
    by (vm_compute; reflexivity).
  assert (_names Calculator__init__
          = _names (snd (store_memory (VInt 5) Calculator__init__))) as Hnames
    by reflexivity.
  assert (reads_memory (_names Calculator__init__)
            (ast.Expression
               (ast.BinOp
                  (ast.Call (ast.Name "sqrt") [ast.Constant (ast.CInt 16)] [])
                  ast.Add (ast.Constant (ast.CInt 1))))
          = false) as Hreads by (vm_compute; reflexivity).
  split; [exact Hparse|]. split; [exact Hnames|]. split; [exact Hreads|].
  intros M.
  exact (memory_is_read_by_mem_only M py_parser "sqrt(16) + 1" _
           Calculator__init__ (snd (store_memory (VInt 5) Calculator__init__))
           Hparse Hnames Hreads).
Defined.

(** ** Exceptions *)

Section Propagation.
Context {M : Libm}.

Lemma comprehension_raises (names : gmap string value) (self : Calculator)
    (before : list ast.node) (node : ast.node) (after : list ast.node) (e : exn) :
  forall vs,
    fst (comprehension (visit names) before self) = Ok vs ->
    fst (visit names node self) = Raise e ->
    fst (comprehension (visit names) (before ++ node :: after) self) = Raise e.
Proof.
  induction before as [|x before IH]; intros vs Hbefore Hnode; simpl.
  - unfold bind. rewrite (visit_pair names node self), Hnode. reflexivity.
  - simpl in Hbefore. unfold bind in *.
    rewrite (visit_pair names x self) in *.
    destruct (fst (visit names x self)) as [v|e']; [|discriminate Hbefore].
    rewrite (comprehension_pair names before self) in Hbefore.
    destruct (fst (comprehension (visit names) before self)) as [vs'|e'] eqn:E;
      [|discriminate Hbefore].
    rewrite (comprehension_pair names (before ++ node :: after) self),
      (IH vs' eq_refl Hnode).
    reflexivity.
Qed.

Lemma reached_raises (names : gmap string value) (self : Calculator)
    (child parent : ast.node) (e : exn) :
  reached names self child parent ->
  fst (visit names child self) = Raise e ->
  fst (visit names parent self) = Raise e.
Proof.
  intros Hreached Hchild.
  destruct Hreached as
    [body | l op r | l op r a Hl | op x
    | id f before arg after keywords vs Hid Hbefore
    | before elt after vs Hbefore]; simpl.
  - exact Hchild.
  - unfold visit_BinOp, bind. rewrite (visit_pair names l self), Hchild. reflexivity.
  - unfold visit_BinOp, bind.
    rewrite (visit_pair names l self), Hl, (visit_pair names r self), Hchild.
    reflexivity.
  - unfold visit_UnaryOp, bind. rewrite (visit_pair names x self), Hchild. reflexivity.
  - unfold visit_Call, bind. rewrite Hid.
    rewrite (comprehension_pair names (before ++ arg :: after) self),
      (comprehension_raises names self before arg after e vs Hbefore Hchild).
    reflexivity.
  - unfold visit_List, bind.
    rewrite (comprehension_pair names (before ++ elt :: after) self),
      (comprehension_raises names self before elt after e vs Hbefore Hchild).
    reflexivity.
Qed.

End Propagation.

(** X7: the visitor catches nothing: an exception raised at a node it reaches,
    however deep, is what visiting the whole tree raises.  So an operand's
    exception comes before the refusal of the operator, and an argument's
    before the call and its count of the arguments. *)
Theorem exceptions_propagate_unchanged :
  forall (M : Libm) (names : gmap string value) (self : Calculator)
         (inner outer : ast.node) (e : exn),
    reached_within names self inner outer ->
    fst (visit names inner self) = Raise e ->
    fst (visit names outer self) = Raise e.
Proof.
  intros M names self inner outer e Hpath.
  induction Hpath as [child parent Hstep | node | a b c _ IHab _ IHbc].
  - apply reached_raises, Hstep.
  - auto.
  - auto.
Qed.

(** [sum(1, 1/0 | 2, 2)] raises the exception of the division: neither the
    operator's SafeEvalError nor the TypeError of [sum] with three arguments. *)
Lemma exceptions_propagate_unchanged_witness :
  (forall M : Libm,
     reached_within _make_names Calculator__init__
       (ast.BinOp (ast.Constant (ast.CInt 1)) ast.Div (ast.Constant (ast.CInt 0)))
       (ast.Call (ast.Name "sum")
          [ast.Constant (ast.CInt 1);
           ast.BinOp
             (ast.BinOp (ast.Constant (ast.CInt 1)) ast.Div (ast.Constant (ast.CInt 0)))
             ast.BitOr (ast.Constant (ast.CInt 2));
           ast.Constant (ast.CInt 2)] []))
  /\ (forall M : Libm,
        fst (visit _make_names
               (ast.BinOp (ast.Constant (ast.CInt 1)) ast.Div (ast.Constant (ast.CInt 0)))
               Calculator__init__)
        = Raise ZeroDivisionError)
  /\ (forall M : Libm,
        fst (visit _make_names
               (ast.Call (ast.Name "sum")
                  [ast.Constant (ast.CInt 1);
                   ast.BinOp
                     (ast.BinOp (ast.Constant (ast.CInt 1)) ast.Div
                        (ast.Constant (ast.CInt 0)))
                     ast.BitOr (ast.Constant (ast.CInt 2));
                   ast.Constant (ast.CInt 2)] [])
               Calculator__init__)
        = Raise ZeroDivisionError).
Proof.
  assert (forall M : Libm,
            reached_within _make_names Calculator__init__
              (ast.BinOp (ast.Constant (ast.CInt 1)) ast.Div (ast.Constant (ast.CInt 0)))
              (ast.Call (ast.Name "sum")
                 [ast.Constant (ast.CInt 1);
                  ast.BinOp
                    (ast.BinOp (ast.Constant (ast.CInt 1)) ast.Div
                       (ast.Constant (ast.CInt 0)))
                    ast.BitOr (ast.Constant (ast.CInt 2));
                  ast.Constant (ast.CInt 2)] [])) as Hpath.
  { intros M. eapply Relation_Operators.rt_trans.
    - apply Relation_Operators.rt_step.
      apply (reached_left _make_names Calculator__init__ _ ast.BitOr
               (ast.Constant (ast.CInt 2))).
    - apply Relation_Operators.rt_step.
      apply (reached_arg _make_names Calculator__init__ "sum" BuiltinSum
               [ast.Constant (ast.CInt 1)] _ [ast.Constant (ast.CInt 2)] []
               [VInt 1]); reflexivity. }
  split; [exact Hpath|]. split; [intros M; reflexivity|].
  intros M.
  exact (exceptions_propagate_unchanged M _make_names Calculator__init__ _ _
           ZeroDivisionError (Hpath M) eq_refl).
Defined.

(** ** What an evaluation hands back *)

Ltac solve_clean := unfold clean; simpl; intros; reflexivity.

Ltac split_ifs :=
  unfold clean;
  repeat match goal with
    | |- clean_if _ (if ?c then _ else _) => destruct c
    | |- clean_if _ (match ?x with _ => _ end) => destruct x
    end.

Lemma clean_if_weaken (P Q : Prop) (r : result value) :
  (Q -> P) -> clean_if P r -> clean_if Q r.
Proof. destruct r; simpl; auto. Qed.

Lemma clean_weaken (Q : Prop) (r : result value) : clean r -> clean_if Q r.
Proof. apply clean_if_weaken. auto. Qed.

Lemma clean_exn (P : Prop) (r : result value) (e : exn) :
  clean_if P r -> r = Raise e -> is_python_exception e = true.
Proof. intros H E. subst r. exact H. Qed.

Lemma clean_bind {A} (P : Prop) (r : result A) (k : A -> result value) :
  (forall e, r = Raise e -> is_python_exception e = true) ->
  (forall a, clean_if P (k a)) -> clean_if P (let+ a := r in k a).
Proof.
  intros Hr Hk. destruct r as [a|e]; simpl; [apply Hk | apply Hr; reflexivity].
Qed.

Lemma clean_then (P : Prop) (r : result value) (k : value -> result value) :
  clean r -> (forall a, clean_if P (k a)) -> clean_if P (let+ a := r in k a).
Proof.
  intros Hr Hk. apply clean_bind; [|exact Hk].
  intros e. apply clean_exn with (P := True). exact Hr.
Qed.

Lemma PyLong_AsDouble_exn (n : Z) (e : exn) :
  pyfloat.PyLong_AsDouble n = Raise e -> is_python_exception e = true.
Proof.
  unfold pyfloat.PyLong_AsDouble. destruct (is_infinity _); intros H; inversion H.
  reflexivity.
Qed.

Lemma to_double_exn (n : number) (e : exn) :
  to_double n = Raise e -> is_python_exception e = true.
Proof.
  destruct n; simpl; try (intros H; inversion H; reflexivity).
  apply PyLong_AsDouble_exn.
Qed.

Lemma to_complex_exn (n : number) (e : exn) :
  to_complex n = Raise e -> is_python_exception e = true.
Proof.
  destruct n as [n| |]; simpl; try (intros H; inversion H; reflexivity).
  destruct (pyfloat.PyLong_AsDouble n) eqn:E; simpl; intros H; inversion H.
  subst. eapply PyLong_AsDouble_exn, E.
Qed.

Lemma PyFloat_AsDouble_exn (v : value) (e : exn) :
  PyFloat_AsDouble v = Raise e -> is_python_exception e = true.
Proof.
  unfold PyFloat_AsDouble. destruct (as_number v).
  - apply to_double_exn.
  - intros H; inversion H; reflexivity.
Qed.

Lemma to_Z_exn (rnd : Z -> Z -> Z) (x : float) (e : exn) :
  pyfloat.to_Z rnd x = Raise e -> is_python_exception e = true.
Proof.
  unfold pyfloat.to_Z. destruct (Prim2SF x); intros H; inversion H; reflexivity.
Qed.

Lemma binary_arith_clean on_int on_float on_complex (a b : value) :
  (forall x y, clean (on_int x y)) ->
  (forall x y, clean (on_float x y)) ->
  (forall x y, clean (on_complex x y)) ->
  clean (binary_arith on_int on_float on_complex a b).
Proof.
  intros Hi Hf Hc. unfold binary_arith.
  destruct (as_number a) as [x|]; [|solve_clean].
  destruct (as_number b) as [y|]; [|destruct x; solve_clean].
  assert (clean (if is_complex x || is_complex y
                 then let+ u := to_complex x in let+ w := to_complex y in on_complex u w
                 else let+ u := to_double x in let+ w := to_double y in on_float u w)) as H.
  { destruct (is_complex x || is_complex y).
    - apply clean_bind; [apply to_complex_exn|]. intros u.
      apply clean_bind; [apply to_complex_exn|]. intros w. apply Hc.
    - apply clean_bind; [apply to_double_exn|]. intros u.
      apply clean_bind; [apply to_double_exn|]. intros w. apply Hf. }
  destruct x; try exact H. destruct y; try exact H. apply Hi.
Qed.

Lemma existsb_concat_replicate (items : list value) (n : nat) :
  existsb holds_callable items = false ->
  existsb holds_callable (concat (replicate n items)) = false.
Proof.
  intros H. induction n as [|n IH]; simpl; [reflexivity|].
  rewrite existsb_app, H, IH. reflexivity.
Qed.

Section Clean.
Context {M : Libm}.

Lemma complex_pow_clean a b : clean (complex_pow a b).
Proof. unfold complex_pow. split_ifs; solve_clean. Qed.

Lemma float_pow_clean a b : clean (float_pow a b).
Proof.
  unfold float_pow, clean.
  repeat match goal with
    | |- clean_if _ (if ?c then _ else _) => destruct c
    end; try solve_clean.
  apply complex_pow_clean.
Qed.

Lemma long_pow_clean a b : clean (long_pow a b).
Proof.
  unfold long_pow, clean. destruct (b <? 0)%Z; [|solve_clean].
  apply clean_bind; [apply PyLong_AsDouble_exn|]; intros x.
  apply clean_bind; [apply PyLong_AsDouble_exn|]; intros y.
  apply float_pow_clean.
Qed.

Lemma PyNumber_Add_clean (a b : value) :
  clean_if (holds_callable a = false /\ holds_callable b = false) (PyNumber_Add a b).
Proof.
  assert (clean (binary_arith long_add (fun x y => Ok (VFloat (x + y))) complex_add a b))
    as H.
  { apply binary_arith_clean; intros; solve_clean. }
  destruct a, b; try (apply clean_weaken; exact H).
  intros [Ha Hb]. change (existsb holds_callable (items ++ items0) = false).
  rewrite existsb_app. change (existsb holds_callable items = false) in Ha.
  change (existsb holds_callable items0 = false) in Hb.
  rewrite Ha, Hb. reflexivity.
Qed.

Lemma PyNumber_Multiply_clean (a b : value) :
  clean_if (holds_callable a = false /\ holds_callable b = false)
    (PyNumber_Multiply a b).
Proof.
  assert (clean (binary_arith long_mul (fun x y => Ok (VFloat (x * y))) complex_mul a b))
    as H.
  { apply binary_arith_clean; intros; solve_clean. }
  destruct a, b; try (apply clean_weaken; exact H);
    unfold PyNumber_Multiply, as_index; try solve_clean;
    intros [Ha Hb]; apply existsb_concat_replicate; assumption.
Qed.

Lemma PyNumber_TrueDivide_clean (a b : value) : clean (PyNumber_TrueDivide a b).
Proof.
  apply binary_arith_clean; intros x y.
  - unfold long_true_divide. split_ifs; solve_clean.
  - unfold float_div. split_ifs; solve_clean.
  - unfold complex_div. split_ifs; solve_clean.
Qed.

Lemma operator_clean (op : ast.op_class) (f : list value -> result value)
    (args : list value) :
  ALLOWED_OPERATORS op = Some f -> clean_if (all_plain args) (f args).
Proof.
  intros Hop.
  destruct op; inversion Hop; subst f; clear Hop;
    unfold operator.add, operator.sub, operator.mul, operator.truediv,
      operator.pow, operator.mod_, operator.floordiv, operator.neg,
      operator.pos, operator.binary, operator.unary;
    destruct args as [|a [|b [|c rest]]]; try solve_clean.
  - eapply clean_if_weaken; [|apply PyNumber_Add_clean].
    unfold all_plain; simpl. intros H.
    destruct (holds_callable a), (holds_callable b); try discriminate H; auto.
  - eapply clean_if_weaken; [|apply binary_arith_clean; intros; solve_clean]. auto.
  - eapply clean_if_weaken; [|apply PyNumber_Multiply_clean].
    unfold all_plain; simpl. intros H.
    destruct (holds_callable a), (holds_callable b); try discriminate H; auto.
  - eapply clean_if_weaken; [|apply PyNumber_TrueDivide_clean]. auto.
  - eapply clean_if_weaken;
      [|apply binary_arith_clean; intros x y;
        [unfold long_mod|unfold float_rem|unfold unsupported]; split_ifs; solve_clean].
    auto.
  - eapply clean_if_weaken;
      [|apply binary_arith_clean; intros x y;
        [apply long_pow_clean|apply float_pow_clean|apply complex_pow_clean]].
    auto.
  - eapply clean_if_weaken;
      [|apply binary_arith_clean; intros x y;
        [unfold long_div|unfold float_floor_div|unfold unsupported];
        split_ifs; solve_clean].
    auto.
  - unfold PyNumber_Positive. split_ifs; solve_clean.
  - unfold PyNumber_Negative. split_ifs; solve_clean.
Qed.

Lemma math_1_clean (func : float -> float) (arg : value) : clean (math.math_1 func arg).
Proof.
  unfold math.math_1. apply clean_bind; [apply PyFloat_AsDouble_exn|].
  intros x. split_ifs; solve_clean.
Qed.

Lemma loghelper_clean (func : float -> float) (arg : value) :
  clean (math.loghelper func arg).
Proof.
  unfold math.loghelper.
  destruct (as_index arg); [|apply math_1_clean].
  split_ifs; solve_clean.
Qed.

Lemma sum_from_clean (items : list value) :
  forall (P : Prop) (r : result value),
    clean_if P r ->
    clean_if (P /\ all_plain items)
      (fold_left (fun acc item => let+ r := acc in PyNumber_Add r item) items r).
Proof.
  induction items as [|x items IH]; intros P r Hr; simpl.
  - eapply clean_if_weaken; [|exact Hr]. tauto.
  - eapply clean_if_weaken; [|apply (IH (P /\ holds_callable x = false))].
    + unfold all_plain; simpl. intros [HP H].
      destruct (holds_callable x); [discriminate H|]. auto.
    + destruct r as [a|e]; simpl; [|exact Hr].
      eapply clean_if_weaken; [|apply PyNumber_Add_clean].
      simpl in Hr. tauto.
Qed.

Lemma to_float_clean (k : float -> float) (arg : value) :
  clean (let+ x := PyFloat_AsDouble arg in Ok (VFloat (k x))).
Proof. apply clean_bind; [apply PyFloat_AsDouble_exn|]. intros x. solve_clean. Qed.

Lemma to_integer_clean (rnd : Z -> Z -> Z) (args : list value) :
  clean (math.to_integer rnd args).
Proof.
  unfold math.to_integer.
  destruct args as [|[] [|b rest]]; try solve_clean.
  apply clean_bind; [apply to_Z_exn|]. intros n. solve_clean.
Qed.

Lemma int_clean (args : list value) : clean (builtins.int args).
Proof.
  unfold builtins.int.
  destruct args as [|[] [|b rest]]; try solve_clean.
  apply clean_bind; [apply to_Z_exn|]. intros n. solve_clean.
Qed.

Lemma factorial_clean (args : list value) : clean (math.factorial args).
Proof. unfold math.factorial. split_ifs; solve_clean. Qed.

Lemma abs_clean (args : list value) : clean (builtins.abs args).
Proof. unfold builtins.abs, builtins.complex_abs. split_ifs; solve_clean. Qed.

Lemma round_clean (args : list value) : clean (builtins.round args).
Proof.
  unfold builtins.round.
  destruct args as [|a [|b [|c rest]]]; try solve_clean.
  - destruct a; try solve_clean.
    apply clean_bind; [apply to_Z_exn|]. intros n. solve_clean.
  - destruct a; split_ifs; solve_clean.
  - destruct a; solve_clean.
Qed.

Lemma log_clean (args : list value) : clean (math.log args).
Proof.
  unfold math.log.
  destruct args as [|a [|b [|c rest]]]; try solve_clean.
  - apply loghelper_clean.
  - apply clean_then; [apply loghelper_clean|]. intros num.
    apply clean_then; [apply loghelper_clean|]. intros den.
    apply PyNumber_TrueDivide_clean.
Qed.

Lemma sum_clean (args : list value) : clean_if (all_plain args) (builtins.sum args).
Proof.
  unfold builtins.sum, builtins.sum_from.
  destruct args as [|a [|b [|c rest]]]; try solve_clean.
  - destruct a; try solve_clean.
    eapply clean_if_weaken; [|apply (sum_from_clean items True); solve_clean].
    unfold all_plain; simpl. rewrite orb_false_r. auto.
  - destruct a; try solve_clean.
    eapply clean_if_weaken;
      [|apply (sum_from_clean items (holds_callable b = false)); simpl; auto].
    unfold all_plain; simpl. rewrite orb_false_r. intros H.
    apply orb_false_elim in H. tauto.
  - destruct a; solve_clean.
Qed.

Ltac lambda_clean :=
  match goal with
  | |- clean_if _ (fst (call _ ?args _)) =>
      destruct args as [|? [|? ?]]; try solve_clean;
      cbn [call lift raise fst]; apply clean_weaken;
      unfold math.radians, math.degrees, math.sin, math.cos, math.tan,
        math.asin, math.acos, math.atan, math.unary;
      apply clean_then;
      [ first [apply to_float_clean | apply math_1_clean | apply int_clean]
      | intros ?;
        first [apply to_float_clean | apply math_1_clean | apply factorial_clean] ]
  end.

Lemma call_clean (func : callable) (args : list value) (self : Calculator) :
  clean_if (all_plain args) (fst (call func args self)).
Proof.
  destruct func; try lambda_clean; cbn [call lift raise fst].
  - apply clean_weaken. unfold math.sqrt, math.unary.
    destruct args as [|a [|b rest]]; try solve_clean. apply math_1_clean.
  - apply clean_weaken, log_clean.
  - apply clean_weaken. unfold math.log10.
    destruct args as [|a [|b rest]]; try solve_clean. apply loghelper_clean.
  - apply clean_weaken, abs_clean.
  - apply clean_weaken, round_clean.
  - apply clean_weaken, to_integer_clean.
  - apply clean_weaken, to_integer_clean.
  - apply sum_clean.
  - destruct args; solve_clean.
Qed.

Lemma python_exception_is_neither (e : exn) :
  is_python_exception e = true ->
  is_syntax_error e = false /\ raised_by_generic_visit e = false.
Proof. destruct e; simpl; intros H; split; congruence. Qed.

Lemma comprehension_outcome (names : gmap string value) (nodes : list ast.node) :
  Forall (fun node => forall self, outcome names node self) nodes ->
  forall self,
    match fst (comprehension (visit names) nodes self) with
    | Ok vs => forallb nums_hold_numbers nodes = true -> all_plain vs
    | Raise e => is_syntax_error e = false /\ raised_by_generic_visit e = false
    end.
Proof.
  induction 1 as [|node nodes Hnode _ IH]; intros self; simpl.
  - reflexivity.
  - unfold bind. rewrite (visit_pair names node self).
    specialize (Hnode self). unfold outcome in Hnode.
    destruct (fst (visit names node self)) as [v|e]; [|exact Hnode].
    specialize (IH self).
    rewrite (comprehension_pair names nodes self).
    destruct (fst (comprehension (visit names) nodes self)) as [vs|e];
      simpl in *; [|exact IH].
    intros Hnums. apply andb_prop in Hnums as [Hn Hns].
    unfold all_plain in *. simpl. rewrite (Hnode Hn), (IH Hns). reflexivity.
Qed.

Lemma visit_outcome (names : gmap string value) (node : ast.node) :
  forall self, outcome names node self.
Proof.
  induction node as
    [body IH | l op r IHl IHr | op x IH | func args keywords _ IHargs
    | n | c | id | elts IH | cls children] using node_ind_nested;
    intros self; unfold outcome; simpl.
  - apply IH.
  - unfold visit_BinOp, bind. rewrite (visit_pair names l self).
    specialize (IHl self). unfold outcome in IHl.
    destruct (fst (visit names l self)) as [a|e]; [|exact IHl].
    rewrite (visit_pair names r self).
    specialize (IHr self). unfold outcome in IHr.
    destruct (fst (visit names r self)) as [b|e]; [|exact IHr].
    destruct (ALLOWED_OPERATORS op) as [f|] eqn:Hop; [|split; reflexivity].
    pose proof (operator_clean op f [a; b] Hop) as Hf.
    unfold lift; simpl. destruct (f [a; b]) as [v|e]; simpl in Hf.
    + intros Hnums. apply andb_prop in Hnums as [Hl Hr]. apply Hf.
      unfold all_plain; simpl. rewrite (IHl Hl), (IHr Hr). reflexivity.
    + apply python_exception_is_neither, Hf.
  - unfold visit_UnaryOp, bind. rewrite (visit_pair names x self).
    specialize (IH self). unfold outcome in IH.
    destruct (fst (visit names x self)) as [a|e]; [|exact IH].
    destruct (ALLOWED_OPERATORS op) as [f|] eqn:Hop; [|split; reflexivity].
    pose proof (operator_clean op f [a] Hop) as Hf.
    unfold lift; simpl. destruct (f [a]) as [v|e]; simpl in Hf.
    + intros Hnums. apply Hf. unfold all_plain; simpl.
      rewrite (IH Hnums). reflexivity.
    + apply python_exception_is_neither, Hf.
  - unfold visit_Call.
    destruct func; try (split; reflexivity).
    destruct (names !! id) as [[| | | | |f]|]; try (split; reflexivity).
    unfold bind.
    pose proof (comprehension_outcome names args IHargs self) as Hc.
    rewrite (comprehension_pair names args self).
    destruct (fst (comprehension (visit names) args self)) as [vs|e];
      [|exact Hc].
    pose proof (call_clean f vs self) as Hf.
    destruct (fst (call f vs self)) as [v|e]; simpl in Hf.
    + intros Hnums. apply Hf, Hc, Hnums.
    + apply python_exception_is_neither, Hf.
  - unfold visit_Num, ret; simpl. destruct n; simpl; congruence.
  - destruct c; simpl; solve [split; reflexivity | discriminate].
  - unfold visit_Name. destruct (names !! id) as [[| | | | |]|]; simpl;
      solve [split; reflexivity | discriminate].
  - unfold visit_List, bind.
    pose proof (comprehension_outcome names elts IH self) as Hc.
    rewrite (comprehension_pair names elts self).
    destruct (fst (comprehension (visit names) elts self)) as [vs|e];
      exact Hc.
  - split; reflexivity.
Qed.

End Clean.

(** X8: what visiting a tree returns is a number or a list, lists within lists
    included, and holds no function of the registry: a name bound to one
    cannot be made a result, by itself, in a list, or through an operator or
    a function. *)
Theorem results_hold_no_function :
  forall (M : Libm) (names : gmap string value) (node : ast.node)
         (self : Calculator) (v : value),
    nums_hold_numbers node = true ->
    fst (visit names node self) = Ok v ->
    holds_callable v = false.
Proof.
  intros M names node self v Hnums Hv.
  pose proof (visit_outcome names node self) as H. unfold outcome in H.
  rewrite Hv in H. exact (H Hnums).
Qed.

(** [[pi, abs(-2)] * 2], with the literal as a legacy [Num] node. *)
Lemma results_hold_no_function_witness :
  nums_hold_numbers
    (ast.BinOp
       (ast.List [ast.Name "pi";
                  ast.Call (ast.Name "abs") [ast.Num (VInt (-2))] []])
       ast.Mult (ast.Constant (ast.CInt 2)))
  = true
  /\ (forall M : Libm,
        fst (visit _make_names
               (ast.BinOp
                  (ast.List [ast.Name "pi";
                             ast.Call (ast.Name "abs") [ast.Num (VInt (-2))] []])
                  ast.Mult (ast.Constant (ast.CInt 2)))
               Calculator__init__)
        = Ok (VList [VFloat math.pi; VInt 2; VFloat math.pi; VInt 2]))
  /\ (forall M : Libm,
        holds_callable (VList [VFloat math.pi; VInt 2; VFloat math.pi; VInt 2])
        = false).
Proof.
  split; [reflexivity|]. split; [intros M; vm_compute; reflexivity|].
  intros M.
  apply (results_hold_no_function M _make_names
           (ast.BinOp
              (ast.List [ast.Name "pi";
                         ast.Call (ast.Name "abs") [ast.Num (VInt (-2))] []])
              ast.Mult (ast.Constant (ast.CInt 2)))
           Calculator__init__).
  - reflexivity.
  - vm_compute. reflexivity.
Defined.

(** X9: no SyntaxError leaves [_eval_expression], whatever the parser raises:
    the parser's is wrapped into a SafeEvalError, and no operator, function
    or method of the visitor raises one. *)
Theorem syntax_error_never_escapes :
  forall (M : Libm) (P : Parser) (expression : string) (self : Calculator)
         (e : exn),
    fst (_eval_expression expression self) = Raise e ->
    is_syntax_error e = false.
Proof.
  intros M P expression self e. unfold _eval_expression.
  destruct (ast_parse _) as [node|[]]; simpl;
    try (intros H; inversion H; reflexivity).
  pose proof (visit_outcome (_names self) node self) as H. unfold outcome in H.
  destruct (fst (visit (_names self) node self)) as [v|e']; [discriminate|].
  intros E. inversion E. subst e'. apply H.
Qed.

(** "2 +" is no expression of the grammar, and evaluating it raises a
    SafeEvalError. *)
Lemma syntax_error_never_escapes_witness :
  (exists msg, ast_parse (Parser := py_parser) "2 +" = Raise (SyntaxError msg))
  /\ (forall M : Libm,
        exists e,
          fst (_eval_expression (P := py_parser) "2 +" Calculator__init__) = Raise e
          /\ is_syntax_error e = false).
Proof.
  split.
  - eexists. vm_compute. reflexivity.
  - intros M.
    assert (exists e,
              fst (_eval_expression (P := py_parser) "2 +" Calculator__init__)
              = Raise e) as [e He]
      by (eexists; vm_compute; reflexivity).
    exists e. split; [exact He|].
    exact (syntax_error_never_escapes M py_parser "2 +" Calculator__init__ e He).
Defined.

Lemma prefix_append (s t : string) : String.prefix s (s +:+ t) = true.
Proof.
  induction s as [|a s IH]; [destruct t; reflexivity|].
  rewrite append_cons. simpl. destruct (ascii_dec a a); [exact IH | contradiction].
Qed.

(** X10: [generic_visit] is defined and never reached: [visit] raises its own
    exception for a class without a method, so no evaluation raises what
    [generic_visit] would, for any node at all. *)
Theorem generic_visit_is_never_reached :
  forall (M : Libm) (names : gmap string value) (node : ast.node)
         (self : Calculator) (e : exn),
    fst (visit names node self) = Raise e ->
    forall (other : ast.node) (self' : Calculator),
      fst (generic_visit other self') <> Raise e.
Proof.
  intros M names node self e He other self' Hother.
  pose proof (visit_outcome names node self) as H. unfold outcome in H.
  rewrite He in H. destruct H as [_ H].
  unfold generic_visit, raise in Hother. simpl in Hother.
  inversion Hother. subst e.
  simpl in H. rewrite prefix_append in H. discriminate H.
Qed.

(** A tuple has no method: "Unsupported expression: Tuple", which is not
    what [generic_visit] raises for a tuple. *)
Lemma generic_visit_is_never_reached_witness :
  (forall M : Libm,
     fst (visit _make_names (ast.Other ast.Tuple []) Calculator__init__)
     = Raise (SafeEvalError "Unsupported expression: Tuple"))
  /\ (forall M : Libm,
        fst (generic_visit (ast.Other ast.Tuple []) Calculator__init__)
        = Raise (SafeEvalError "Disallowed expression element: Tuple"))
  /\ (forall M : Libm,
        fst (generic_visit (ast.Other ast.Tuple []) Calculator__init__)
        <> Raise (SafeEvalError "Unsupported expression: Tuple")).
Proof.
  split; [intros M; reflexivity|]. split; [intros M; reflexivity|].
  intros M.
  exact (generic_visit_is_never_reached M _make_names (ast.Other ast.Tuple [])
           Calculator__init__ (SafeEvalError "Unsupported expression: Tuple")
           eq_refl (ast.Other ast.Tuple []) Calculator__init__).
Defined.

(** ** The batch mode *)

(** X11: the loop of the batch mode makes one row for each expression, in the
    order entered; each row is what evaluating that expression alone in the
    calculator of the start gives, so an expression that fails neither stops
    the loop nor changes a later row; the last result is that of the last
    expression that succeeded, or the one before the loop when none did; and
    the calculator is left as it was. *)
Theorem batch_loop_rows :
  forall (M : Libm) (P : Parser) (expressions : list string)
         (results : list row) (last_result : option value) (calc : Calculator),
    batch_loop expressions results last_result calc
    = ((results ++ map (row_of calc) expressions,
        fold_left (fun last expr =>
                     match fst (evaluate expr calc) with
                     | Ok res => Some res
                     | Raise _ => last
                     end) expressions last_result),
       calc)%list.
Proof.
  intros M P expressions.
  induction expressions as [|expr rest IH]; intros results last_result calc; simpl.
  - rewrite app_nil_r. reflexivity.
  - pose proof (eval_expression_frame expr calc) as Hframe.
    unfold row_of, evaluate in *.
    destruct (_eval_expression expr calc) as [[res|e] calc'] eqn:E;
      simpl in Hframe; subst calc'; rewrite IH, <- app_assoc; reflexivity.
Qed.
